(** * Congestion-control engine: shallow embedding and verified properties

    The Python sources embedded here are
      - backend/algorithms/reno.py, backend/algorithms/bbr.py
      - tcp-file-transfer/backend/algorithms/tahoe.py, .../cubic.py
      - backend/models/adaptive_tcp_congestion.py
      - backend/models/tcp_congestion.py (the rule-based controller)
      - backend/models/connection_manager.py (the client registry)
      - tcp-file-transfer/backend/models/tcp_congestion.py

    Numbers.  Python floats and ints that take part in window arithmetic
    are modelled as exact rationals [Q]; rounding, overflow and NaN are
    outside the model.  The one infinite value the code uses on purpose,
    [float('inf')] as the initial BBR [min_rtt], is modelled by a
    dedicated constructor.  Counters that are only ever incremented from
    [0] are [nat]; acknowledgement numbers are [Z].

    Exceptions.  Python's [/] raises [ZeroDivisionError] on a zero
    divisor; a method that raises leaves the object as mutated so far.
    Pure computations return [result], methods return [outcome], which
    carries the object state in both cases.

    Clock.  Every call of [time.time()] is an explicit reading supplied
    by the caller of the embedded function, one argument (or record
    field) per call site. *)

From Stdlib Require Import QArith ZArith List Bool Lia Lqa Arith.
From Stdlib Require Import Qpower Qabs.
From Stdlib Require String.
Import ListNotations.
Open Scope Q_scope.

(** ** Python primitives *)

Module Py.

Inductive exn : Type := ZeroDivisionError | TypeError.

Inductive result (A : Type) : Type :=
| Ok (a : A)
| Err (e : exn).
Arguments Ok {A} a.
Arguments Err {A} e.

Inductive outcome (S : Type) : Type :=
| Done (s : S)
| Raised (e : exn) (s : S).
Arguments Done {S} s.
Arguments Raised {S} e s.

(** The object state after the call, whether it returned or raised. *)
Definition final {S : Type} (o : outcome S) : S :=
  match o with Done s => s | Raised _ s => s end.

Definition bind {S : Type} (o : outcome S) (k : S -> outcome S) : outcome S :=
  match o with
  | Done s => k s
  | Raised e s => Raised e s
  end.

Definition rbind {A B : Type} (r : result A) (k : A -> result B) : result B :=
  match r with
  | Ok a => k a
  | Err e => Err e
  end.

(** [x < y] on floats. *)
Definition Qltb (x y : Q) : bool := negb (Qle_bool y x).

(** [max(a, b)]: the first argument unless the second is greater. *)
Definition pymax (a b : Q) : Q := if Qltb a b then b else a.

(** [min(a, b)]: the first argument unless the second is smaller. *)
Definition pymin (a b : Q) : Q := if Qltb b a then b else a.

(** [a / b]. *)
Definition truediv (a b : Q) : result Q :=
  if Qeq_bool b 0 then Err ZeroDivisionError else Ok (a / b).

(** Truthiness of an optional float argument: [None] and [0] are falsy. *)
Definition truthy (x : option Q) : bool :=
  match x with
  | None => false
  | Some q => negb (Qeq_bool q 0)
  end.

(** [sum(l)] *)
Definition sum (l : list Q) : Q := fold_left Qplus l 0.

(** [l[-n:]] for a positive literal [n]. *)
Definition last_n {A : Type} (n : nat) (l : list A) : list A :=
  skipn (length l - n) l.

End Py.

Import Py.

Notation "'do' s <- o ; k" := (bind o (fun s => k))
  (at level 10, s name, o at level 100, k at level 200).
Notation "'try' x <- r ; k" := (rbind r (fun x => k))
  (at level 10, x name, r at level 100, k at level 200).

(** ** Reno (backend/algorithms/reno.py) *)

Module Reno.

Inductive phase : Type := slow_start | congestion_avoidance | fast_recovery.

Definition phase_eqb (p q : phase) : bool :=
  match p, q with
  | slow_start, slow_start => true
  | congestion_avoidance, congestion_avoidance => true
  | fast_recovery, fast_recovery => true
  | _, _ => false
  end.

Record t : Type := mk {
  cwnd : Q;
  ssthresh : Q;
  state : phase;
  duplicate_acks : Z;
  recover : Z
}.

Definition init : t := mk 1 65535 slow_start 0%Z 0%Z.

Definition set_cwnd (s : t) (v : Q) : t :=
  mk v (ssthresh s) (state s) (duplicate_acks s) (recover s).
Definition set_ssthresh (s : t) (v : Q) : t :=
  mk (cwnd s) v (state s) (duplicate_acks s) (recover s).
Definition set_state (s : t) (v : phase) : t :=
  mk (cwnd s) (ssthresh s) v (duplicate_acks s) (recover s).
Definition set_duplicate_acks (s : t) (v : Z) : t :=
  mk (cwnd s) (ssthresh s) (state s) v (recover s).
Definition set_recover (s : t) (v : Z) : t :=
  mk (cwnd s) (ssthresh s) (state s) (duplicate_acks s) v.

Definition enter_fast_recovery (s : t) (ack_num : Z) : t :=
  let s := set_ssthresh s (pymax (cwnd s / 2) 2) in
  let s := set_cwnd s (ssthresh s + 3) in
  let s := set_state s fast_recovery in
  set_recover s ack_num.

Definition on_ack_received (s : t) (ack_num : Z) : outcome t :=
  if phase_eqb (state s) fast_recovery then
    if (recover s <? ack_num)%Z then
      let s := set_cwnd s (ssthresh s) in
      let s := set_state s congestion_avoidance in
      Done (set_duplicate_acks s 0%Z)
    else
      Done (set_cwnd s (cwnd s + 1))
  else if (3 <=? duplicate_acks s)%Z then
    Done (enter_fast_recovery s ack_num)
  else
    if phase_eqb (state s) slow_start then
      let s := set_cwnd s (cwnd s + 1) in
      if Qle_bool (ssthresh s) (cwnd s)
      then Done (set_state s congestion_avoidance)
      else Done s
    else if phase_eqb (state s) congestion_avoidance then
      match truediv 1 (cwnd s) with
      | Err e => Raised e s
      | Ok d => Done (set_cwnd s (cwnd s + d))
      end
    else Done s.

(** Deliver a list of acks in order, stopping at the first exception. *)
Fixpoint run (s : t) (acks : list Z) : outcome t :=
  match acks with
  | [] => Done s
  | a :: rest => do s' <- on_ack_received s a; run s' rest
  end.

End Reno.

(** ** Tahoe (tcp-file-transfer/backend/algorithms/tahoe.py) *)

Module Tahoe.

Inductive phase : Type := slow_start | congestion_avoidance.

Record t : Type := mk {
  cwnd : Q;
  ssthresh : Q;
  state : phase;
  duplicate_acks : Z;
  last_ack : Z
}.

Definition init : t := mk 1 65535 slow_start 0%Z 0%Z.

Definition set_cwnd (s : t) (v : Q) : t :=
  mk v (ssthresh s) (state s) (duplicate_acks s) (last_ack s).
Definition set_ssthresh (s : t) (v : Q) : t :=
  mk (cwnd s) v (state s) (duplicate_acks s) (last_ack s).
Definition set_state (s : t) (v : phase) : t :=
  mk (cwnd s) (ssthresh s) v (duplicate_acks s) (last_ack s).

Definition on_ack_received (s : t) (ack_num : Z) : outcome t :=
  match state s with
  | slow_start =>
      let s := set_cwnd s (cwnd s + 1) in
      if Qle_bool (ssthresh s) (cwnd s)
      then Done (set_state s congestion_avoidance)
      else Done s
  | congestion_avoidance =>
      match truediv 1 (cwnd s) with
      | Err e => Raised e s
      | Ok d => Done (set_cwnd s (cwnd s + d))
      end
  end.

Definition on_timeout (s : t) : t :=
  let s := set_ssthresh s (pymax (cwnd s / 2) 2) in
  let s := set_cwnd s 1 in
  set_state s slow_start.

End Tahoe.

(** ** Cubic (tcp-file-transfer/backend/algorithms/cubic.py) *)

Module Cubic.

Inductive phase : Type := slow_start | congestion_avoidance.

Record t : Type := mk {
  cwnd : Q;
  ssthresh : Q;
  state : phase;
  wmax : Q;
  epoch_start : Q;
  origin_point : Q
}.

(** [self.c] and [self.beta] are assigned once, in [__init__]. *)
Definition c : Q := 0.4.
Definition beta : Q := 0.7.

Definition init : t := mk 1 65535 slow_start 0 0 0.

Definition set_cwnd (s : t) (v : Q) : t :=
  mk v (ssthresh s) (state s) (wmax s) (epoch_start s) (origin_point s).
Definition set_ssthresh (s : t) (v : Q) : t :=
  mk (cwnd s) v (state s) (wmax s) (epoch_start s) (origin_point s).
Definition set_state (s : t) (v : phase) : t :=
  mk (cwnd s) (ssthresh s) v (wmax s) (epoch_start s) (origin_point s).
Definition set_wmax (s : t) (v : Q) : t :=
  mk (cwnd s) (ssthresh s) (state s) v (epoch_start s) (origin_point s).
Definition set_epoch_start (s : t) (v : Q) : t :=
  mk (cwnd s) (ssthresh s) (state s) (wmax s) v (origin_point s).
Definition set_origin_point (s : t) (v : Q) : t :=
  mk (cwnd s) (ssthresh s) (state s) (wmax s) (epoch_start s) v.

Definition cubic_function (s : t) (x : Q) : Q :=
  c * ((x - origin_point s) ^ 3) + wmax s.

(** [now] is the reading of the single [time.time()] call that either
    branch may make. *)
Definition on_ack_received (s : t) (ack_num : Z) (now : Q) : outcome t :=
  match state s with
  | slow_start =>
      let s := set_cwnd s (cwnd s + 1) in
      if Qle_bool (ssthresh s) (cwnd s) then
        let s := set_state s congestion_avoidance in
        Done (set_epoch_start s now)
      else Done s
  | congestion_avoidance =>
      let x := now - epoch_start s in
      let target_cwnd := cubic_function s x in
      match truediv 1 (cwnd s) with
      | Err e => Raised e s
      | Ok d =>
          if Qltb (cwnd s) target_cwnd
          then Done (set_cwnd s (pymin target_cwnd (cwnd s + d)))
          else Done (set_cwnd s (cwnd s + d))
      end
  end.

Section Loss.

(** [x ** (1/3)], which has no rational model, is a parameter. *)
Variable pow_third : Q -> Q.

Definition on_loss_detected (s : t) (now : Q) : t :=
  let s := set_wmax s (cwnd s) in
  let s := set_cwnd s (cwnd s * beta) in
  let s := set_ssthresh s (cwnd s) in
  let s := set_state s congestion_avoidance in
  let s := set_epoch_start s now in
  set_origin_point s (pow_third (wmax s * (1 - beta) / c)).

End Loss.

End Cubic.

(** ** BBR (backend/algorithms/bbr.py) *)

Module Bbr.

Inductive phase : Type := STARTUP | DRAIN | PROBE_BW | PROBE_RTT.

Definition phase_eqb (p q : phase) : bool :=
  match p, q with
  | STARTUP, STARTUP => true
  | DRAIN, DRAIN => true
  | PROBE_BW, PROBE_BW => true
  | PROBE_RTT, PROBE_RTT => true
  | _, _ => false
  end.

(** Values of [min_rtt]: [float('inf')] or a finite sample. *)
Inductive xq : Type := PInf | Fin (q : Q).

Record t : Type := mk {
  bw_estimate : Q;
  min_rtt : xq;
  rtprop_stamp : Q;
  probe_rtt_done_stamp : Q;
  pacing_rate : Q;
  cwnd : Q;
  ssthresh : Q;
  state : phase;
  cycle_index : nat;
  cycle_stamp : Q;
  prior_cwnd : Q;
  pacing_gain : Q;
  packet_count : nat;
  delivered : Q;
  delivery_rate : Q;
  round_start : bool;
  full_bw_reached : bool;
  full_bw : Q;
  full_bw_count : nat
}.

(** Configuration attributes, assigned once in [__init__]. *)
Definition bbr_high_gain : Q := 2.885.
Definition bbr_drain_gain : Q := 1 / 2.885.
Definition bbr_cwnd_gain : Q := 2.
Definition bbr_probe_rtt_time : Q := 0.2.
Definition bbr_rtprop_filterlen : Q := 10.
Definition pacing_gain_cycle : list Q := [1.25; 0.75; 1; 1; 1; 1; 1; 1].

Definition init : t :=
  mk 1000000 PInf 0 0 1000000 10 65535 STARTUP 0%nat 0 0 1 0%nat
     0 0 true false 0 0%nat.

Definition set_bw_estimate (s : t) (v : Q) : t :=
  mk v (min_rtt s) (rtprop_stamp s) (probe_rtt_done_stamp s) (pacing_rate s)
     (cwnd s) (ssthresh s) (state s) (cycle_index s) (cycle_stamp s)
     (prior_cwnd s) (pacing_gain s) (packet_count s) (delivered s)
     (delivery_rate s) (round_start s) (full_bw_reached s) (full_bw s)
     (full_bw_count s) .
Definition set_min_rtt (s : t) (v : xq) : t :=
  mk (bw_estimate s) v (rtprop_stamp s) (probe_rtt_done_stamp s)
     (pacing_rate s) (cwnd s) (ssthresh s) (state s) (cycle_index s)
     (cycle_stamp s) (prior_cwnd s) (pacing_gain s) (packet_count s)
     (delivered s) (delivery_rate s) (round_start s) (full_bw_reached s)
     (full_bw s) (full_bw_count s) .
Definition set_rtprop_stamp (s : t) (v : Q) : t :=
  mk (bw_estimate s) (min_rtt s) v (probe_rtt_done_stamp s) (pacing_rate s)
     (cwnd s) (ssthresh s) (state s) (cycle_index s) (cycle_stamp s)
     (prior_cwnd s) (pacing_gain s) (packet_count s) (delivered s)
     (delivery_rate s) (round_start s) (full_bw_reached s) (full_bw s)
     (full_bw_count s) .
Definition set_probe_rtt_done_stamp (s : t) (v : Q) : t :=
  mk (bw_estimate s) (min_rtt s) (rtprop_stamp s) v (pacing_rate s) (cwnd s)
     (ssthresh s) (state s) (cycle_index s) (cycle_stamp s) (prior_cwnd s)
     (pacing_gain s) (packet_count s) (delivered s) (delivery_rate s)
     (round_start s) (full_bw_reached s) (full_bw s) (full_bw_count s) .
Definition set_pacing_rate (s : t) (v : Q) : t :=
  mk (bw_estimate s) (min_rtt s) (rtprop_stamp s) (probe_rtt_done_stamp s) v
     (cwnd s) (ssthresh s) (state s) (cycle_index s) (cycle_stamp s)
     (prior_cwnd s) (pacing_gain s) (packet_count s) (delivered s)
     (delivery_rate s) (round_start s) (full_bw_reached s) (full_bw s)
     (full_bw_count s) .
Definition set_cwnd (s : t) (v : Q) : t :=
  mk (bw_estimate s) (min_rtt s) (rtprop_stamp s) (probe_rtt_done_stamp s)
     (pacing_rate s) v (ssthresh s) (state s) (cycle_index s)
     (cycle_stamp s) (prior_cwnd s) (pacing_gain s) (packet_count s)
     (delivered s) (delivery_rate s) (round_start s) (full_bw_reached s)
     (full_bw s) (full_bw_count s) .
Definition set_ssthresh (s : t) (v : Q) : t :=
  mk (bw_estimate s) (min_rtt s) (rtprop_stamp s) (probe_rtt_done_stamp s)
     (pacing_rate s) (cwnd s) v (state s) (cycle_index s) (cycle_stamp s)
     (prior_cwnd s) (pacing_gain s) (packet_count s) (delivered s)
     (delivery_rate s) (round_start s) (full_bw_reached s) (full_bw s)
     (full_bw_count s) .
Definition set_state (s : t) (v : phase) : t :=
  mk (bw_estimate s) (min_rtt s) (rtprop_stamp s) (probe_rtt_done_stamp s)
     (pacing_rate s) (cwnd s) (ssthresh s) v (cycle_index s) (cycle_stamp s)
     (prior_cwnd s) (pacing_gain s) (packet_count s) (delivered s)
     (delivery_rate s) (round_start s) (full_bw_reached s) (full_bw s)
     (full_bw_count s) .
Definition set_cycle_index (s : t) (v : nat) : t :=
  mk (bw_estimate s) (min_rtt s) (rtprop_stamp s) (probe_rtt_done_stamp s)
     (pacing_rate s) (cwnd s) (ssthresh s) (state s) v (cycle_stamp s)
     (prior_cwnd s) (pacing_gain s) (packet_count s) (delivered s)
     (delivery_rate s) (round_start s) (full_bw_reached s) (full_bw s)
     (full_bw_count s) .
Definition set_cycle_stamp (s : t) (v : Q) : t :=
  mk (bw_estimate s) (min_rtt s) (rtprop_stamp s) (probe_rtt_done_stamp s)
     (pacing_rate s) (cwnd s) (ssthresh s) (state s) (cycle_index s) v
     (prior_cwnd s) (pacing_gain s) (packet_count s) (delivered s)
     (delivery_rate s) (round_start s) (full_bw_reached s) (full_bw s)
     (full_bw_count s) .
Definition set_prior_cwnd (s : t) (v : Q) : t :=
  mk (bw_estimate s) (min_rtt s) (rtprop_stamp s) (probe_rtt_done_stamp s)
     (pacing_rate s) (cwnd s) (ssthresh s) (state s) (cycle_index s)
     (cycle_stamp s) v (pacing_gain s) (packet_count s) (delivered s)
     (delivery_rate s) (round_start s) (full_bw_reached s) (full_bw s)
     (full_bw_count s) .
Definition set_pacing_gain (s : t) (v : Q) : t :=
  mk (bw_estimate s) (min_rtt s) (rtprop_stamp s) (probe_rtt_done_stamp s)
     (pacing_rate s) (cwnd s) (ssthresh s) (state s) (cycle_index s)
     (cycle_stamp s) (prior_cwnd s) v (packet_count s) (delivered s)
     (delivery_rate s) (round_start s) (full_bw_reached s) (full_bw s)
     (full_bw_count s) .
Definition set_packet_count (s : t) (v : nat) : t :=
  mk (bw_estimate s) (min_rtt s) (rtprop_stamp s) (probe_rtt_done_stamp s)
     (pacing_rate s) (cwnd s) (ssthresh s) (state s) (cycle_index s)
     (cycle_stamp s) (prior_cwnd s) (pacing_gain s) v (delivered s)
     (delivery_rate s) (round_start s) (full_bw_reached s) (full_bw s)
     (full_bw_count s) .
Definition set_delivered (s : t) (v : Q) : t :=
  mk (bw_estimate s) (min_rtt s) (rtprop_stamp s) (probe_rtt_done_stamp s)
     (pacing_rate s) (cwnd s) (ssthresh s) (state s) (cycle_index s)
     (cycle_stamp s) (prior_cwnd s) (pacing_gain s) (packet_count s) v
     (delivery_rate s) (round_start s) (full_bw_reached s) (full_bw s)
     (full_bw_count s) .
Definition set_delivery_rate (s : t) (v : Q) : t :=
  mk (bw_estimate s) (min_rtt s) (rtprop_stamp s) (probe_rtt_done_stamp s)
     (pacing_rate s) (cwnd s) (ssthresh s) (state s) (cycle_index s)
     (cycle_stamp s) (prior_cwnd s) (pacing_gain s) (packet_count s)
     (delivered s) v (round_start s) (full_bw_reached s) (full_bw s)
     (full_bw_count s) .
Definition set_round_start (s : t) (v : bool) : t :=
  mk (bw_estimate s) (min_rtt s) (rtprop_stamp s) (probe_rtt_done_stamp s)
     (pacing_rate s) (cwnd s) (ssthresh s) (state s) (cycle_index s)
     (cycle_stamp s) (prior_cwnd s) (pacing_gain s) (packet_count s)
     (delivered s) (delivery_rate s) v (full_bw_reached s) (full_bw s)
     (full_bw_count s) .
Definition set_full_bw_reached (s : t) (v : bool) : t :=
  mk (bw_estimate s) (min_rtt s) (rtprop_stamp s) (probe_rtt_done_stamp s)
     (pacing_rate s) (cwnd s) (ssthresh s) (state s) (cycle_index s)
     (cycle_stamp s) (prior_cwnd s) (pacing_gain s) (packet_count s)
     (delivered s) (delivery_rate s) (round_start s) v (full_bw s)
     (full_bw_count s) .
Definition set_full_bw (s : t) (v : Q) : t :=
  mk (bw_estimate s) (min_rtt s) (rtprop_stamp s) (probe_rtt_done_stamp s)
     (pacing_rate s) (cwnd s) (ssthresh s) (state s) (cycle_index s)
     (cycle_stamp s) (prior_cwnd s) (pacing_gain s) (packet_count s)
     (delivered s) (delivery_rate s) (round_start s) (full_bw_reached s) v
     (full_bw_count s) .
Definition set_full_bw_count (s : t) (v : nat) : t :=
  mk (bw_estimate s) (min_rtt s) (rtprop_stamp s) (probe_rtt_done_stamp s)
     (pacing_rate s) (cwnd s) (ssthresh s) (state s) (cycle_index s)
     (cycle_stamp s) (prior_cwnd s) (pacing_gain s) (packet_count s)
     (delivered s) (delivery_rate s) (round_start s) (full_bw_reached s)
     (full_bw s) v.

(** One reading per [time.time()] call site reachable from
    [on_ack_received], in source order. *)
Record clock : Type := mk_clock {
  t_ack : Q;      (* on_ack_received *)
  t_min_rtt : Q;  (* update_min_rtt *)
  t_cycle : Q;    (* advance_cycle_phase *)
  t_probe : Q;    (* check_probe_rtt *)
  t_handle : Q    (* handle_probe_rtt *)
}.

(** [rtt < self.min_rtt] *)
Definition lt_min_rtt (rtt : Q) (m : xq) : bool :=
  match m with
  | PInf => true
  | Fin q => Qltb rtt q
  end.

(** [d > self.min_rtt] *)
Definition gt_min_rtt (d : Q) (m : xq) : bool :=
  match m with
  | PInf => false
  | Fin q => Qltb q d
  end.

(** [cwnd <= bw * self.min_rtt]; with an infinite [min_rtt] the product
    is [+inf] for a positive [bw], and [-inf] or NaN otherwise. *)
Definition le_bdp (w bw : Q) (m : xq) : bool :=
  match m with
  | PInf => Qltb 0 bw
  | Fin q => Qle_bool w (bw * q)
  end.

Definition update_bandwidth_estimate (s : t) (delivered_bytes elapsed_time : Q)
  : outcome t :=
  if Qltb 0 elapsed_time then
    match truediv delivered_bytes elapsed_time with
    | Err e => Raised e s
    | Ok current_bw =>
        if Qltb (bw_estimate s) current_bw || Qltb 1 elapsed_time
        then Done (set_bw_estimate s current_bw)
        else Done s
    end
  else Done s.

Definition update_min_rtt (s : t) (rtt : Q) (current_time : Q) : t :=
  if lt_min_rtt rtt (min_rtt s)
     || Qltb bbr_rtprop_filterlen (current_time - rtprop_stamp s)
  then
    let s := set_min_rtt s (Fin rtt) in
    set_rtprop_stamp s current_time
  else s.

Definition check_startup_done (s : t) : bool * t :=
  if full_bw_reached s then (true, s)
  else
    let s :=
      if Qle_bool (full_bw s * 1.25) (bw_estimate s) then
        let s := set_full_bw s (bw_estimate s) in
        set_full_bw_count s 0%nat
      else set_full_bw_count s (full_bw_count s + 1)%nat in
    if (3 <=? full_bw_count s)%nat
    then (true, set_full_bw_reached s true)
    else (false, s).

Definition set_pacing_rate_ (s : t) : t :=
  let rate := bw_estimate s * pacing_gain s in
  set_pacing_rate s (pymax rate 1000).

Definition set_cwnd_ (s : t) : t :=
  match min_rtt s with
  | PInf => s
  | Fin m =>
      let bdp := bw_estimate s * m in
      let w := bdp * bbr_cwnd_gain in
      let s := set_cwnd s (pymax w 4) in
      if phase_eqb (state s) PROBE_RTT
      then set_cwnd s (pymax 4 bdp)
      else s
  end.

Definition advance_cycle_phase (s : t) (current_time : Q) : t :=
  if gt_min_rtt (current_time - cycle_stamp s) (min_rtt s) then
    let s := set_cycle_index s
               ((cycle_index s + 1) mod length pacing_gain_cycle)%nat in
    let s := set_pacing_gain s (nth (cycle_index s) pacing_gain_cycle 1) in
    set_cycle_stamp s current_time
  else s.

Definition check_probe_rtt (s : t) (current_time : Q) : t :=
  if negb (phase_eqb (state s) PROBE_RTT)
     && Qltb bbr_rtprop_filterlen (current_time - rtprop_stamp s)
  then
    let s := set_state s PROBE_RTT in
    let s := set_pacing_gain s 1 in
    let s := set_prior_cwnd s (cwnd s) in
    set_probe_rtt_done_stamp s (current_time + bbr_probe_rtt_time)
  else s.

Definition handle_probe_rtt (s : t) (current_time : Q) : t :=
  if Qle_bool (probe_rtt_done_stamp s) current_time then
    let s := set_rtprop_stamp s current_time in
    let s := if Qltb 0 (prior_cwnd s)
             then set_cwnd s (pymax (cwnd s) (prior_cwnd s))
             else s in
    let s := set_state s PROBE_BW in
    let s := set_cycle_index s 0%nat in
    let s := set_pacing_gain s (nth 0 pacing_gain_cycle 1) in
    set_cycle_stamp s current_time
  else s.

(** The [if/elif] chain on [self.state] in [on_ack_received]. *)
Definition state_machine (s : t) (current_time : Q) (clk : clock) : t :=
  match state s with
  | STARTUP =>
      let s := set_pacing_gain s bbr_high_gain in
      let '(done, s) := check_startup_done s in
      if done then
        let s := set_state s DRAIN in
        set_pacing_gain s bbr_drain_gain
      else s
  | DRAIN =>
      if le_bdp (cwnd s) (bw_estimate s) (min_rtt s) then
        let s := set_state s PROBE_BW in
        let s := set_cycle_index s 0%nat in
        let s := set_pacing_gain s 1 in
        set_cycle_stamp s current_time
      else s
  | PROBE_BW => advance_cycle_phase s (t_cycle clk)
  | PROBE_RTT => s
  end.

(** [rtt=None], [delivered_bytes=0] and [elapsed_time=0] are the
    defaults of the Python signature. *)
Definition on_ack_received (s : t) (ack_num : Z) (rtt : option Q)
    (delivered_bytes elapsed_time : Q) (clk : clock) : outcome t :=
  let current_time := t_ack clk in
  let s := match rtt with
           | Some r => if truthy rtt then update_min_rtt s r (t_min_rtt clk) else s
           | None => s
           end in
  do s <- (if Qltb 0 elapsed_time
           then update_bandwidth_estimate s delivered_bytes elapsed_time
           else Done s);
  let s := state_machine s current_time clk in
  let s := check_probe_rtt s (t_probe clk) in
  let s := if phase_eqb (state s) PROBE_RTT
           then handle_probe_rtt s (t_handle clk)
           else s in
  let s := set_pacing_rate_ s in
  let s := set_cwnd_ s in
  Done (set_packet_count s (packet_count s + 1)%nat).

Definition on_loss_detected (s : t) : t := s.

(** One ack event: the arguments of a call and its clock readings. *)
Record event : Type := mk_event {
  ev_ack_num : Z;
  ev_rtt : option Q;
  ev_delivered_bytes : Q;
  ev_elapsed_time : Q;
  ev_clock : clock
}.

Definition deliver (s : t) (e : event) : outcome t :=
  on_ack_received s (ev_ack_num e) (ev_rtt e) (ev_delivered_bytes e)
    (ev_elapsed_time e) (ev_clock e).

Fixpoint run (s : t) (evs : list event) : outcome t :=
  match evs with
  | [] => Done s
  | e :: rest => do s' <- deliver s e; run s' rest
  end.

End Bbr.

(** ** Adaptive controller (backend/models/adaptive_tcp_congestion.py) *)

Module Controller.

Inductive AlgorithmType : Type := RENO | CUBIC | TAHOE | BBR.

Definition AlgorithmType_eqb (a b : AlgorithmType) : bool :=
  match a, b with
  | RENO, RENO => true
  | CUBIC, CUBIC => true
  | TAHOE, TAHOE => true
  | BBR, BBR => true
  | _, _ => false
  end.

Inductive NetworkCondition : Type :=
  EXCELLENT | GOOD | CONGESTED | LOSSY | HIGH_BW.

(** The object held in [self.algorithm]. *)
Inductive algorithm_obj : Type :=
| AReno (a : Reno.t)
| ACubic (a : Cubic.t)
| ATahoe (a : Tahoe.t)
| ABbr (a : Bbr.t).

(** One entry of the [algorithm_performance] dictionary. *)
Record perf : Type := mk_perf {
  switches : nat;
  total_time : Q;
  performance_score : Q
}.

(** The [reason] argument of [switch_algorithm]: its default, or the
    string built by [adaptive_algorithm_switch]. *)
Inductive reason : Type :=
| Manual
| Network_condition (c : NetworkCondition).

(** A line printed by [switch_algorithm].  [sw_time] is the value of
    [current_time] at the switch; it is not part of the printed text. *)
Record switch_line : Type := mk_line {
  sw_old : AlgorithmType;
  sw_new : AlgorithmType;
  sw_reason : reason;
  sw_time : Q
}.

(** The dictionary has the four kinds as keys from [__init__] on and no
    key is ever added or removed, so it is a total map.  [stdout] is the
    sequence of lines printed so far, oldest first. *)
Record t : Type := mk {
  algorithm_type : AlgorithmType;
  algorithm : algorithm_obj;
  packets_sent : nat;
  packets_lost : nat;
  rtt_history : list Q;
  bandwidth_history : list Q;
  start_time : Q;
  last_switch_time : Q;
  algorithm_performance : AlgorithmType -> perf;
  stdout : list switch_line
}.

Definition set_algorithm_type (s : t) (v : AlgorithmType) : t :=
  mk v (algorithm s) (packets_sent s) (packets_lost s) (rtt_history s)
     (bandwidth_history s) (start_time s) (last_switch_time s)
     (algorithm_performance s) (stdout s) .
Definition set_algorithm (s : t) (v : algorithm_obj) : t :=
  mk (algorithm_type s) v (packets_sent s) (packets_lost s) (rtt_history s)
     (bandwidth_history s) (start_time s) (last_switch_time s)
     (algorithm_performance s) (stdout s) .
Definition set_packets_sent (s : t) (v : nat) : t :=
  mk (algorithm_type s) (algorithm s) v (packets_lost s) (rtt_history s)
     (bandwidth_history s) (start_time s) (last_switch_time s)
     (algorithm_performance s) (stdout s) .
Definition set_packets_lost (s : t) (v : nat) : t :=
  mk (algorithm_type s) (algorithm s) (packets_sent s) v (rtt_history s)
     (bandwidth_history s) (start_time s) (last_switch_time s)
     (algorithm_performance s) (stdout s) .
Definition set_rtt_history (s : t) (v : list Q) : t :=
  mk (algorithm_type s) (algorithm s) (packets_sent s) (packets_lost s) v
     (bandwidth_history s) (start_time s) (last_switch_time s)
     (algorithm_performance s) (stdout s) .
Definition set_bandwidth_history (s : t) (v : list Q) : t :=
  mk (algorithm_type s) (algorithm s) (packets_sent s) (packets_lost s)
     (rtt_history s) v (start_time s) (last_switch_time s)
     (algorithm_performance s) (stdout s) .
Definition set_start_time (s : t) (v : Q) : t :=
  mk (algorithm_type s) (algorithm s) (packets_sent s) (packets_lost s)
     (rtt_history s) (bandwidth_history s) v (last_switch_time s)
     (algorithm_performance s) (stdout s) .
Definition set_last_switch_time (s : t) (v : Q) : t :=
  mk (algorithm_type s) (algorithm s) (packets_sent s) (packets_lost s)
     (rtt_history s) (bandwidth_history s) (start_time s) v
     (algorithm_performance s) (stdout s) .
Definition set_algorithm_performance (s : t) (v : AlgorithmType -> perf) : t :=
  mk (algorithm_type s) (algorithm s) (packets_sent s) (packets_lost s)
     (rtt_history s) (bandwidth_history s) (start_time s)
     (last_switch_time s) v (stdout s) .
Definition set_stdout (s : t) (v : list switch_line) : t :=
  mk (algorithm_type s) (algorithm s) (packets_sent s) (packets_lost s)
     (rtt_history s) (bandwidth_history s) (start_time s)
     (last_switch_time s) (algorithm_performance s) v.

(** Thresholds, assigned once in [__init__]. *)
Definition switch_cooldown : Q := 10.
Definition rtt_threshold_high : Q := 100.
Definition rtt_threshold_excellent : Q := 20.
Definition loss_threshold_high : Q := 0.02.
Definition loss_threshold_low : Q := 0.001.
Definition bandwidth_threshold_high : Q := 10 * 1024 * 1024.

(** Readings of [time.time()] during one controller call. *)
Record clock : Type := mk_clock {
  t_bbr : Bbr.clock;   (* calls made by BBRAlgorithm.on_ack_received *)
  t_cubic : Q;         (* the call made by a CubicAlgorithm method *)
  t_policy : Q;        (* should_switch_algorithm *)
  t_switch : Q         (* switch_algorithm *)
}.

Definition upd (m : AlgorithmType -> perf) (k : AlgorithmType) (v : perf)
  : AlgorithmType -> perf :=
  fun k' => if AlgorithmType_eqb k' k then v else m k'.

Definition alg_cwnd (a : algorithm_obj) : Q :=
  match a with
  | AReno x => Reno.cwnd x
  | ACubic x => Cubic.cwnd x
  | ATahoe x => Tahoe.cwnd x
  | ABbr x => Bbr.cwnd x
  end.

Definition alg_ssthresh (a : algorithm_obj) : Q :=
  match a with
  | AReno x => Reno.ssthresh x
  | ACubic x => Cubic.ssthresh x
  | ATahoe x => Tahoe.ssthresh x
  | ABbr x => Bbr.ssthresh x
  end.

Definition alg_set_cwnd (a : algorithm_obj) (v : Q) : algorithm_obj :=
  match a with
  | AReno x => AReno (Reno.set_cwnd x v)
  | ACubic x => ACubic (Cubic.set_cwnd x v)
  | ATahoe x => ATahoe (Tahoe.set_cwnd x v)
  | ABbr x => ABbr (Bbr.set_cwnd x v)
  end.

Definition alg_set_ssthresh (a : algorithm_obj) (v : Q) : algorithm_obj :=
  match a with
  | AReno x => AReno (Reno.set_ssthresh x v)
  | ACubic x => ACubic (Cubic.set_ssthresh x v)
  | ATahoe x => ATahoe (Tahoe.set_ssthresh x v)
  | ABbr x => ABbr (Bbr.set_ssthresh x v)
  end.

Definition initial_performance : AlgorithmType -> perf :=
  fun _ => mk_perf 0 0 0.

Definition _initialize_algorithm (c : t) : t :=
  match algorithm_type c with
  | RENO => set_algorithm c (AReno Reno.init)
  | CUBIC => set_algorithm c (ACubic Cubic.init)
  | TAHOE => set_algorithm c (ATahoe Tahoe.init)
  | BBR => set_algorithm c (ABbr Bbr.init)
  end.

(** [__init__]; the two arguments after the kind are the readings of
    its two [time.time()] calls.  [self.algorithm] does not exist before
    [_initialize_algorithm] assigns it; the record needs a value there,
    which that call overwrites. *)
Definition init (initial_algorithm : AlgorithmType) (t0 t1 : Q) : t :=
  _initialize_algorithm
    (mk initial_algorithm (AReno Reno.init) 0 0 [] [] t0 t1
        initial_performance []).

Definition get_packet_loss_rate (c : t) : result Q :=
  if (packets_sent c =? 0)%nat then Ok 0
  else truediv (inject_Z (Z.of_nat (packets_lost c)))
               (inject_Z (Z.of_nat (packets_sent c))).

(** [sum(h[-n:]) / min(len(h), n)] *)
Definition recent_mean (n : nat) (h : list Q) : result Q :=
  truediv (sum (last_n n h)) (inject_Z (Z.of_nat (Nat.min (length h) n))).

(** [sum(h[-n:]) / min(len(h), n) if h else 0] *)
Definition recent_mean_or_zero (n : nat) (h : list Q) : result Q :=
  match h with
  | [] => Ok 0
  | _ :: _ => recent_mean n h
  end.

Definition classify (loss_rate recent_rtt recent_bandwidth : Q)
  : NetworkCondition :=
  if Qltb loss_threshold_high loss_rate then LOSSY
  else if Qltb rtt_threshold_high recent_rtt then
    if Qltb bandwidth_threshold_high recent_bandwidth
    then HIGH_BW
    else CONGESTED
  else if Qltb recent_rtt rtt_threshold_excellent
          && Qltb loss_rate loss_threshold_low
  then EXCELLENT
  else GOOD.

Definition detect_network_condition (c : t) : result NetworkCondition :=
  if (length (rtt_history c) <? 5)%nat then Ok GOOD
  else
    try recent_rtt <- recent_mean 10 (rtt_history c);
    try loss_rate <- get_packet_loss_rate c;
    try recent_bandwidth <- recent_mean_or_zero 5 (bandwidth_history c);
    Ok (classify loss_rate recent_rtt recent_bandwidth).

Definition get_optimal_algorithm (condition : NetworkCondition)
  : AlgorithmType :=
  match condition with
  | EXCELLENT => BBR
  | GOOD => CUBIC
  | CONGESTED => RENO
  | LOSSY => TAHOE
  | HIGH_BW => CUBIC
  end.

Definition should_switch_algorithm (c : t) (target_algorithm : AlgorithmType)
    (current_time : Q) : bool :=
  if Qltb (current_time - last_switch_time c) switch_cooldown then false
  else if AlgorithmType_eqb target_algorithm (algorithm_type c) then false
  else
    let current_perf :=
      performance_score (algorithm_performance c (algorithm_type c)) in
    let target_perf :=
      performance_score (algorithm_performance c target_algorithm) in
    if Qltb (current_perf * 1.1) target_perf || Qltb current_perf 0.5
    then true
    else true.

Definition switch_algorithm (c : t) (new_algorithm : AlgorithmType)
    (why : reason) (now : Q) : t :=
  if AlgorithmType_eqb new_algorithm (algorithm_type c) then c
  else
    let old_algorithm := algorithm_type c in
    let current_cwnd := alg_cwnd (algorithm c) in
    let current_ssthresh := alg_ssthresh (algorithm c) in
    let current_time := now in
    let p := algorithm_performance c old_algorithm in
    let c := set_algorithm_performance c
               (upd (algorithm_performance c) old_algorithm
                  (mk_perf (switches p)
                           (total_time p + (current_time - last_switch_time c))
                           (performance_score p))) in
    let p := algorithm_performance c new_algorithm in
    let c := set_algorithm_performance c
               (upd (algorithm_performance c) new_algorithm
                  (mk_perf (switches p + 1) (total_time p)
                           (performance_score p))) in
    let c := set_algorithm_type c new_algorithm in
    let c := _initialize_algorithm c in
    let c := set_algorithm c (alg_set_cwnd (algorithm c) current_cwnd) in
    let c := set_algorithm c (alg_set_ssthresh (algorithm c) current_ssthresh) in
    let c := set_last_switch_time c current_time in
    set_stdout c
      (stdout c ++ [mk_line old_algorithm new_algorithm why current_time]).

Section Score.

(** [x ** 0.5] and [x ** (1/3)] have no rational model; they are
    parameters of everything that reaches them. *)
Variable pow_half : Q -> Q.
Variable pow_third : Q -> Q.

Definition _calculate_rtt_variance (c : t) : result Q :=
  if (length (rtt_history c) <? 3)%nat then Ok 0
  else
    let recent_rtts := last_n 10 (rtt_history c) in
    let n := inject_Z (Z.of_nat (length recent_rtts)) in
    try mean_rtt <- truediv (sum recent_rtts) n;
    try variance <-
      truediv (sum (map (fun rtt => (rtt - mean_rtt) ^ 2) recent_rtts)) n;
    Ok (pow_half variance).

Definition calculate_performance_score (c : t) : result Q :=
  if (packets_sent c =? 0)%nat then Ok 0.5
  else
    try loss_rate <- get_packet_loss_rate c;
    try avg_bandwidth <- recent_mean_or_zero 10 (bandwidth_history c);
    try deviation <- _calculate_rtt_variance c;
    try rtt_stability <- truediv 1 (1 + deviation);
    let throughput_score := pymin (avg_bandwidth / 1000000) 1 in
    let loss_penalty := 1 - pymin (loss_rate * 50) 1 in
    let stability_score := rtt_stability in
    Ok (throughput_score * 0.5 + loss_penalty * 0.3 + stability_score * 0.2).

Definition adaptive_algorithm_switch (c : t) (rtt bandwidth : Q) (clk : clock)
  : outcome t :=
  let c := set_rtt_history c (rtt_history c ++ [rtt]) in
  let c := set_bandwidth_history c (bandwidth_history c ++ [bandwidth]) in
  let c := if (50 <? length (rtt_history c))%nat
           then set_rtt_history c (last_n 50 (rtt_history c))
           else c in
  let c := if (50 <? length (bandwidth_history c))%nat
           then set_bandwidth_history c (last_n 50 (bandwidth_history c))
           else c in
  match calculate_performance_score c with
  | Err e => Raised e c
  | Ok current_score =>
      let p := algorithm_performance c (algorithm_type c) in
      let c := set_algorithm_performance c
                 (upd (algorithm_performance c) (algorithm_type c)
                    (mk_perf (switches p) (total_time p) current_score)) in
      match detect_network_condition c with
      | Err e => Raised e c
      | Ok condition =>
          let optimal_algorithm := get_optimal_algorithm condition in
          if should_switch_algorithm c optimal_algorithm (t_policy clk)
          then Done (switch_algorithm c optimal_algorithm
                       (Network_condition condition) (t_switch clk))
          else Done c
      end
  end.

(** [self.algorithm.on_ack_received(ack_num)] *)
Definition alg_on_ack (a : algorithm_obj) (ack_num : Z) (clk : clock)
  : outcome algorithm_obj :=
  match a with
  | AReno x =>
      match Reno.on_ack_received x ack_num with
      | Done x' => Done (AReno x')
      | Raised e x' => Raised e (AReno x')
      end
  | ACubic x =>
      match Cubic.on_ack_received x ack_num (t_cubic clk) with
      | Done x' => Done (ACubic x')
      | Raised e x' => Raised e (ACubic x')
      end
  | ATahoe x =>
      match Tahoe.on_ack_received x ack_num with
      | Done x' => Done (ATahoe x')
      | Raised e x' => Raised e (ATahoe x')
      end
  | ABbr x =>
      match Bbr.on_ack_received x ack_num None 0 0 (t_bbr clk) with
      | Done x' => Done (ABbr x')
      | Raised e x' => Raised e (ABbr x')
      end
  end.

(** [self.algorithm.on_ack_received(ack_num, rtt=rtt,
    delivered_bytes=1024, elapsed_time=0.001)]; only [BBRAlgorithm]
    accepts the keyword arguments. *)
Definition alg_on_ack_bbr (a : algorithm_obj) (ack_num : Z) (rtt : option Q)
    (clk : clock) : outcome algorithm_obj :=
  match a with
  | ABbr x =>
      match Bbr.on_ack_received x ack_num rtt 1024 0.001 (t_bbr clk) with
      | Done x' => Done (ABbr x')
      | Raised e x' => Raised e (ABbr x')
      end
  | _ => Raised TypeError a
  end.

Definition on_ack_received (c : t) (ack_num : Z) (rtt bandwidth : option Q)
    (clk : clock) : outcome t :=
  let called :=
    if AlgorithmType_eqb (algorithm_type c) BBR
       && truthy rtt && truthy bandwidth
    then alg_on_ack_bbr (algorithm c) ack_num rtt clk
    else alg_on_ack (algorithm c) ack_num clk in
  match called with
  | Raised e a => Raised e (set_algorithm c a)
  | Done a =>
      let c := set_algorithm c a in
      match rtt, bandwidth with
      | Some r, Some b =>
          if truthy rtt && truthy bandwidth
          then adaptive_algorithm_switch c r b clk
          else Done c
      | _, _ => Done c
      end
  end.

(** [hasattr] finds [on_loss_detected] on Cubic and BBR, [on_timeout]
    on Tahoe, and neither on Reno. *)
Definition on_loss_detected (c : t) (clk : clock) : t :=
  let c := set_packets_lost c (packets_lost c + 1)%nat in
  match algorithm c with
  | ACubic x =>
      set_algorithm c (ACubic (Cubic.on_loss_detected pow_third x (t_cubic clk)))
  | ABbr x => set_algorithm c (ABbr (Bbr.on_loss_detected x))
  | ATahoe x => set_algorithm c (ATahoe (Tahoe.on_timeout x))
  | AReno x => c
  end.

Definition on_data_sent (c : t) (bytes_sent : Z) : t :=
  set_packets_sent c (packets_sent c + 1)%nat.

(** Calls a collaborator can make on one controller. *)
Inductive op : Type :=
| Ack (ack_num : Z) (rtt bandwidth : option Q) (clk : clock)
| Loss (clk : clock)
| Sent (bytes_sent : Z)
| Switch (new_algorithm : AlgorithmType) (now : Q).

Definition step (c : t) (o : op) : outcome t :=
  match o with
  | Ack ack_num rtt bandwidth clk => on_ack_received c ack_num rtt bandwidth clk
  | Loss clk => Done (on_loss_detected c clk)
  | Sent bytes_sent => Done (on_data_sent c bytes_sent)
  | Switch new_algorithm now => Done (switch_algorithm c new_algorithm Manual now)
  end.

(** A caller that survives an exception keeps using the same object. *)
Fixpoint run (c : t) (ops : list op) : t :=
  match ops with
  | [] => c
  | o :: rest => run (final (step c o)) rest
  end.

End Score.

End Controller.

(** ** Client registry (backend/models/connection_manager.py) *)

Module Registry.

(** [transfer_stats], a dictionary with three fixed keys. *)
Record stats : Type := mk_stats {
  bytes_sent : Z;
  bytes_received : Z;
  active_transfers : Z
}.

Record ClientConnection : Type := mk_client {
  client_id : String.string;
  connected_at : Q;
  last_activity : Q;
  tcp_controller : Controller.t;
  transfer_stats : stats
}.

(** [ClientConnection.__init__]; the four readings are those of
    [connected_at], [last_activity] and of the controller's
    constructor, in that order. *)
Definition new_client (id : String.string) (t_conn t_act t0 t1 : Q)
  : ClientConnection :=
  mk_client id t_conn t_act (Controller.init Controller.RENO t0 t1)
    (mk_stats 0 0 0).

Definition update_activity (c : ClientConnection) (now : Q)
  : ClientConnection :=
  mk_client (client_id c) (connected_at c) now (tcp_controller c)
    (transfer_stats c).

(** [time.time() - self.last_activity < timeout] *)
Definition is_active (c : ClientConnection) (timeout now : Q) : bool :=
  Qltb (now - last_activity c) timeout.

(** The default [timeout] of [is_active]. *)
Definition default_timeout : Q := 300.

(** [self.clients]: a dictionary from client id to connection, as the
    list of its items in insertion order; keys are unique.  The lock
    makes every method below one atomic step. *)
Definition clients_dict : Type := list (String.string * ClientConnection).

(** [d.get(k)] *)
Fixpoint dict_get (d : clients_dict) (k : String.string)
  : option ClientConnection :=
  match d with
  | [] => None
  | (k', v) :: rest => if String.eqb k' k then Some v else dict_get rest k
  end.

(** [d[k] = v]: an existing key keeps its place, a new one goes last. *)
Fixpoint dict_set (d : clients_dict) (k : String.string)
    (v : ClientConnection) : clients_dict :=
  match d with
  | [] => [(k, v)]
  | (k', v') :: rest =>
      if String.eqb k' k then (k', v) :: rest
      else (k', v') :: dict_set rest k v
  end.

(** [del d[k]] for a key that is present. *)
Fixpoint dict_del (d : clients_dict) (k : String.string) : clients_dict :=
  match d with
  | [] => []
  | (k', v') :: rest =>
      if String.eqb k' k then rest else (k', v') :: dict_del rest k
  end.

(** [register_client]; [id] is the value of [str(uuid.uuid4())]. *)
Definition register_client (d : clients_dict) (id : String.string)
    (t_conn t_act t0 t1 : Q) : String.string * clients_dict :=
  (id, dict_set d id (new_client id t_conn t_act t0 t1)).

(** [get_client]: the object found is updated in place, so the caller
    and the dictionary see the same refreshed connection. *)
Definition get_client (d : clients_dict) (id : String.string) (now : Q)
  : option ClientConnection * clients_dict :=
  match dict_get d id with
  | Some client =>
      let client := update_activity client now in
      (Some client, dict_set d id client)
  | None => (None, d)
  end.

Definition remove_client (d : clients_dict) (id : String.string)
  : clients_dict :=
  match dict_get d id with
  | Some _ => dict_del d id
  | None => d
  end.

(** The comprehensions of [get_active_clients] and
    [cleanup_inactive_clients] call [is_active], hence [time.time()],
    once per client; [clk i] is the reading for the [i]-th item. *)
Fixpoint active_items (d : clients_dict) (clk : nat -> Q) (i : nat)
  : clients_dict :=
  match d with
  | [] => []
  | (cid, client) :: rest =>
      if is_active client default_timeout (clk i)
      then (cid, client) :: active_items rest clk (S i)
      else active_items rest clk (S i)
  end.

Definition get_active_clients (d : clients_dict) (clk : nat -> Q)
  : clients_dict :=
  active_items d clk 0.

Fixpoint inactive_ids (d : clients_dict) (clk : nat -> Q) (i : nat)
  : list String.string :=
  match d with
  | [] => []
  | (cid, client) :: rest =>
      if negb (is_active client default_timeout (clk i))
      then cid :: inactive_ids rest clk (S i)
      else inactive_ids rest clk (S i)
  end.

(** [cleanup_inactive_clients]: the number removed and the dictionary
    left. *)
Definition cleanup_inactive_clients (d : clients_dict) (clk : nat -> Q)
  : nat * clients_dict :=
  let inactive_clients := inactive_ids d clk 0 in
  (length inactive_clients, fold_left dict_del inactive_clients d).

End Registry.

(** ** Rule-based controller (backend/models/tcp_congestion.py) *)

Module Basic.

Record t : Type := mk {
  algorithm_type : Controller.AlgorithmType;
  algorithm : Controller.algorithm_obj;
  packets_sent : nat;
  packets_lost : nat;
  start_time : Q
}.

Definition set_algorithm_type (c : t) (v : Controller.AlgorithmType) : t :=
  mk v (algorithm c) (packets_sent c) (packets_lost c) (start_time c).
Definition set_algorithm (c : t) (v : Controller.algorithm_obj) : t :=
  mk (algorithm_type c) v (packets_sent c) (packets_lost c) (start_time c).
Definition set_packets_sent (c : t) (v : nat) : t :=
  mk (algorithm_type c) (algorithm c) v (packets_lost c) (start_time c).
Definition set_packets_lost (c : t) (v : nat) : t :=
  mk (algorithm_type c) (algorithm c) (packets_sent c) v (start_time c).

Definition _initialize_algorithm (c : t) : t :=
  match algorithm_type c with
  | Controller.RENO => set_algorithm c (Controller.AReno Reno.init)
  | Controller.CUBIC => set_algorithm c (Controller.ACubic Cubic.init)
  | Controller.TAHOE => set_algorithm c (Controller.ATahoe Tahoe.init)
  | Controller.BBR => set_algorithm c (Controller.ABbr Bbr.init)
  end.

(** [__init__]; as in the adaptive controller the record needs an
    object before [_initialize_algorithm] assigns one. *)
Definition init (initial_algorithm : Controller.AlgorithmType) (t0 : Q) : t :=
  _initialize_algorithm
    (mk initial_algorithm (Controller.AReno Reno.init) 0 0 t0).

(** No test against the active kind here: the object is always
    replaced by a fresh one. *)
Definition switch_algorithm (c : t) (new_algorithm : Controller.AlgorithmType)
  : t :=
  let current_cwnd := Controller.alg_cwnd (algorithm c) in
  let current_ssthresh := Controller.alg_ssthresh (algorithm c) in
  let c := set_algorithm_type c new_algorithm in
  let c := _initialize_algorithm c in
  let c := set_algorithm c
             (Controller.alg_set_cwnd (algorithm c) current_cwnd) in
  set_algorithm c
    (Controller.alg_set_ssthresh (algorithm c) current_ssthresh).

Definition get_packet_loss_rate (c : t) : result Q :=
  if (packets_sent c =? 0)%nat then Ok 0
  else truediv (inject_Z (Z.of_nat (packets_lost c)))
               (inject_Z (Z.of_nat (packets_sent c))).

Definition get_network_congestion_factor (c : t) : result Q :=
  try loss_rate <- get_packet_loss_rate c;
  try cwnd_ratio <- truediv (Controller.alg_cwnd (algorithm c))
                            (Controller.alg_ssthresh (algorithm c));
  Ok (pymin (loss_rate * 2 + (1 - cwnd_ratio)) 1).

(** The kind the rules pick, [current_algo] when none applies. *)
Definition choose (current_algo : Controller.AlgorithmType)
    (current_rtt bandwidth loss_rate : Q) : Controller.AlgorithmType :=
  let high_bandwidth := Qltb 1000000 bandwidth in
  let high_latency := Qltb 100 current_rtt in
  let high_loss := Qltb 0.01 loss_rate in
  let low_loss := Qltb loss_rate 0.001 in
  if high_bandwidth && high_latency && low_loss then Controller.BBR
  else if high_bandwidth && negb high_latency && low_loss then Controller.CUBIC
  else if high_loss && negb high_bandwidth then Controller.RENO
  else if high_loss && high_latency then Controller.TAHOE
  else if high_bandwidth && negb high_loss then Controller.CUBIC
  else current_algo.

Definition evaluate_and_switch_algorithm (c : t)
    (current_rtt bandwidth loss_rate : Q) : bool * t :=
  let current_algo := algorithm_type c in
  let new_algo := choose current_algo current_rtt bandwidth loss_rate in
  if negb (Controller.AlgorithmType_eqb new_algo current_algo)
  then (true, switch_algorithm c new_algo)
  else (false, c).

End Basic.

(** ** Transfer-side controller
       (tcp-file-transfer/backend/models/tcp_congestion.py) *)

Module Transfer.

Set Implicit Arguments.

Record NetworkConditions : Type := mk_conditions {
  rtt : Q;
  bandwidth : Q;
  packet_loss : Q;
  jitter : Q
}.

Section Algorithm.

(** The controller only calls methods of [self.algorithm] and reads its
    [cwnd]; the object and those methods are parameters, so that what
    is proved holds for any algorithm class plugged in.  [R] is what a
    method reads from outside the object during one call (Cubic reads
    the clock). *)
Variable A : Type.
Variable R : Type.
Variable alg_on_ack_received : A -> Z -> R -> outcome A.
Variable alg_on_timeout : A -> R -> outcome A.
Variable alg_on_loss_detected : A -> R -> outcome A.
Variable alg_cwnd : A -> Q.

Inductive CongestionAlgorithm : Type := TAHOE | RENO | CUBIC.

(** [estimator] is [None] until the attributes [srtt] and [rttvar]
    exist, then [Some (srtt, rttvar)]. *)
Record t : Type := mk {
  algorithm_type : CongestionAlgorithm;
  algorithm : A;
  network_conditions : NetworkConditions;
  last_update_time : Q;
  bytes_in_flight : Z;
  retransmit_timeout : Q;
  duplicate_acks : nat;
  last_ack_number : Z;
  congestion_window_history : list (Q * Q);
  rtt_history : list (Q * Q);
  estimator : option (Q * Q)
}.

Definition set_algorithm (s : t) (v : A) : t :=
  mk (algorithm_type s) v (network_conditions s) (last_update_time s)
     (bytes_in_flight s) (retransmit_timeout s) (duplicate_acks s)
     (last_ack_number s) (congestion_window_history s) (rtt_history s)
     (estimator s).
Definition set_network_conditions (s : t) (v : NetworkConditions) : t :=
  mk (algorithm_type s) (algorithm s) v (last_update_time s)
     (bytes_in_flight s) (retransmit_timeout s) (duplicate_acks s)
     (last_ack_number s) (congestion_window_history s) (rtt_history s)
     (estimator s).
Definition set_last_update_time (s : t) (v : Q) : t :=
  mk (algorithm_type s) (algorithm s) (network_conditions s) v
     (bytes_in_flight s) (retransmit_timeout s) (duplicate_acks s)
     (last_ack_number s) (congestion_window_history s) (rtt_history s)
     (estimator s).
Definition set_bytes_in_flight (s : t) (v : Z) : t :=
  mk (algorithm_type s) (algorithm s) (network_conditions s)
     (last_update_time s) v (retransmit_timeout s) (duplicate_acks s)
     (last_ack_number s) (congestion_window_history s) (rtt_history s)
     (estimator s).
Definition set_retransmit_timeout (s : t) (v : Q) : t :=
  mk (algorithm_type s) (algorithm s) (network_conditions s)
     (last_update_time s) (bytes_in_flight s) v (duplicate_acks s)
     (last_ack_number s) (congestion_window_history s) (rtt_history s)
     (estimator s).
Definition set_duplicate_acks (s : t) (v : nat) : t :=
  mk (algorithm_type s) (algorithm s) (network_conditions s)
     (last_update_time s) (bytes_in_flight s) (retransmit_timeout s) v
     (last_ack_number s) (congestion_window_history s) (rtt_history s)
     (estimator s).
Definition set_last_ack_number (s : t) (v : Z) : t :=
  mk (algorithm_type s) (algorithm s) (network_conditions s)
     (last_update_time s) (bytes_in_flight s) (retransmit_timeout s)
     (duplicate_acks s) v (congestion_window_history s) (rtt_history s)
     (estimator s).
Definition set_congestion_window_history (s : t) (v : list (Q * Q)) : t :=
  mk (algorithm_type s) (algorithm s) (network_conditions s)
     (last_update_time s) (bytes_in_flight s) (retransmit_timeout s)
     (duplicate_acks s) (last_ack_number s) v (rtt_history s)
     (estimator s).
Definition set_rtt_history (s : t) (v : list (Q * Q)) : t :=
  mk (algorithm_type s) (algorithm s) (network_conditions s)
     (last_update_time s) (bytes_in_flight s) (retransmit_timeout s)
     (duplicate_acks s) (last_ack_number s) (congestion_window_history s) v
     (estimator s).
Definition set_estimator (s : t) (v : option (Q * Q)) : t :=
  mk (algorithm_type s) (algorithm s) (network_conditions s)
     (last_update_time s) (bytes_in_flight s) (retransmit_timeout s)
     (duplicate_acks s) (last_ack_number s) (congestion_window_history s)
     (rtt_history s) v.

Definition set_rtt (n : NetworkConditions) (v : Q) : NetworkConditions :=
  mk_conditions v (bandwidth n) (packet_loss n) (jitter n).
Definition set_bandwidth (n : NetworkConditions) (v : Q) : NetworkConditions :=
  mk_conditions (rtt n) v (packet_loss n) (jitter n).
Definition set_packet_loss (n : NetworkConditions) (v : Q)
  : NetworkConditions :=
  mk_conditions (rtt n) (bandwidth n) v (jitter n).

(** The state [__init__] leaves, given the algorithm object it built
    and the reading of its [time.time()].  The attributes
    [max_segment_size] and [state] are constants that no method modelled
    here reads. *)
Definition init (kind : CongestionAlgorithm) (a : A) (now : Q) : t :=
  mk kind a (mk_conditions 0 0 0 0) now 0 1 0 0 [] [] None.

Definition _update_network_conditions (s : t) (current_time : Q) : outcome t :=
  let time_elapsed := current_time - last_update_time s in
  let n := network_conditions s in
  let s :=
    if (3 <=? duplicate_acks s)%nat
    then set_network_conditions s
           (set_packet_loss n (pymin 0.5 (packet_loss n + 0.1)))
    else set_network_conditions s
           (set_packet_loss n (pymax 0 (packet_loss n - 0.01))) in
  do s <- (if Qltb 0 time_elapsed && (0 <? bytes_in_flight s)%Z then
             match truediv (inject_Z (bytes_in_flight s)) time_elapsed with
             | Err e => Raised e s
             | Ok bw =>
                 Done (set_network_conditions s
                         (set_bandwidth (network_conditions s) bw))
             end
           else Done s);
  Done (set_last_update_time s current_time).

Definition _update_retransmit_timeout (s : t) (sample : Q) : t :=
  let s :=
    match estimator s with
    | None => set_estimator s (Some (sample, sample / 2))
    | Some (srtt, rttvar) =>
        let rttvar := 0.75 * rttvar + 0.25 * Qabs (srtt - sample) in
        let srtt := 0.875 * srtt + 0.125 * sample in
        set_estimator s (Some (srtt, rttvar))
    end in
  let s :=
    match estimator s with
    | Some (srtt, rttvar) =>
        set_retransmit_timeout s (srtt + pymax 0.1 (4 * rttvar))
    | None => s
    end in
  set_retransmit_timeout s (pymin (pymax (retransmit_timeout s) 0.1) 60).

Definition _adjust_retransmit_timeout (s : t) (multiplier : Q) : t :=
  set_retransmit_timeout s (pymin (retransmit_timeout s * multiplier) 60).

Definition on_data_sent (s : t) (bytes_sent : Z) (now : Q) : outcome t :=
  let s := set_bytes_in_flight s (bytes_in_flight s + bytes_sent)%Z in
  _update_network_conditions s now.

(** [t_now] is the reading of the method itself, [env] what the
    algorithm object reads, [t_update] the reading of
    [_update_network_conditions]. *)
Definition on_ack_received (s : t) (ack_number bytes_acked : Z)
    (sample : option Q) (t_now : Q) (env : R) (t_update : Q) : outcome t :=
  let current_time := t_now in
  let s :=
    match sample with
    | Some r =>
        let s := set_network_conditions s (set_rtt (network_conditions s) r) in
        let s := set_rtt_history s (rtt_history s ++ [(current_time, r)]) in
        _update_retransmit_timeout s r
    | None => s
    end in
  let s :=
    if (ack_number =? last_ack_number s)%Z
    then set_duplicate_acks s (duplicate_acks s + 1)%nat
    else set_last_ack_number (set_duplicate_acks s 0%nat) ack_number in
  match alg_on_ack_received (algorithm s) ack_number env with
  | Raised e a => Raised e (set_algorithm s a)
  | Done a =>
      let s := set_algorithm s a in
      let s := set_bytes_in_flight s
                 (Z.max 0 (bytes_in_flight s - bytes_acked)) in
      let s := set_congestion_window_history s
                 (congestion_window_history s
                  ++ [(current_time, alg_cwnd (algorithm s))]) in
      _update_network_conditions s t_update
  end.

Definition on_timeout (s : t) (env : R) (now : Q) : outcome t :=
  match alg_on_timeout (algorithm s) env with
  | Raised e a => Raised e (set_algorithm s a)
  | Done a =>
      let s := set_algorithm s a in
      let s := set_duplicate_acks s 0%nat in
      do s <- _update_network_conditions s now;
      Done (_adjust_retransmit_timeout s 2)
  end.

(** [t_timeout] is read by the nested [on_timeout], [t_update] by the
    final [_update_network_conditions]. *)
Definition on_loss_detected (s : t) (env : R) (t_timeout t_update : Q)
  : outcome t :=
  do s <- (match algorithm_type s with
           | CUBIC =>
               match alg_on_loss_detected (algorithm s) env with
               | Raised e a => Raised e (set_algorithm s a)
               | Done a => Done (set_algorithm s a)
               end
           | _ => on_timeout s env t_timeout
           end);
  _update_network_conditions s t_update.

(** Calls on the controller, with their clock readings and with what
    the algorithm object reads. *)
Inductive call : Type :=
| Sent (bytes_sent : Z) (now : Q)
| Ack (ack_number bytes_acked : Z) (sample : option Q) (t_now : Q)
      (env : R) (t_update : Q)
| Timeout (env : R) (now : Q)
| Loss (env : R) (t_timeout t_update : Q).

Definition step (s : t) (c : call) : outcome t :=
  match c with
  | Sent bytes_sent now => on_data_sent s bytes_sent now
  | Ack ack_number bytes_acked sample t_now env t_update =>
      on_ack_received s ack_number bytes_acked sample t_now env t_update
  | Timeout env now => on_timeout s env now
  | Loss env t_timeout t_update => on_loss_detected s env t_timeout t_update
  end.

(** The object after a sequence of calls, exceptions included. *)
Fixpoint run (s : t) (calls : list call) : t :=
  match calls with
  | [] => s
  | c :: rest => run (final (step s c)) rest
  end.

End Algorithm.

Arguments Sent {R} bytes_sent now.

Unset Implicit Arguments.

End Transfer.

(** ** Vocabulary of the stated properties *)

Import Controller.

(** The class of the object held in [self.algorithm]. *)
Definition kind_of (a : algorithm_obj) : AlgorithmType :=
  match a with
  | AReno _ => RENO
  | ACubic _ => CUBIC
  | ATahoe _ => TAHOE
  | ABbr _ => BBR
  end.

(** Arithmetic mean of a list of samples; an empty list has mean [0], the
    value the classifier uses for an empty bandwidth history. *)
Definition average (l : list Q) : Q :=
  match l with
  | [] => 0
  | _ :: _ => sum l / inject_Z (Z.of_nat (length l))
  end.

(** The label of the first rule whose guard holds. *)
Fixpoint first_match (rules : list (bool * NetworkCondition))
    (otherwise : NetworkCondition) : NetworkCondition :=
  match rules with
  | [] => otherwise
  | (guard, label) :: rest =>
      if guard then label else first_match rest otherwise
  end.

(** The decision list of the classifier as the specification words it:
    RTT in milliseconds, bandwidth in bytes per second with
    10 MB/s = 10 * 1024 * 1024. *)
Definition decision_order (loss_rate avg_rtt avg_bandwidth : Q)
  : NetworkCondition :=
  first_match
    [ (Qltb 0.02 loss_rate, LOSSY);
      (Qltb 100 avg_rtt && Qltb 10485760 avg_bandwidth, HIGH_BW);
      (Qltb 100 avg_rtt, CONGESTED);
      (Qltb avg_rtt 20 && Qltb loss_rate 0.001, EXCELLENT) ]
    GOOD.

(** The loss rate as the specification words it, on the two counters:
    packets lost over packets sent, [0] while nothing has been sent. *)
Definition loss_ratio (lost sent : nat) : Q :=
  match sent with
  | O => 0
  | S _ => inject_Z (Z.of_nat lost) / inject_Z (Z.of_nat sent)
  end.

(** [max(4.0, bw * min_rtt)] evaluated as Python does when [min_rtt] may
    be [float('inf')]: the product is [+inf] for [bw > 0]; for [bw <= 0]
    it is [-inf] or NaN and [max] returns its first argument. *)
Definition probe_rtt_window (bw : Q) (m : Bbr.xq) : Bbr.xq :=
  match m with
  | Bbr.Fin q => Bbr.Fin (pymax 4 (bw * q))
  | Bbr.PInf => if Qltb 0 bw then Bbr.PInf else Bbr.Fin 4
  end.

(** Every switch in the log is at least [gap] seconds after the one
    before it; [prev] is the time of the switch (or of the construction)
    that precedes the log. *)
Fixpoint spaced (gap prev : Q) (log : list switch_line) : Prop :=
  match log with
  | [] => True
  | l :: rest => gap <= sw_time l - prev /\ spaced gap (sw_time l) rest
  end.

(** The same, required only of the switches made by the adaptive path. *)
Fixpoint auto_spaced (gap prev : Q) (log : list switch_line) : Prop :=
  match log with
  | [] => True
  | l :: rest =>
      (sw_reason l <> Manual -> gap <= sw_time l - prev)
      /\ auto_spaced gap (sw_time l) rest
  end.

(** Clock readings do not run backwards between the policy check and
    the switch it triggers, in any ack of the sequence. *)
Definition op_clock_ok (o : op) : Prop :=
  match o with
  | Ack _ _ _ clk => t_policy clk <= t_switch clk
  | _ => True
  end.

(** A caller-side argument is absent ([None]) or equal to [0]. *)
Definition absent_or_zero (x : option Q) : Prop :=
  match x with
  | None => True
  | Some q => q == 0
  end.

(** A uniform clock: every reading of one call is [now]. *)
Definition bbr_at (now : Q) : Bbr.clock := Bbr.mk_clock now now now now now.
Definition at_time (now : Q) : clock := mk_clock (bbr_at now) now now now.

(** A run with no manual switch: one packet sent, then three acks with
    samples at 5 s, 20 s and 25 s after the construction at time [0]. *)
Definition cooldown_scenario : list op :=
  [ Sent 1024;
    Ack 1 (Some 150) (Some 50000000) (at_time 5);
    Ack 2 (Some 150) (Some 50000000) (at_time 20);
    Ack 3 (Some 150) (Some 50000000) (at_time 25) ].

(** An RTT sample of 50 ms, then 11 s later an ack without a sample. *)
Definition probe_rtt_scenario : list Bbr.event :=
  [ Bbr.mk_event 1 (Some 0.05) 1024 0.001 (bbr_at 1700000000);
    Bbr.mk_event 2 None 0 0 (bbr_at 1700000011) ].

(** The classifier scenario of the specification: ten samples with
    rtt = 150 ms and bandwidth = 50 MB/s, 5 packets lost of 1000. *)
Definition scenario_high_bw : t :=
  let c := set_rtt_history (init RENO 0 0) (repeat 150 10) in
  let c := set_bandwidth_history c (repeat 50000000 10) in
  set_packets_lost (set_packets_sent c 1000) 5.

(** The same histories with 3 packets lost out of 100. *)
Definition scenario_lossy : t :=
  set_packets_lost (set_packets_sent scenario_high_bw 100) 3.

(** What the estimator-independent steps leave alone. *)
Definition bbr_keeps (s s' : Bbr.t) : Prop :=
  Bbr.cwnd s' = Bbr.cwnd s
  /\ Bbr.min_rtt s' = Bbr.min_rtt s
  /\ Bbr.bw_estimate s' = Bbr.bw_estimate s
  /\ Bbr.rtprop_stamp s' = Bbr.rtprop_stamp s.

(** Time of the latest switch in a log that follows time [prev]. *)
Fixpoint last_time (prev : Q) (log : list switch_line) : Q :=
  match log with
  | [] => prev
  | l :: rest => last_time (sw_time l) rest
  end.

(** The call is not a manual [switch_algorithm]. *)
Definition not_manual (o : op) : Prop :=
  match o with
  | Switch _ _ => False
  | _ => True
  end.

(** What one call may do to the log and to [last_switch_time]: nothing,
    or one more line, stamped with the new [last_switch_time], that is
    either manual or at least 10 s after the previous switch time. *)
Definition log_step (manual_ok : Prop) (c c' : t) : Prop :=
  (stdout c' = stdout c /\ last_switch_time c' = last_switch_time c)
  \/ (exists l,
        stdout c' = stdout c ++ [l]
        /\ last_switch_time c' = sw_time l
        /\ ((sw_reason l = Manual /\ manual_ok)
            \/ (sw_reason l <> Manual
                /\ 10 <= sw_time l - last_switch_time c))).

(** ** Runs of the single algorithms *)

(** Events a caller can deliver to a [TahoeAlgorithm]. *)
Inductive tahoe_event : Type :=
| TahoeAck (ack_num : Z)
| TahoeTimeout.

Definition tahoe_step (s : Tahoe.t) (e : tahoe_event) : outcome Tahoe.t :=
  match e with
  | TahoeAck ack_num => Tahoe.on_ack_received s ack_num
  | TahoeTimeout => Done (Tahoe.on_timeout s)
  end.

Fixpoint tahoe_run (s : Tahoe.t) (evs : list tahoe_event) : outcome Tahoe.t :=
  match evs with
  | [] => Done s
  | e :: rest => do s' <- tahoe_step s e; tahoe_run s' rest
  end.

(** Successive calls of [CubicAlgorithm.on_loss_detected], one clock
    reading each. *)
Fixpoint cubic_losses (pow_third : Q -> Q) (s : Cubic.t) (nows : list Q)
  : Cubic.t :=
  match nows with
  | [] => s
  | now :: rest =>
      cubic_losses pow_third (Cubic.on_loss_detected pow_third s now) rest
  end.

(** Order of the BBR phases along the life of a connection. *)
Definition bbr_phase_rank (p : Bbr.phase) : nat :=
  match p with
  | Bbr.STARTUP => 0
  | Bbr.DRAIN => 1
  | Bbr.PROBE_BW => 2
  | Bbr.PROBE_RTT => 2
  end.

(** Every value the code ever assigns to [pacing_gain]. *)
Definition bbr_gains : list Q :=
  1 :: Bbr.bbr_high_gain :: Bbr.bbr_drain_gain :: Bbr.pacing_gain_cycle.

(** The two halves of [BBRAlgorithm.on_ack_received]: the estimator
    updates, and everything from the state machine on. *)
Definition bbr_estimators (s : Bbr.t) (rtt : option Q)
    (delivered_bytes elapsed_time : Q) (clk : Bbr.clock) : outcome Bbr.t :=
  let s := match rtt with
           | Some r =>
               if truthy rtt
               then Bbr.update_min_rtt s r (Bbr.t_min_rtt clk)
               else s
           | None => s
           end in
  if Qltb 0 elapsed_time
  then Bbr.update_bandwidth_estimate s delivered_bytes elapsed_time
  else Done s.

Definition bbr_after_estimators (s : Bbr.t) (clk : Bbr.clock) : Bbr.t :=
  let s := Bbr.state_machine s (Bbr.t_ack clk) clk in
  let s := Bbr.check_probe_rtt s (Bbr.t_probe clk) in
  let s := if Bbr.phase_eqb (Bbr.state s) Bbr.PROBE_RTT
           then Bbr.handle_probe_rtt s (Bbr.t_handle clk)
           else s in
  let s := Bbr.set_pacing_rate_ s in
  let s := Bbr.set_cwnd_ s in
  Bbr.set_packet_count s (Bbr.packet_count s + 1)%nat.

(** ** Runs of the controller *)

(** The two halves of [adaptive_algorithm_switch]: recording the sample
    in the bounded histories, and the scoring and switch decision. *)
Definition record_sample (c : t) (rtt bandwidth : Q) : t :=
  let c := set_rtt_history c (rtt_history c ++ [rtt]) in
  let c := set_bandwidth_history c (bandwidth_history c ++ [bandwidth]) in
  let c := if (50 <? length (rtt_history c))%nat
           then set_rtt_history c (last_n 50 (rtt_history c))
           else c in
  if (50 <? length (bandwidth_history c))%nat
  then set_bandwidth_history c (last_n 50 (bandwidth_history c))
  else c.

Definition adaptive_decision (pow_half : Q -> Q) (c : t) (clk : clock)
  : outcome t :=
  match calculate_performance_score pow_half c with
  | Err e => Raised e c
  | Ok current_score =>
      let p := algorithm_performance c (algorithm_type c) in
      let c := set_algorithm_performance c
                 (upd (algorithm_performance c) (algorithm_type c)
                    (mk_perf (switches p) (total_time p) current_score)) in
      match detect_network_condition c with
      | Err e => Raised e c
      | Ok condition =>
          let optimal_algorithm := get_optimal_algorithm condition in
          if should_switch_algorithm c optimal_algorithm (t_policy clk)
          then Done (switch_algorithm c optimal_algorithm
                       (Network_condition condition) (t_switch clk))
          else Done c
      end
  end.

(** The kind tag names the class of the object held, and both window
    variables of that object are positive. *)
Definition sound (c : t) : Prop :=
  algorithm_type c = kind_of (algorithm c)
  /\ 0 < alg_cwnd (algorithm c)
  /\ 0 < alg_ssthresh (algorithm c).

(** The printed switch lines form a chain from kind [from] to kind
    [to]: each line starts at the kind the previous one ended on and
    changes it. *)
Fixpoint chain (from : AlgorithmType) (log : list switch_line)
    (to : AlgorithmType) : Prop :=
  match log with
  | [] => from = to
  | l :: rest =>
      sw_old l = from /\ sw_new l <> from /\ chain (sw_new l) rest to
  end.

(** The sum of the per-kind [switches] counters, and the agreement of
    log and counters used as a run invariant. *)
Definition total_switches (c : t) : nat :=
  (switches (algorithm_performance c RENO)
   + switches (algorithm_performance c CUBIC)
   + switches (algorithm_performance c TAHOE)
   + switches (algorithm_performance c BBR))%nat.

Definition log_consistent (k : AlgorithmType) (c : t) : Prop :=
  chain k (stdout c) (algorithm_type c)
  /\ total_switches c = length (stdout c).

(** Sample client ids. *)
Section SampleIds.
Import String.
Definition id_a : String.string := "a".
Definition id_b : String.string := "b".
Definition id_zz : String.string := "zz".
End SampleIds.

(** The bounds the transfer-side controller keeps on its retransmit
    timeout and on its loss estimate. *)
Definition transfer_bounds {A : Type} (s : Transfer.t A) : Prop :=
  0.1 <= Transfer.retransmit_timeout s
  /\ Transfer.retransmit_timeout s <= 60
  /\ 0 <= Transfer.packet_loss (Transfer.network_conditions s)
  /\ Transfer.packet_loss (Transfer.network_conditions s) <= 0.5.

(** The call is an ack carrying the number [n]. *)
Definition ack_numbered {R : Type} (n : Z) (c : Transfer.call R) : Prop :=
  match c with
  | Transfer.Ack k _ _ _ _ _ => k = n
  | _ => False
  end.

(** ** Proof automation *)

Ltac break_if :=
  match goal with
  | |- context [if ?b then _ else _] => destruct b eqn:?
  end.

(** Reduce the projections of updated BBR records, and nothing else. *)
Ltac bbr_proj :=
  cbn [Bbr.bw_estimate Bbr.set_bw_estimate Bbr.min_rtt Bbr.set_min_rtt
       Bbr.rtprop_stamp Bbr.set_rtprop_stamp Bbr.probe_rtt_done_stamp
       Bbr.set_probe_rtt_done_stamp Bbr.pacing_rate Bbr.set_pacing_rate
       Bbr.cwnd Bbr.set_cwnd Bbr.ssthresh Bbr.set_ssthresh Bbr.state
       Bbr.set_state Bbr.cycle_index Bbr.set_cycle_index Bbr.cycle_stamp
       Bbr.set_cycle_stamp Bbr.prior_cwnd Bbr.set_prior_cwnd
       Bbr.pacing_gain Bbr.set_pacing_gain Bbr.packet_count
       Bbr.set_packet_count Bbr.delivered Bbr.set_delivered
       Bbr.delivery_rate Bbr.set_delivery_rate Bbr.round_start
       Bbr.set_round_start Bbr.full_bw_reached Bbr.set_full_bw_reached
       Bbr.full_bw Bbr.set_full_bw Bbr.full_bw_count Bbr.set_full_bw_count
       bbr_phase_rank negb andb orb Bbr.phase_eqb] in *.

Ltac bbr_cases :=
  repeat match goal with
         | |- context [if ?b then _ else _] => destruct b eqn:?
         | |- context [match Bbr.min_rtt ?s with _ => _ end] =>
             destruct (Bbr.min_rtt s) eqn:?
         end.

(** ** Facts about the primitives *)

Lemma Qltb_lt (x y : Q) : Qltb x y = true <-> x < y.
Proof.
  unfold Qltb. rewrite negb_true_iff. split.
  - intro H. apply Qnot_le_lt. intro Hle.
    apply Qle_bool_iff in Hle. congruence.
  - intro H. destruct (Qle_bool y x) eqn:E; [|reflexivity].
    apply Qle_bool_iff in E. exfalso. apply (Qlt_not_le _ _ H E).
Qed.

Lemma Qltb_ge (x y : Q) : Qltb x y = false <-> y <= x.
Proof.
  unfold Qltb. rewrite negb_false_iff. apply Qle_bool_iff.
Qed.

Lemma pymax_lower_r (a b : Q) : b <= pymax a b.
Proof.
  unfold pymax. destruct (Qltb a b) eqn:E.
  - apply Qle_refl.
  - now apply Qltb_ge.
Qed.

Lemma pymax_lower_l (a b : Q) : a <= pymax a b.
Proof.
  unfold pymax. destruct (Qltb a b) eqn:E.
  - apply Qlt_le_weak. now apply Qltb_lt.
  - apply Qle_refl.
Qed.

Lemma truediv_nonzero (a b : Q) : ~ b == 0 -> truediv a b = Ok (a / b).
Proof.
  intro H. unfold truediv. destruct (Qeq_bool b 0) eqn:E; [|reflexivity].
  apply Qeq_bool_iff in E. contradiction.
Qed.

Lemma length_last_n {A : Type} (n : nat) (l : list A) :
  length (last_n n l) = Nat.min (length l) n.
Proof.
  unfold last_n. rewrite length_skipn. lia.
Qed.

Lemma absent_or_zero_truthy (x : option Q) :
  absent_or_zero x <-> truthy x = false.
Proof.
  destruct x as [q|]; simpl.
  - rewrite negb_false_iff. symmetry. apply Qeq_bool_iff.
  - tauto.
Qed.

(** ** Reno *)

Lemma reno_not_fast_recovery (s : Reno.t) :
  Reno.state s <> Reno.fast_recovery ->
  Reno.phase_eqb (Reno.state s) Reno.fast_recovery = false.
Proof.
  destruct (Reno.state s); simpl; congruence.
Qed.

Lemma reno_enter (s : Reno.t) (ack_num : Z) :
  Reno.state s <> Reno.fast_recovery ->
  (3 <= Reno.duplicate_acks s)%Z ->
  Reno.on_ack_received s ack_num = Done (Reno.enter_fast_recovery s ack_num).
Proof.
  intros Hst Hdup. unfold Reno.on_ack_received.
  rewrite (reno_not_fast_recovery s Hst).
  apply Z.leb_le in Hdup. now rewrite Hdup.
Qed.

Lemma reno_duplicate_in_recovery (s : Reno.t) (ack_num : Z) :
  Reno.state s = Reno.fast_recovery ->
  (ack_num <= Reno.recover s)%Z ->
  Reno.on_ack_received s ack_num = Done (Reno.set_cwnd s (Reno.cwnd s + 1)).
Proof.
  intros Hst Hle. unfold Reno.on_ack_received. rewrite Hst. simpl.
  apply Z.ltb_ge in Hle. now rewrite Hle.
Qed.

Lemma reno_leave_recovery (s : Reno.t) (ack_num : Z) :
  Reno.state s = Reno.fast_recovery ->
  (Reno.recover s < ack_num)%Z ->
  exists s',
    Reno.on_ack_received s ack_num = Done s'
    /\ Reno.cwnd s' = Reno.ssthresh s
    /\ Reno.state s' = Reno.congestion_avoidance.
Proof.
  intros Hst Hlt. unfold Reno.on_ack_received. rewrite Hst. simpl.
  apply Z.ltb_lt in Hlt. rewrite Hlt.
  eexists. split; [reflexivity|]. now split.
Qed.

(** The fast-recovery branches of [on_ack_received] as they are written,
    for an object whose [duplicate_acks] has been set to 3 or more from
    outside, or that is in fast recovery already: entry with
    [ssthresh = max(cwnd/2, 2)], [cwnd = ssthresh + 3] and the ack number
    recorded in [recover]; [+1] per ack that does not pass [recover];
    exit to congestion avoidance with [cwnd = ssthresh] on one that
    does.  No method of [RenoAlgorithm] and no caller in the repository
    raises the counter, so no run from a constructed object reaches
    these branches, as is proved further down. *)
Lemma reno_fast_recovery (s : Reno.t) (ack_num : Z) :
  (Reno.state s <> Reno.fast_recovery ->
   (3 <= Reno.duplicate_acks s)%Z ->
   exists s',
     Reno.on_ack_received s ack_num = Done s'
     /\ Reno.state s' = Reno.fast_recovery
     /\ Reno.ssthresh s' = pymax (Reno.cwnd s / 2) 2
     /\ Reno.cwnd s' = Reno.ssthresh s' + 3
     /\ Reno.recover s' = ack_num)
  /\ (Reno.state s = Reno.fast_recovery ->
      (ack_num <= Reno.recover s)%Z ->
      exists s',
        Reno.on_ack_received s ack_num = Done s'
        /\ Reno.cwnd s' = Reno.cwnd s + 1
        /\ Reno.state s' = Reno.fast_recovery
        /\ Reno.ssthresh s' = Reno.ssthresh s
        /\ Reno.recover s' = Reno.recover s)
  /\ (Reno.state s = Reno.fast_recovery ->
      (Reno.recover s < ack_num)%Z ->
      exists s',
        Reno.on_ack_received s ack_num = Done s'
        /\ Reno.cwnd s' = Reno.ssthresh s
        /\ Reno.state s' = Reno.congestion_avoidance).
Proof.
  split; [|split].
  - intros Hst Hdup. rewrite (reno_enter s ack_num Hst Hdup).
    eexists. split; [reflexivity|]. simpl. now repeat split.
  - intros Hst Hle. rewrite (reno_duplicate_in_recovery s ack_num Hst Hle).
    eexists. split; [reflexivity|]. simpl. now repeat split.
  - apply reno_leave_recovery.
Qed.

Lemma reno_fast_recovery_example :
  (exists s',
     Reno.on_ack_received (Reno.mk 10 65535 Reno.congestion_avoidance 3 0) 7
       = Done s'
     /\ Reno.state s' = Reno.fast_recovery
     /\ Reno.ssthresh s' = pymax (10 / 2) 2
     /\ Reno.cwnd s' = Reno.ssthresh s' + 3
     /\ Reno.recover s' = 7%Z)
  /\ (exists s',
        Reno.on_ack_received (Reno.mk 8 5 Reno.fast_recovery 3 7) 7 = Done s'
        /\ Reno.cwnd s' = 8 + 1
        /\ Reno.state s' = Reno.fast_recovery
        /\ Reno.ssthresh s' = 5
        /\ Reno.recover s' = 7%Z)
  /\ (exists s',
        Reno.on_ack_received (Reno.mk 9 5 Reno.fast_recovery 3 7) 8 = Done s'
        /\ Reno.cwnd s' = 5
        /\ Reno.state s' = Reno.congestion_avoidance).
Proof.
  split; [|split].
  - apply (proj1 (reno_fast_recovery
             (Reno.mk 10 65535 Reno.congestion_avoidance 3 0) 7));
      simpl; [discriminate | lia].
  - apply (proj1 (proj2
             (reno_fast_recovery (Reno.mk 8 5 Reno.fast_recovery 3 7) 7)));
      simpl; [reflexivity | lia].
  - apply (proj2 (proj2
             (reno_fast_recovery (Reno.mk 9 5 Reno.fast_recovery 3 7) 8)));
      simpl; [reflexivity | lia].
Defined.

Lemma reno_duplicates_in_recovery (dups : list Z) :
  forall s : Reno.t,
    Reno.state s = Reno.fast_recovery ->
    Forall (fun a => (a <= Reno.recover s)%Z) dups ->
    exists s',
      Reno.run s dups = Done s'
      /\ Reno.state s' = Reno.fast_recovery
      /\ Reno.ssthresh s' = Reno.ssthresh s
      /\ Reno.recover s' = Reno.recover s
      /\ Reno.cwnd s' == Reno.cwnd s + inject_Z (Z.of_nat (length dups)).
Proof.
  induction dups as [|a dups IH]; intros s Hst Hall.
  - exists s. split; [reflexivity|]. split; [exact Hst|].
    split; [reflexivity|]. split; [reflexivity|]. simpl. ring.
  - inversion Hall as [|? ? Ha Hrest]; subst.
    cbn [Reno.run]. rewrite (reno_duplicate_in_recovery s a Hst Ha).
    cbn [bind].
    destruct (IH (Reno.set_cwnd s (Reno.cwnd s + 1)) Hst Hrest)
      as (s' & Hrun & Hst' & Hss & Hrec & Hcw).
    exists s'. repeat split; try assumption.
    rewrite Hcw. cbn [Reno.cwnd Reno.set_cwnd length].
    rewrite Nat2Z.inj_succ, <- Z.add_1_l, inject_Z_plus. ring.
Qed.

Lemma reno_run_app (xs ys : list Z) :
  forall s s' : Reno.t,
    Reno.run s xs = Done s' -> Reno.run s (xs ++ ys) = Reno.run s' ys.
Proof.
  induction xs as [|x xs IH]; intros s s' Hrun; simpl in *.
  - now injection Hrun as ->.
  - destruct (Reno.on_ack_received s x) as [s1|e s1]; simpl in *.
    + now apply IH.
    + discriminate.
Qed.

(** A whole recovery episode from such a hand-set state: the ack [a0]
    that enters fast recovery, any number of acks that do not pass
    [a0], then the first ack that does.  The window is [ssthresh + 3 + k] after [k] duplicates and
    [ssthresh] at the end, with [ssthresh = max(c/2, 2)] throughout. *)
Corollary reno_recovery_episode (s : Reno.t) (a0 a1 : Z) (dups : list Z) :
  Reno.state s <> Reno.fast_recovery ->
  (3 <= Reno.duplicate_acks s)%Z ->
  Forall (fun a => (a <= a0)%Z) dups ->
  (a0 < a1)%Z ->
  let ss := pymax (Reno.cwnd s / 2) 2 in
  (exists s1,
     Reno.run s (a0 :: dups) = Done s1
     /\ Reno.state s1 = Reno.fast_recovery
     /\ Reno.ssthresh s1 = ss
     /\ Reno.cwnd s1 == ss + 3 + inject_Z (Z.of_nat (length dups)))
  /\ (exists s2,
        Reno.run s (a0 :: dups ++ [a1]) = Done s2
        /\ Reno.cwnd s2 = ss
        /\ Reno.state s2 = Reno.congestion_avoidance).
Proof.
  intros Hst Hdup Hall Hlt ss.
  destruct (reno_duplicates_in_recovery dups (Reno.enter_fast_recovery s a0)
              eq_refl Hall) as (s1 & Hrun & Hst1 & Hss1 & Hrec1 & Hcw1).
  assert (Hrun1 : Reno.run s (a0 :: dups) = Done s1).
  { cbn [Reno.run]. now rewrite (reno_enter s a0 Hst Hdup). }
  split.
  - exists s1. repeat split; assumption.
  - assert (Hlt1 : (Reno.recover s1 < a1)%Z) by (rewrite Hrec1; exact Hlt).
    destruct (reno_leave_recovery s1 a1 Hst1 Hlt1) as (s2 & Hrun2 & Hcw2 & Hst2).
    exists s2.
    change (a0 :: dups ++ [a1]) with ((a0 :: dups) ++ [a1]).
    rewrite (reno_run_app _ _ _ _ Hrun1). cbn [Reno.run].
    rewrite Hrun2. cbn [bind]. repeat split; [|assumption].
    now rewrite Hcw2, Hss1.
Qed.

(** ** Cubic *)

(** C8. Cubic loss response: after [on_loss_detected] from [cwnd = c],
    [wmax = c], [cwnd = c * 0.7] and [ssthresh] equals the new [cwnd]. *)
Theorem cubic_loss_response (pow_third : Q -> Q) (s : Cubic.t) (now : Q) :
  let s' := Cubic.on_loss_detected pow_third s now in
  Cubic.wmax s' = Cubic.cwnd s
  /\ Cubic.cwnd s' = Cubic.cwnd s * 0.7
  /\ Cubic.ssthresh s' = Cubic.cwnd s'.
Proof.
  simpl. repeat split.
Qed.

(** ** Controller: loss rate, classifier, switch policy, hot swap *)

Lemma inject_nat_nonneg (n : nat) : 0 <= inject_Z (Z.of_nat n).
Proof.
  change 0 with (inject_Z 0). rewrite <- Zle_Qle. lia.
Qed.

Lemma inject_nat_nonzero (n : nat) : n <> 0%nat -> ~ inject_Z (Z.of_nat n) == 0.
Proof.
  intros Hn H. unfold Qeq in H. simpl in H. lia.
Qed.

Lemma inject_nat_pos (n : nat) : n <> 0%nat -> 0 < inject_Z (Z.of_nat n).
Proof.
  intro Hn. change 0 with (inject_Z 0). rewrite <- Zlt_Qlt. lia.
Qed.

Lemma get_packet_loss_rate_returns (c : t) :
  exists r, get_packet_loss_rate c = Ok r /\ 0 <= r.
Proof.
  unfold get_packet_loss_rate.
  destruct (Nat.eqb_spec (packets_sent c) 0) as [E|E].
  - exists 0. split; [reflexivity | apply Qle_refl].
  - rewrite (truediv_nonzero _ _ (inject_nat_nonzero _ E)).
    eexists. split; [reflexivity|].
    apply Qle_shift_div_l.
    + now apply inject_nat_pos.
    + rewrite Qmult_0_l. apply inject_nat_nonneg.
Qed.

(** C9. Loss rate: [0] with no packet sent, [packets_lost /
    packets_sent] otherwise; the call always returns (the division is
    never reached with a zero divisor) and the rate is non-negative. *)
Theorem loss_rate_total (c : t) :
  (packets_sent c = 0%nat -> get_packet_loss_rate c = Ok 0)
  /\ (packets_sent c <> 0%nat ->
      get_packet_loss_rate c
      = Ok (inject_Z (Z.of_nat (packets_lost c))
            / inject_Z (Z.of_nat (packets_sent c))))
  /\ (exists r, get_packet_loss_rate c = Ok r /\ 0 <= r).
Proof.
  split; [|split].
  - intro E. unfold get_packet_loss_rate. now rewrite E.
  - intro E. unfold get_packet_loss_rate.
    apply Nat.eqb_neq in E. rewrite E.
    apply truediv_nonzero, inject_nat_nonzero. now apply Nat.eqb_neq.
  - apply get_packet_loss_rate_returns.
Qed.

Lemma loss_rate_total_witness :
  get_packet_loss_rate
    (set_packets_lost (set_packets_sent (init RENO 0 0) 1000) 5)
  = Ok (inject_Z (Z.of_nat 5) / inject_Z (Z.of_nat 1000))
  /\ get_packet_loss_rate (init RENO 0 0) = Ok 0.
Proof.
  split.
  - apply (proj1 (proj2 (loss_rate_total
             (set_packets_lost (set_packets_sent (init RENO 0 0) 1000) 5)))).
    simpl. discriminate.
  - apply (proj1 (loss_rate_total (init RENO 0 0))). reflexivity.
Defined.

Lemma AlgorithmType_eqb_eq (a b : AlgorithmType) :
  AlgorithmType_eqb a b = true <-> a = b.
Proof.
  destruct a, b; simpl; split; congruence.
Qed.

Lemma AlgorithmType_eqb_neq (a b : AlgorithmType) :
  AlgorithmType_eqb a b = false <-> a <> b.
Proof.
  destruct a, b; simpl; split; congruence.
Qed.

Lemma should_switch_algorithm_spec (c : t) (target : AlgorithmType) (now : Q) :
  should_switch_algorithm c target now
  = negb (Qltb (now - last_switch_time c) 10)
    && negb (AlgorithmType_eqb target (algorithm_type c)).
Proof.
  unfold should_switch_algorithm, switch_cooldown.
  destruct (Qltb (now - last_switch_time c) 10); [reflexivity|].
  destruct (AlgorithmType_eqb target (algorithm_type c)); [reflexivity|].
  simpl. now destruct (_ || _).
Qed.

(** C5. Eager switch policy: [false] for the active kind, [false] inside
    the 10 s cooldown, [true] otherwise, whatever the recorded
    performance scores are. *)
Theorem eager_switch_policy (c : t) (target : AlgorithmType) (now : Q) :
  (target = algorithm_type c -> should_switch_algorithm c target now = false)
  /\ (now - last_switch_time c < 10 ->
      should_switch_algorithm c target now = false)
  /\ (target <> algorithm_type c -> 10 <= now - last_switch_time c ->
      should_switch_algorithm c target now = true)
  /\ (forall scores : AlgorithmType -> perf,
        should_switch_algorithm (set_algorithm_performance c scores) target now
        = should_switch_algorithm c target now).
Proof.
  rewrite should_switch_algorithm_spec. repeat split.
  - intros ->. replace (AlgorithmType_eqb _ _) with true.
    + apply andb_false_r.
    + symmetry. now apply AlgorithmType_eqb_eq.
  - intro H. apply Qltb_lt in H. now rewrite H.
  - intros Hne Hge. apply Qltb_ge in Hge. apply AlgorithmType_eqb_neq in Hne.
    now rewrite Hge, Hne.
  - intro scores. now rewrite should_switch_algorithm_spec.
Qed.

Lemma eager_switch_policy_witness :
  should_switch_algorithm (init RENO 0 0) RENO 100 = false
  /\ should_switch_algorithm (init RENO 0 0) CUBIC 5 = false
  /\ should_switch_algorithm (init RENO 0 0) CUBIC 10 = true.
Proof.
  split; [|split].
  - apply (proj1 (eager_switch_policy (init RENO 0 0) RENO 100)).
    reflexivity.
  - apply (proj1 (proj2 (eager_switch_policy (init RENO 0 0) CUBIC 5))).
    reflexivity.
  - apply (proj1 (proj2 (proj2
             (eager_switch_policy (init RENO 0 0) CUBIC 10))));
      [discriminate | simpl; discriminate].
Defined.

(** C1. Hot-swap continuity: switching to a kind other than the active
    one installs an object of the new kind whose [cwnd] and [ssthresh]
    are those of the outgoing object. *)
Theorem switch_continuity (c : t) (B : AlgorithmType) (why : reason) (now : Q) :
  B <> algorithm_type c ->
  let c' := switch_algorithm c B why now in
  algorithm_type c' = B
  /\ kind_of (algorithm c') = B
  /\ alg_cwnd (algorithm c') = alg_cwnd (algorithm c)
  /\ alg_ssthresh (algorithm c') = alg_ssthresh (algorithm c).
Proof.
  intros Hne. unfold switch_algorithm.
  apply AlgorithmType_eqb_neq in Hne. rewrite Hne.
  destruct B; cbn; repeat split.
Qed.

Lemma switch_continuity_witness :
  let c := set_algorithm (init RENO 0 0)
             (AReno (Reno.mk 42 17 Reno.congestion_avoidance 0 0)) in
  let c' := switch_algorithm c BBR Manual 3 in
  algorithm_type c' = BBR
  /\ kind_of (algorithm c') = BBR
  /\ alg_cwnd (algorithm c') = 42
  /\ alg_ssthresh (algorithm c') = 17.
Proof.
  apply (switch_continuity
           (set_algorithm (init RENO 0 0)
              (AReno (Reno.mk 42 17 Reno.congestion_avoidance 0 0)))
           BBR Manual 3).
  simpl. discriminate.
Defined.

Lemma recent_mean_average (n : nat) (h : list Q) :
  n <> 0%nat -> h <> [] -> recent_mean n h = Ok (average (last_n n h)).
Proof.
  intros Hn Hh. unfold recent_mean, average.
  assert (Hlen : length (last_n n h) = Nat.min (length h) n)
    by apply length_last_n.
  assert (Hpos : Nat.min (length h) n <> 0%nat).
  { destruct h; [congruence|]. simpl length. lia. }
  rewrite (truediv_nonzero _ _ (inject_nat_nonzero _ Hpos)).
  destruct (last_n n h) eqn:E.
  - simpl in Hlen. congruence.
  - now rewrite Hlen.
Qed.

Lemma recent_mean_or_zero_average (n : nat) (h : list Q) :
  n <> 0%nat -> recent_mean_or_zero n h = Ok (average (last_n n h)).
Proof.
  intro Hn. destruct h as [|x h].
  - reflexivity.
  - apply recent_mean_average; [assumption | discriminate].
Qed.

Lemma classify_decision_order (loss_rate recent_rtt recent_bandwidth : Q) :
  classify loss_rate recent_rtt recent_bandwidth
  = decision_order loss_rate recent_rtt recent_bandwidth.
Proof.
  unfold classify, decision_order, first_match.
  unfold loss_threshold_high, rtt_threshold_high, rtt_threshold_excellent,
    loss_threshold_low.
  change bandwidth_threshold_high with 10485760.
  destruct (Qltb 0.02 loss_rate); [reflexivity|].
  destruct (Qltb 100 recent_rtt); [|reflexivity].
  now destruct (Qltb 10485760 recent_bandwidth).
Qed.

Lemma get_packet_loss_rate_ratio (c : t) :
  get_packet_loss_rate c = Ok (loss_ratio (packets_lost c) (packets_sent c)).
Proof.
  unfold get_packet_loss_rate, loss_ratio.
  destruct (packets_sent c) as [|n] eqn:E; [reflexivity|].
  cbn [Nat.eqb]. apply truediv_nonzero. apply inject_nat_nonzero.
  discriminate.
Qed.

Lemma decision_order_lossy (loss_rate avg_rtt avg_bandwidth : Q) :
  decision_order loss_rate avg_rtt avg_bandwidth = LOSSY <-> 0.02 < loss_rate.
Proof.
  unfold decision_order, first_match.
  destruct (Qltb 0.02 loss_rate) eqn:E.
  - apply Qltb_lt in E. tauto.
  - apply Qltb_ge in E. split.
    + destruct (Qltb 100 avg_rtt);
        [destruct (Qltb 10485760 avg_bandwidth)
        |destruct (Qltb avg_rtt 20 && Qltb loss_rate 0.001)];
        discriminate.
    + intro H. lra.
Qed.

(** C4. Classifier decision order.  With fewer than five RTT samples the
    classifier returns Good; with at least five it returns the first
    matching label of the decision list, evaluated on the ratio of
    [packets_lost] to [packets_sent] ([0] when nothing was sent), the
    mean of the last ten RTT samples and the mean of the last five
    bandwidth samples.  In particular it answers Lossy exactly when
    packets were sent and more than 2% of them were lost. *)
Theorem classifier_decision_order (c : t) :
  ((length (rtt_history c) < 5)%nat ->
   detect_network_condition c = Ok GOOD)
  /\ ((5 <= length (rtt_history c))%nat ->
      detect_network_condition c
      = Ok (decision_order
              (loss_ratio (packets_lost c) (packets_sent c))
              (average (last_n 10 (rtt_history c)))
              (average (last_n 5 (bandwidth_history c))))
      /\ (detect_network_condition c = Ok LOSSY
          <-> packets_sent c <> 0%nat
              /\ 0.02 < inject_Z (Z.of_nat (packets_lost c))
                        / inject_Z (Z.of_nat (packets_sent c)))).
Proof.
  split.
  - intro Hlt. unfold detect_network_condition.
    apply Nat.ltb_lt in Hlt. now rewrite Hlt.
  - intro Hge.
    assert (Hd : detect_network_condition c
                 = Ok (decision_order
                         (loss_ratio (packets_lost c) (packets_sent c))
                         (average (last_n 10 (rtt_history c)))
                         (average (last_n 5 (bandwidth_history c))))).
    { unfold detect_network_condition.
      pose proof Hge as Hb. apply Nat.ltb_ge in Hb. rewrite Hb.
      rewrite recent_mean_average;
        [| discriminate
         | destruct (rtt_history c); simpl in *; [lia | discriminate]].
      rewrite get_packet_loss_rate_ratio.
      rewrite recent_mean_or_zero_average by discriminate.
      simpl. now rewrite classify_decision_order. }
    split; [exact Hd|]. rewrite Hd. split.
    + intro H. injection H as H. apply decision_order_lossy in H.
      unfold loss_ratio in H. destruct (packets_sent c) as [|n].
      * exfalso. revert H. apply Qle_not_lt. discriminate.
      * split; [discriminate | exact H].
    + intros [Hsent Hloss]. f_equal. apply decision_order_lossy.
      unfold loss_ratio. destruct (packets_sent c) as [|n];
        [congruence | exact Hloss].
Qed.

Lemma classifier_decision_order_witness :
  detect_network_condition (init RENO 0 0) = Ok GOOD
  /\ detect_network_condition scenario_high_bw
     = Ok (decision_order (loss_ratio 5 1000)
             (average (last_n 10 (rtt_history scenario_high_bw)))
             (average (last_n 5 (bandwidth_history scenario_high_bw))))
  /\ detect_network_condition scenario_lossy = Ok LOSSY.
Proof.
  split; [|split].
  - apply (proj1 (classifier_decision_order (init RENO 0 0))).
    simpl. lia.
  - apply (proj1 (proj2 (classifier_decision_order scenario_high_bw)
                    ltac:(simpl; lia))).
  - apply (proj2 (proj2 (proj2 (classifier_decision_order scenario_lossy)
                           ltac:(simpl; lia)))).
    split; [discriminate | reflexivity].
Defined.

Example scenario_high_bw_label :
  detect_network_condition scenario_high_bw = Ok HIGH_BW.
Proof. reflexivity. Qed.

Lemma alg_on_ack_kind (a : algorithm_obj) (ack_num : Z) (clk : clock) :
  kind_of (final (alg_on_ack a ack_num clk)) = kind_of a.
Proof.
  destruct a as [x|x|x|x]; simpl.
  - now destruct (Reno.on_ack_received x ack_num).
  - now destruct (Cubic.on_ack_received x ack_num (t_cubic clk)).
  - now destruct (Tahoe.on_ack_received x ack_num).
  - now destruct (Bbr.on_ack_received x ack_num None 0 0 (t_bbr clk)).
Qed.

Lemma on_ack_received_gated (pow_half : Q -> Q) (c : t) (ack_num : Z)
    (rtt bandwidth : option Q) (clk : clock) :
  truthy rtt && truthy bandwidth = false ->
  final (on_ack_received pow_half c ack_num rtt bandwidth clk)
  = set_algorithm c (final (alg_on_ack (algorithm c) ack_num clk)).
Proof.
  intro H. unfold on_ack_received.
  rewrite <- andb_assoc, H, andb_false_r.
  destruct (alg_on_ack (algorithm c) ack_num clk) as [a|e a];
    [|reflexivity].
  cbv beta iota.
  destruct rtt as [r|]; [|reflexivity].
  now destruct bandwidth as [b|].
Qed.

(** C10. The adaptive path is gated on both samples.  When [rtt] or
    [bandwidth] is absent or [0], a call of [on_ack_received] changes
    nothing but the internal state of the active algorithm object, which
    keeps its class: both histories, the performance records, the packet
    counters, the active kind and [last_switch_time] are unchanged and no
    switch is made (nothing is printed).  This holds whether the call
    returns or raises. *)
Theorem adaptive_path_gated (pow_half : Q -> Q) (c : t) (ack_num : Z)
    (rtt bandwidth : option Q) (clk : clock) :
  absent_or_zero rtt \/ absent_or_zero bandwidth ->
  let c' := final (on_ack_received pow_half c ack_num rtt bandwidth clk) in
  c' = set_algorithm c (algorithm c')
  /\ kind_of (algorithm c') = kind_of (algorithm c)
  /\ rtt_history c' = rtt_history c
  /\ bandwidth_history c' = bandwidth_history c
  /\ algorithm_performance c' = algorithm_performance c
  /\ packets_sent c' = packets_sent c
  /\ packets_lost c' = packets_lost c
  /\ algorithm_type c' = algorithm_type c
  /\ last_switch_time c' = last_switch_time c
  /\ stdout c' = stdout c.
Proof.
  intros H c'. subst c'.
  rewrite on_ack_received_gated.
  - simpl. repeat split. apply alg_on_ack_kind.
  - destruct H as [H|H]; apply absent_or_zero_truthy in H; rewrite H.
    + reflexivity.
    + apply andb_false_r.
Qed.

Lemma adaptive_path_gated_witness :
  let c' := final (on_ack_received (fun x => x) (init RENO 0 0) 1
                     (Some 0) (Some 5000000) (at_time 100)) in
  c' = set_algorithm (init RENO 0 0) (algorithm c')
  /\ kind_of (algorithm c') = RENO
  /\ rtt_history c' = []
  /\ bandwidth_history c' = []
  /\ algorithm_performance c' = initial_performance
  /\ packets_sent c' = 0%nat
  /\ packets_lost c' = 0%nat
  /\ algorithm_type c' = RENO
  /\ last_switch_time c' = 0
  /\ stdout c' = [].
Proof.
  apply (adaptive_path_gated (fun x => x) (init RENO 0 0) 1
           (Some 0) (Some 5000000) (at_time 100)).
  left. simpl. reflexivity.
Defined.

(** ** BBR *)

Lemma bbr_phase_eqb_eq (p q : Bbr.phase) :
  Bbr.phase_eqb p q = true <-> p = q.
Proof.
  destruct p, q; simpl; split; congruence.
Qed.

Lemma bbr_update_bandwidth_estimate_returns (s : Bbr.t) (d e : Q) :
  exists s',
    Bbr.update_bandwidth_estimate s d e = Done s'
    /\ Bbr.cwnd s' = Bbr.cwnd s
    /\ Bbr.min_rtt s' = Bbr.min_rtt s
    /\ Bbr.rtprop_stamp s' = Bbr.rtprop_stamp s
    /\ Bbr.probe_rtt_done_stamp s' = Bbr.probe_rtt_done_stamp s
    /\ Bbr.state s' = Bbr.state s.
Proof.
  unfold Bbr.update_bandwidth_estimate.
  destruct (Qltb 0 e) eqn:He.
  - apply Qltb_lt in He.
    rewrite truediv_nonzero by (intro H; rewrite H in He; discriminate).
    break_if; eexists; (split; [reflexivity|]); simpl; repeat split.
  - eexists. split; [reflexivity|]. repeat split.
Qed.

Lemma bbr_update_min_rtt_keeps (s : Bbr.t) (r now : Q) :
  Bbr.cwnd (Bbr.update_min_rtt s r now) = Bbr.cwnd s
  /\ Bbr.bw_estimate (Bbr.update_min_rtt s r now) = Bbr.bw_estimate s.
Proof.
  unfold Bbr.update_min_rtt. break_if; simpl; split; reflexivity.
Qed.

Lemma bbr_state_machine_keeps (s : Bbr.t) (now : Q) (clk : Bbr.clock) :
  bbr_keeps s (Bbr.state_machine s now clk)
  /\ Bbr.probe_rtt_done_stamp (Bbr.state_machine s now clk)
     = Bbr.probe_rtt_done_stamp s.
Proof.
  unfold bbr_keeps, Bbr.state_machine, Bbr.check_startup_done,
    Bbr.advance_cycle_phase.
  destruct (Bbr.state s); simpl; repeat break_if; simpl; repeat split.
Qed.

Lemma bbr_check_probe_rtt_keeps (s : Bbr.t) (now : Q) :
  bbr_keeps s (Bbr.check_probe_rtt s now)
  /\ (Bbr.probe_rtt_done_stamp (Bbr.check_probe_rtt s now)
      = Bbr.probe_rtt_done_stamp s
      \/ Bbr.probe_rtt_done_stamp (Bbr.check_probe_rtt s now)
         = now + Bbr.bbr_probe_rtt_time).
Proof.
  unfold bbr_keeps, Bbr.check_probe_rtt.
  break_if; simpl; repeat split; auto.
Qed.

Lemma bbr_handle_probe_rtt_effect (s : Bbr.t) (now : Q) :
  let s' := Bbr.handle_probe_rtt s now in
  Bbr.cwnd s <= Bbr.cwnd s'
  /\ Bbr.min_rtt s' = Bbr.min_rtt s
  /\ Bbr.bw_estimate s' = Bbr.bw_estimate s
  /\ (Bbr.rtprop_stamp s' = Bbr.rtprop_stamp s
      \/ (Bbr.rtprop_stamp s' = now
          /\ Bbr.state s' = Bbr.PROBE_BW
          /\ Bbr.probe_rtt_done_stamp s <= now)).
Proof.
  unfold Bbr.handle_probe_rtt. destruct (Qle_bool _ now) eqn:E.
  - apply Qle_bool_iff in E.
    simpl. destruct (Qltb 0 (Bbr.prior_cwnd s)); simpl;
      (split; [|split; [|split]]);
      try reflexivity; try apply pymax_lower_l; try apply Qle_refl;
      right; repeat split; assumption.
  - simpl. split; [apply Qle_refl|]. repeat split. now left.
Qed.

Lemma bbr_set_pacing_rate_keeps (s : Bbr.t) :
  bbr_keeps s (Bbr.set_pacing_rate_ s)
  /\ Bbr.state (Bbr.set_pacing_rate_ s) = Bbr.state s.
Proof.
  unfold bbr_keeps. simpl. repeat split.
Qed.

Lemma bbr_set_cwnd_effect (s : Bbr.t) :
  let s' := Bbr.set_cwnd_ s in
  Bbr.state s' = Bbr.state s
  /\ Bbr.min_rtt s' = Bbr.min_rtt s
  /\ Bbr.bw_estimate s' = Bbr.bw_estimate s
  /\ Bbr.rtprop_stamp s' = Bbr.rtprop_stamp s
  /\ (4 <= Bbr.cwnd s -> 4 <= Bbr.cwnd s')
  /\ (forall m, Bbr.min_rtt s = Bbr.Fin m ->
        4 <= Bbr.cwnd s'
        /\ (Bbr.state s = Bbr.PROBE_RTT ->
            Bbr.cwnd s' = pymax 4 (Bbr.bw_estimate s * m)))
  /\ (Bbr.min_rtt s = Bbr.PInf -> Bbr.cwnd s' = Bbr.cwnd s).
Proof.
  unfold Bbr.set_cwnd_. destruct (Bbr.min_rtt s) as [|q] eqn:Hm.
  - cbv zeta. rewrite Hm.
    repeat (split; [reflexivity|]).
    split; [auto|]. split; [discriminate | reflexivity].
  - cbn [Bbr.state Bbr.set_cwnd].
    destruct (Bbr.phase_eqb (Bbr.state s) Bbr.PROBE_RTT) eqn:Hp;
      cbn [Bbr.state Bbr.min_rtt Bbr.bw_estimate Bbr.rtprop_stamp Bbr.cwnd
           Bbr.set_cwnd];
      rewrite ?Hm;
      repeat (split; [reflexivity|]).
    + split; [intros _; apply pymax_lower_l|].
      split; [|discriminate].
      intros m [= <-]. split; [apply pymax_lower_l | reflexivity].
    + split; [intros _; apply pymax_lower_r|].
      split; [|discriminate].
      intros m [= <-]. split; [apply pymax_lower_r|].
      intro H. rewrite H in Hp. discriminate.
Qed.

(** The steps of [on_ack_received] between the estimator updates and
    [set_cwnd]. *)
Lemma bbr_middle_steps (s : Bbr.t) (now : Q) (clk : Bbr.clock) :
  let s3 := Bbr.state_machine s now clk in
  let s4 := Bbr.check_probe_rtt s3 (Bbr.t_probe clk) in
  let s5 := if Bbr.phase_eqb (Bbr.state s4) Bbr.PROBE_RTT
            then Bbr.handle_probe_rtt s4 (Bbr.t_handle clk)
            else s4 in
  let s6 := Bbr.set_pacing_rate_ s5 in
  Bbr.cwnd s <= Bbr.cwnd s6
  /\ Bbr.min_rtt s6 = Bbr.min_rtt s
  /\ Bbr.bw_estimate s6 = Bbr.bw_estimate s
  /\ (Bbr.rtprop_stamp s6 = Bbr.rtprop_stamp s
      \/ (Bbr.rtprop_stamp s6 = Bbr.t_handle clk
          /\ Bbr.state s6 = Bbr.PROBE_BW
          /\ (Bbr.probe_rtt_done_stamp s <= Bbr.t_handle clk
              \/ Bbr.t_probe clk + Bbr.bbr_probe_rtt_time
                 <= Bbr.t_handle clk))).
Proof.
  intros s3 s4 s5 s6.
  destruct (bbr_state_machine_keeps s now clk) as [(Hc3 & Hm3 & Hb3 & Hs3) Hd3].
  destruct (bbr_check_probe_rtt_keeps s3 (Bbr.t_probe clk))
    as [(Hc4 & Hm4 & Hb4 & Hs4) Hd4].
  fold s3 in Hc3, Hm3, Hb3, Hs3, Hd3. fold s4 in Hc4, Hm4, Hb4, Hs4, Hd4.
  destruct (bbr_set_pacing_rate_keeps s5) as [(Hc6 & Hm6 & Hb6 & Hs6) Hp6].
  fold s6 in Hc6, Hm6, Hb6, Hs6, Hp6.
  rewrite Hc6, Hm6, Hb6, Hs6, Hp6.
  subst s5. destruct (Bbr.phase_eqb (Bbr.state s4) Bbr.PROBE_RTT).
  - destruct (bbr_handle_probe_rtt_effect s4 (Bbr.t_handle clk))
      as (Hc5 & Hm5 & Hb5 & Hs5).
    cbv zeta in Hc5, Hm5, Hb5, Hs5.
    rewrite Hm5, Hb5, Hm4, Hb4, Hm3, Hb3.
    split; [rewrite <- Hc3, <- Hc4; exact Hc5|].
    split; [reflexivity|]. split; [reflexivity|].
    destruct Hs5 as [Hs5|(Hs5 & Hst5 & Hle5)].
    + left. congruence.
    + right. split; [assumption|]. split; [assumption|].
      destruct Hd4 as [Hd4|Hd4]; rewrite Hd4 in Hle5.
      * left. now rewrite <- Hd3.
      * now right.
  - split; [rewrite Hc4, Hc3; apply Qle_refl|].
    split; [congruence|]. split; [congruence|]. left. congruence.
Qed.

Lemma bbr_on_ack_received_shape (s : Bbr.t) (ack_num : Z) (rtt : option Q)
    (d e : Q) (clk : Bbr.clock) :
  exists s6,
    Bbr.on_ack_received s ack_num rtt d e clk
    = Done (Bbr.set_packet_count (Bbr.set_cwnd_ s6)
              (Bbr.packet_count (Bbr.set_cwnd_ s6) + 1))
    /\ Bbr.cwnd s <= Bbr.cwnd s6
    /\ (truthy rtt = false ->
        Bbr.min_rtt s6 = Bbr.min_rtt s
        /\ (Bbr.rtprop_stamp s6 = Bbr.rtprop_stamp s
            \/ (Bbr.rtprop_stamp s6 = Bbr.t_handle clk
                /\ Bbr.state s6 = Bbr.PROBE_BW
                /\ (Bbr.probe_rtt_done_stamp s <= Bbr.t_handle clk
                    \/ Bbr.t_probe clk + Bbr.bbr_probe_rtt_time
                       <= Bbr.t_handle clk))))
    /\ (e <= 0 -> Bbr.bw_estimate s6 = Bbr.bw_estimate s).
Proof.
  unfold Bbr.on_ack_received.
  set (s1 := match rtt with
             | Some r =>
                 if truthy rtt
                 then Bbr.update_min_rtt s r (Bbr.t_min_rtt clk)
                 else s
             | None => s
             end).
  assert (H1 : Bbr.cwnd s1 = Bbr.cwnd s
               /\ Bbr.bw_estimate s1 = Bbr.bw_estimate s
               /\ (truthy rtt = false -> s1 = s)).
  { subst s1. destruct rtt as [r|]; [|now repeat split].
    destruct (truthy (Some r)).
    - destruct (bbr_update_min_rtt_keeps s r (Bbr.t_min_rtt clk)) as [Hc Hb].
      repeat split; try assumption. discriminate.
    - now repeat split. }
  destruct H1 as (Hc1 & Hb1 & Hsame1).
  set (o := if Qltb 0 e
            then Bbr.update_bandwidth_estimate s1 d e
            else Done s1).
  assert (H2 : exists s2,
             o = Done s2
             /\ Bbr.cwnd s2 = Bbr.cwnd s1
             /\ Bbr.min_rtt s2 = Bbr.min_rtt s1
             /\ Bbr.rtprop_stamp s2 = Bbr.rtprop_stamp s1
             /\ Bbr.probe_rtt_done_stamp s2 = Bbr.probe_rtt_done_stamp s1
             /\ (e <= 0 -> s2 = s1)).
  { subst o. destruct (Qltb 0 e) eqn:He.
    - destruct (bbr_update_bandwidth_estimate_returns s1 d e)
        as (s2 & Hr & Hc & Hm & Hs & Hd & _).
      exists s2. repeat split; try assumption.
      intro Hle. apply Qltb_lt in He. exfalso.
      apply (Qlt_not_le _ _ He Hle).
    - exists s1. repeat split. }
  destruct H2 as (s2 & Ho & Hc2 & Hm2 & Hs2 & Hd2 & Hsame2).
  rewrite Ho. cbn [bind].
  destruct (bbr_middle_steps s2 (Bbr.t_ack clk) clk)
    as (Hc6 & Hm6 & Hb6 & Hs6).
  cbv zeta in Hc6, Hm6, Hb6, Hs6.
  eexists. split; [reflexivity|].
  split; [rewrite <- Hc1, <- Hc2; exact Hc6|].
  split.
  - intro Hr. specialize (Hsame1 Hr).
    rewrite Hm6, Hm2, Hsame1. split; [reflexivity|].
    rewrite Hs2, Hd2, Hsame1 in Hs6. exact Hs6.
  - intro Hle. now rewrite Hb6, (Hsame2 Hle), Hb1.
Qed.

Lemma bbr_on_ack_received_floor (s : Bbr.t) (ack_num : Z) (rtt : option Q)
    (d e : Q) (clk : Bbr.clock) :
  4 <= Bbr.cwnd s ->
  exists s',
    Bbr.on_ack_received s ack_num rtt d e clk = Done s'
    /\ 4 <= Bbr.cwnd s'
    /\ (forall m, Bbr.state s' = Bbr.PROBE_RTT ->
          Bbr.min_rtt s' = Bbr.Fin m ->
          Bbr.cwnd s' = pymax 4 (Bbr.bw_estimate s' * m)).
Proof.
  intro Hfloor.
  destruct (bbr_on_ack_received_shape s ack_num rtt d e clk)
    as (s6 & Hrun & Hle & _).
  destruct (bbr_set_cwnd_effect s6) as (Hst & Hm & Hb & _ & Hkeep & Hfin & _).
  cbv zeta in Hst, Hm, Hb, Hkeep, Hfin.
  eexists. split; [exact Hrun|].
  cbn [Bbr.cwnd Bbr.state Bbr.min_rtt Bbr.bw_estimate Bbr.set_packet_count].
  split.
  - apply Hkeep. apply (Qle_trans _ _ _ Hfloor Hle).
  - intros m Hprobe Hmin. rewrite Hst in Hprobe. rewrite Hm in Hmin.
    rewrite Hb. now apply (Hfin m).
Qed.

Lemma bbr_run_floor (evs : list Bbr.event) :
  forall s : Bbr.t,
    4 <= Bbr.cwnd s ->
    (forall m, Bbr.state s = Bbr.PROBE_RTT ->
       Bbr.min_rtt s = Bbr.Fin m ->
       Bbr.cwnd s = pymax 4 (Bbr.bw_estimate s * m)) ->
    exists s',
      Bbr.run s evs = Done s'
      /\ 4 <= Bbr.cwnd s'
      /\ (forall m, Bbr.state s' = Bbr.PROBE_RTT ->
            Bbr.min_rtt s' = Bbr.Fin m ->
            Bbr.cwnd s' = pymax 4 (Bbr.bw_estimate s' * m)).
Proof.
  induction evs as [|ev evs IH]; intros s Hfloor Hprobe.
  - exists s. now repeat split.
  - simpl. unfold Bbr.deliver.
    destruct (bbr_on_ack_received_floor s (Bbr.ev_ack_num ev) (Bbr.ev_rtt ev)
                (Bbr.ev_delivered_bytes ev) (Bbr.ev_elapsed_time ev)
                (Bbr.ev_clock ev) Hfloor)
      as (s1 & Hrun & Hfloor1 & Hprobe1).
    rewrite Hrun. cbn [bind]. now apply IH.
Qed.

(** C3 (as amended). BBR window floor.  Every sequence of ack events
    delivered to a freshly constructed BBR object is processed without an
    exception and leaves [cwnd >= 4]; whenever the object is then in
    PROBE_RTT and a minimum RTT has been recorded ([min_rtt] is finite),
    [cwnd = max(4, bw_estimate * min_rtt)].  Since the statement is about
    every sequence, it covers the state after each event of a run. *)
Theorem bbr_window_floor (evs : list Bbr.event) :
  exists s,
    Bbr.run Bbr.init evs = Done s
    /\ 4 <= Bbr.cwnd s
    /\ (forall m, Bbr.state s = Bbr.PROBE_RTT ->
          Bbr.min_rtt s = Bbr.Fin m ->
          Bbr.cwnd s = pymax 4 (Bbr.bw_estimate s * m)).
Proof.
  apply bbr_run_floor.
  - simpl. discriminate.
  - simpl. discriminate.
Qed.

(** C3 as stated fails: the first ack without an RTT sample puts a fresh
    object in PROBE_RTT (its [rtprop_stamp] is still [0]) while [min_rtt]
    is infinite; [set_cwnd] returns early and [cwnd] stays [10], which is
    not [max(4, bw_estimate * min_rtt)]. *)
Lemma bbr_window_floor_counterexample :
  let s := final (Bbr.run Bbr.init
                    [Bbr.mk_event 1 None 0 0 (bbr_at 1700000000)]) in
  Bbr.state s = Bbr.PROBE_RTT
  /\ Bbr.cwnd s = 10
  /\ probe_rtt_window (Bbr.bw_estimate s) (Bbr.min_rtt s) = Bbr.PInf
  /\ Bbr.Fin (Bbr.cwnd s) <> probe_rtt_window (Bbr.bw_estimate s) (Bbr.min_rtt s).
Proof.
  vm_compute. repeat split. discriminate.
Qed.

Lemma bbr_window_floor_witness :
  exists s,
    Bbr.run Bbr.init probe_rtt_scenario = Done s
    /\ 4 <= Bbr.cwnd s
    /\ Bbr.state s = Bbr.PROBE_RTT
    /\ Bbr.cwnd s = pymax 4 (Bbr.bw_estimate s * 0.05).
Proof.
  destruct (bbr_window_floor probe_rtt_scenario) as (s & Hrun & Hfloor & Hprobe).
  exists s. split; [exact Hrun|]. split; [exact Hfloor|].
  vm_compute in Hrun. injection Hrun as <-.
  split; [reflexivity|]. apply Hprobe; reflexivity.
Defined.

(** What the two guards of [on_ack_received] do keep out.  The call
    never raises.  An absent or zero [rtt] leaves [min_rtt] unchanged,
    and leaves its timestamp unchanged unless this event ends PROBE_RTT
    at its deadline, in which case the timestamp is the reading taken
    by [handle_probe_rtt].  A non-positive [elapsed_time] leaves the
    bandwidth estimate unchanged.  A negative [rtt] is not kept out, as
    is proved further down. *)
Lemma bbr_sample_hygiene (s : Bbr.t) (ack_num : Z) (rtt : option Q)
    (delivered_bytes elapsed_time : Q) (clk : Bbr.clock) :
  exists s',
    Bbr.on_ack_received s ack_num rtt delivered_bytes elapsed_time clk
    = Done s'
    /\ (absent_or_zero rtt ->
        Bbr.min_rtt s' = Bbr.min_rtt s
        /\ (Bbr.rtprop_stamp s' = Bbr.rtprop_stamp s
            \/ (Bbr.rtprop_stamp s' = Bbr.t_handle clk
                /\ Bbr.state s' = Bbr.PROBE_BW
                /\ (Bbr.probe_rtt_done_stamp s <= Bbr.t_handle clk
                    \/ Bbr.t_probe clk + Bbr.bbr_probe_rtt_time
                       <= Bbr.t_handle clk))))
    /\ (elapsed_time <= 0 -> Bbr.bw_estimate s' = Bbr.bw_estimate s).
Proof.
  destruct (bbr_on_ack_received_shape s ack_num rtt delivered_bytes
              elapsed_time clk) as (s6 & Hrun & _ & Hrtt & Hbw).
  destruct (bbr_set_cwnd_effect s6) as (Hst & Hm & Hb & Hs & _).
  cbv zeta in Hst, Hm, Hb, Hs.
  eexists. split; [exact Hrun|].
  cbn [Bbr.min_rtt Bbr.rtprop_stamp Bbr.state Bbr.bw_estimate
       Bbr.set_packet_count].
  rewrite Hst, Hm, Hb, Hs. split.
  - intro Habs. apply Hrtt. now apply absent_or_zero_truthy.
  - exact Hbw.
Qed.

Lemma bbr_sample_hygiene_example :
  exists s',
    Bbr.on_ack_received Bbr.init 1 (Some 0) 1024 0 (bbr_at 5) = Done s'
    /\ Bbr.min_rtt s' = Bbr.PInf
    /\ Bbr.bw_estimate s' = 1000000.
Proof.
  destruct (bbr_sample_hygiene Bbr.init 1 (Some 0) 1024 0 (bbr_at 5))
    as (s' & Hrun & Hrtt & Hbw).
  exists s'. split; [exact Hrun|]. split.
  - apply Hrtt. simpl. reflexivity.
  - apply Hbw. apply Qle_refl.
Defined.

(** ** Cooldown *)

Lemma last_time_snoc (prev : Q) (log : list switch_line) (l : switch_line) :
  last_time prev (log ++ [l]) = sw_time l.
Proof.
  revert prev. induction log as [|x log IH]; intro prev; simpl; auto.
Qed.

Lemma auto_spaced_snoc (gap prev : Q) (log : list switch_line)
    (l : switch_line) :
  auto_spaced gap prev log ->
  (sw_reason l <> Manual -> gap <= sw_time l - last_time prev log) ->
  auto_spaced gap prev (log ++ [l]).
Proof.
  revert prev. induction log as [|x log IH]; intros prev Hlog Hl; simpl.
  - split; [exact Hl | exact I].
  - destruct Hlog as [Hx Hrest]. split; [exact Hx|]. now apply IH.
Qed.

Lemma spaced_snoc (gap prev : Q) (log : list switch_line) (l : switch_line) :
  spaced gap prev log ->
  gap <= sw_time l - last_time prev log ->
  spaced gap prev (log ++ [l]).
Proof.
  revert prev. induction log as [|x log IH]; intros prev Hlog Hl; simpl.
  - split; [exact Hl | exact I].
  - destruct Hlog as [Hx Hrest]. split; [exact Hx|]. now apply IH.
Qed.

Lemma switch_algorithm_log (c : t) (new_algorithm : AlgorithmType)
    (why : reason) (now : Q) :
  let c' := switch_algorithm c new_algorithm why now in
  (new_algorithm = algorithm_type c /\ c' = c)
  \/ (new_algorithm <> algorithm_type c
      /\ stdout c'
         = stdout c ++ [mk_line (algorithm_type c) new_algorithm why now]
      /\ last_switch_time c' = now).
Proof.
  unfold switch_algorithm.
  destruct (AlgorithmType_eqb new_algorithm (algorithm_type c)) eqn:E.
  - left. split; [now apply AlgorithmType_eqb_eq | reflexivity].
  - right. split; [now apply AlgorithmType_eqb_neq|].
    destruct new_algorithm; cbn; split; reflexivity.
Qed.

(** The part of [adaptive_algorithm_switch] that follows the update of
    the histories. *)
Lemma policy_log (pow_half : Q -> Q) (c : t) (clk : clock) :
  t_policy clk <= t_switch clk ->
  log_step False c
    (final
       match calculate_performance_score pow_half c with
       | Err e => Raised e c
       | Ok current_score =>
           let p := algorithm_performance c (algorithm_type c) in
           let c := set_algorithm_performance c
                      (upd (algorithm_performance c) (algorithm_type c)
                         (mk_perf (switches p) (total_time p) current_score)) in
           match detect_network_condition c with
           | Err e => Raised e c
           | Ok condition =>
               let optimal_algorithm := get_optimal_algorithm condition in
               if should_switch_algorithm c optimal_algorithm (t_policy clk)
               then Done (switch_algorithm c optimal_algorithm
                            (Network_condition condition) (t_switch clk))
               else Done c
           end
       end).
Proof.
  intro Hclk.
  destruct (calculate_performance_score pow_half c) as [score|e];
    [|left; now split].
  cbv zeta.
  set (c1 := set_algorithm_performance c _).
  destruct (detect_network_condition c1) as [condition|e];
    [|left; now split].
  destruct (should_switch_algorithm c1 _ (t_policy clk)) eqn:Hpol;
    [|left; now split].
  rewrite should_switch_algorithm_spec in Hpol.
  apply andb_true_iff in Hpol. destruct Hpol as [Hcool Hkind].
  apply negb_true_iff in Hcool, Hkind.
  apply Qltb_ge in Hcool. apply AlgorithmType_eqb_neq in Hkind.
  cbn [final].
  destruct (switch_algorithm_log c1 (get_optimal_algorithm condition)
              (Network_condition condition) (t_switch clk))
    as [[Hsame _]|(_ & Hout & Hlast)]; [contradiction|].
  right. eexists. split; [exact Hout|]. split; [exact Hlast|].
  right. split; [discriminate|].
  cbn [sw_time]. change (last_switch_time c1) with (last_switch_time c) in Hcool.
  apply Qle_trans with (t_policy clk - last_switch_time c); [exact Hcool|].
  unfold Qminus. apply Qplus_le_compat; [exact Hclk | apply Qle_refl].
Qed.

Lemma adaptive_algorithm_switch_log (pow_half : Q -> Q) (c : t) (r b : Q)
    (clk : clock) :
  t_policy clk <= t_switch clk ->
  log_step False c (final (adaptive_algorithm_switch pow_half c r b clk)).
Proof.
  intro Hclk. unfold adaptive_algorithm_switch. cbv zeta.
  match goal with
  | |- context [calculate_performance_score pow_half ?c4] =>
      assert (Hout : stdout c4 = stdout c)
        by (repeat break_if; reflexivity);
      assert (Hlast : last_switch_time c4 = last_switch_time c)
        by (repeat break_if; reflexivity);
      pose proof (policy_log pow_half c4 clk Hclk) as H
  end.
  unfold log_step in *. rewrite Hout, Hlast in H. exact H.
Qed.

Lemma step_log (pow_half pow_third : Q -> Q) (c : t) (o : op) :
  op_clock_ok o ->
  log_step (~ not_manual o) c (final (step pow_half pow_third c o)).
Proof.
  intro Hclk. destruct o as [ack_num rtt bandwidth clk|clk|n|new now];
    simpl in Hclk; cbn [step].
  - unfold on_ack_received. cbv zeta.
    remember (if AlgorithmType_eqb (algorithm_type c) BBR
                 && truthy rtt && truthy bandwidth
              then alg_on_ack_bbr (algorithm c) ack_num rtt clk
              else alg_on_ack (algorithm c) ack_num clk) as called eqn:Hc.
    clear Hc. destruct called as [a|e a]; [|left; now split].
    assert (Hgo : forall r b,
               log_step (~ not_manual (Ack ack_num rtt bandwidth clk)) c
                 (final (adaptive_algorithm_switch pow_half
                           (set_algorithm c a) r b clk))).
    { intros r b.
      destruct (adaptive_algorithm_switch_log pow_half (set_algorithm c a)
                  r b clk Hclk) as [H|(l & H1 & H2 & [[_ []]|H3])].
      - now left.
      - right. exists l. split; [exact H1|]. split; [exact H2|]. now right. }
    destruct rtt as [r|]; [|left; now split].
    destruct bandwidth as [b|]; [|left; now split].
    destruct (truthy (Some r) && truthy (Some b)); [apply Hgo | left; now split].
  - left. cbn [final]. unfold on_loss_detected. simpl.
    destruct (algorithm c); now split.
  - left. now split.
  - cbn [final].
    destruct (switch_algorithm_log c new Manual now)
      as [[_ ->]|(_ & Hout & Hlast)]; [left; now split|].
    right. eexists. split; [exact Hout|]. split; [exact Hlast|].
    left. split; [reflexivity|]. simpl. tauto.
Qed.

Lemma run_auto_spaced (pow_half pow_third : Q -> Q) (ops : list op) :
  forall (c : t) (prev : Q),
    Forall op_clock_ok ops ->
    last_switch_time c = last_time prev (stdout c) ->
    auto_spaced 10 prev (stdout c) ->
    auto_spaced 10 prev (stdout (run pow_half pow_third c ops)).
Proof.
  induction ops as [|o ops IH]; intros c prev Hclk Hlast Hlog;
    [exact Hlog|].
  inversion Hclk as [|? ? Ho Hrest]; subst.
  cbn [run].
  destruct (step_log pow_half pow_third c o Ho)
    as [[Hout Hl]|(l & Hout & Hl & Hwhy)];
    apply IH; try assumption.
  - now rewrite Hout, Hl.
  - now rewrite Hout.
  - rewrite Hout, last_time_snoc. exact Hl.
  - rewrite Hout. apply auto_spaced_snoc; [exact Hlog|].
    intro Hauto. rewrite <- Hlast.
    destruct Hwhy as [[Hman _]|[_ Hgap]]; [contradiction | exact Hgap].
Qed.

Lemma run_spaced (pow_half pow_third : Q -> Q) (ops : list op) :
  forall (c : t) (prev : Q),
    Forall op_clock_ok ops ->
    Forall not_manual ops ->
    last_switch_time c = last_time prev (stdout c) ->
    spaced 10 prev (stdout c) ->
    spaced 10 prev (stdout (run pow_half pow_third c ops)).
Proof.
  induction ops as [|o ops IH]; intros c prev Hclk Hauto Hlast Hlog;
    [exact Hlog|].
  inversion Hclk as [|? ? Ho Hrest]; subst.
  inversion Hauto as [|? ? Hnm Hnms]; subst.
  cbn [run].
  destruct (step_log pow_half pow_third c o Ho)
    as [[Hout Hl]|(l & Hout & Hl & Hwhy)];
    apply IH; try assumption.
  - now rewrite Hout, Hl.
  - now rewrite Hout.
  - rewrite Hout, last_time_snoc. exact Hl.
  - rewrite Hout. apply spaced_snoc; [exact Hlog|].
    rewrite <- Hlast.
    destruct Hwhy as [[_ Hman]|[_ Hgap]]; [contradiction | exact Hgap].
Qed.

(** C6 (as amended). Cooldown.  On a controller constructed at time [t1],
    through any sequence of acks, losses, sends and manual
    [switch_algorithm] calls whose clock does not run backwards between
    the policy check and the switch it triggers, every switch made by
    the adaptive path comes at least 10 s after the switch before it
    (manual or not) or after the construction; so in a sequence with no
    manual call, no two switches are less than 10 s apart. *)
Theorem cooldown_invariant (pow_half pow_third : Q -> Q)
    (kind : AlgorithmType) (t0 t1 : Q) (ops : list op) :
  Forall op_clock_ok ops ->
  let log := stdout (run pow_half pow_third (init kind t0 t1) ops) in
  auto_spaced 10 t1 log
  /\ (Forall not_manual ops -> spaced 10 t1 log).
Proof.
  intros Hclk log. subst log.
  assert (Hout : stdout (init kind t0 t1) = []) by now destruct kind.
  assert (Hlast : last_switch_time (init kind t0 t1) = t1)
    by now destruct kind.
  split.
  - apply run_auto_spaced; [exact Hclk | | ].
    + now rewrite Hout, Hlast.
    + now rewrite Hout.
  - intro Hnm. apply run_spaced; [exact Hclk | exact Hnm | | ].
    + now rewrite Hout, Hlast.
    + now rewrite Hout.
Qed.

Lemma cooldown_invariant_witness :
  let log := stdout (run (fun x => x) (fun x => x) (init RENO 0 0)
                       cooldown_scenario) in
  auto_spaced 10 0 log /\ spaced 10 0 log.
Proof.
  assert (Hclk : Forall op_clock_ok cooldown_scenario).
  { repeat constructor; simpl; discriminate. }
  assert (Hnm : Forall not_manual cooldown_scenario).
  { repeat constructor. }
  destruct (cooldown_invariant (fun x => x) (fun x => x) RENO 0 0
              cooldown_scenario Hclk) as [Hauto Hall].
  split; [exact Hauto | exact (Hall Hnm)].
Defined.

(** In that scenario the policy refuses at 5 s, switches Reno to Cubic
    at 20 s and refuses again at 25 s. *)
Example cooldown_scenario_log :
  stdout (run (fun x => x) (fun x => x) (init RENO 0 0) cooldown_scenario)
  = [mk_line RENO CUBIC (Network_condition GOOD) 20].
Proof. reflexivity. Qed.

(** C6 as stated fails: [switch_algorithm] called directly does not look
    at the cooldown, so two manual switches one second apart both take
    effect. *)
Lemma cooldown_invariant_counterexample :
  let ops := [Switch CUBIC 100; Switch TAHOE 101] in
  let log := stdout (run (fun x => x) (fun x => x) (init RENO 0 0) ops) in
  Forall op_clock_ok ops
  /\ log = [mk_line RENO CUBIC Manual 100; mk_line CUBIC TAHOE Manual 101]
  /\ ~ spaced 10 0 log.
Proof.
  intros ops log.
  assert (Hlog : log = [mk_line RENO CUBIC Manual 100;
                        mk_line CUBIC TAHOE Manual 101])
    by (vm_compute; reflexivity).
  split; [repeat constructor|]. split; [exact Hlog|].
  rewrite Hlog. simpl. intros (_ & H & _). now apply H.
Qed.

(** * Further properties of the algorithms *)

Lemma Qinv_pos_div (x : Q) : 0 < x -> 0 < 1 / x.
Proof.
  intro H. unfold Qdiv. rewrite Qmult_1_l. now apply Qinv_lt_0_compat.
Qed.

Lemma Qlt_nonzero (x : Q) : 0 < x -> ~ x == 0.
Proof.
  intros H E. rewrite E in H. discriminate.
Qed.

(** ** Tahoe *)

Lemma tahoe_step_floor (s : Tahoe.t) (e : tahoe_event) :
  1 <= Tahoe.cwnd s -> 2 <= Tahoe.ssthresh s ->
  exists s',
    tahoe_step s e = Done s'
    /\ 1 <= Tahoe.cwnd s' /\ 2 <= Tahoe.ssthresh s'.
Proof.
  intros Hc Hs. destruct e as [ack_num|]; simpl.
  - unfold Tahoe.on_ack_received. destruct (Tahoe.state s).
    + simpl. break_if; eexists; (split; [reflexivity|]); simpl;
        split; try assumption; lra.
    + assert (Hpos : 0 < Tahoe.cwnd s) by lra.
      rewrite (truediv_nonzero _ _ (Qlt_nonzero _ Hpos)).
      eexists. split; [reflexivity|]. simpl. split; [|assumption].
      pose proof (Qinv_pos_div _ Hpos). lra.
  - eexists. split; [reflexivity|]. simpl. split; [lra|].
    apply pymax_lower_r.
Qed.

Lemma tahoe_run_floor (evs : list tahoe_event) :
  forall s : Tahoe.t,
    1 <= Tahoe.cwnd s -> 2 <= Tahoe.ssthresh s ->
    exists s',
      tahoe_run s evs = Done s'
      /\ 1 <= Tahoe.cwnd s' /\ 2 <= Tahoe.ssthresh s'.
Proof.
  induction evs as [|e evs IH]; intros s Hc Hs.
  - exists s. now repeat split.
  - cbn [tahoe_run].
    destruct (tahoe_step_floor s e Hc Hs) as (s1 & Hrun & Hc1 & Hs1).
    rewrite Hrun. cbn [bind]. now apply IH.
Qed.

(** X1. Tahoe keeps its floors: whatever acks and timeouts a fresh
    [TahoeAlgorithm] receives, no call raises, [cwnd >= 1] and
    [ssthresh >= 2]. *)
Theorem tahoe_never_faults (evs : list tahoe_event) :
  exists s,
    tahoe_run Tahoe.init evs = Done s
    /\ 1 <= Tahoe.cwnd s /\ 2 <= Tahoe.ssthresh s.
Proof.
  apply tahoe_run_floor; simpl; lra.
Qed.

Lemma tahoe_slow_start_linear (acks : list Z) :
  forall s : Tahoe.t,
    Tahoe.state s = Tahoe.slow_start ->
    Tahoe.cwnd s + inject_Z (Z.of_nat (length acks)) < Tahoe.ssthresh s ->
    exists s',
      tahoe_run s (map TahoeAck acks) = Done s'
      /\ Tahoe.state s' = Tahoe.slow_start
      /\ Tahoe.ssthresh s' = Tahoe.ssthresh s
      /\ Tahoe.cwnd s' == Tahoe.cwnd s + inject_Z (Z.of_nat (length acks)).
Proof.
  induction acks as [|a acks IH]; intros s Hst Hlt.
  - exists s. split; [reflexivity|]. split; [exact Hst|].
    split; [reflexivity|]. simpl. ring.
  - cbn [map tahoe_run tahoe_step length] in *.
    rewrite Nat2Z.inj_succ, <- Z.add_1_l, inject_Z_plus in Hlt.
    change (inject_Z 1) with 1 in Hlt.
    unfold Tahoe.on_ack_received. rewrite Hst.
    cbn [Tahoe.ssthresh Tahoe.cwnd Tahoe.set_cwnd].
    destruct (Qle_bool _ _) eqn:E.
    { apply Qle_bool_iff in E.
      pose proof (inject_nat_nonneg (length acks)). exfalso. lra. }
    cbn [bind].
    destruct (IH (Tahoe.set_cwnd s (Tahoe.cwnd s + 1)) Hst)
      as (s' & Hrun & Hst' & Hss & Hcw).
    { cbn [Tahoe.ssthresh Tahoe.cwnd Tahoe.set_cwnd]. lra. }
    exists s'. split; [exact Hrun|]. split; [exact Hst'|].
    split; [exact Hss|].
    rewrite Hcw. cbn [Tahoe.cwnd Tahoe.set_cwnd].
    rewrite Nat2Z.inj_succ, <- Z.add_1_l, inject_Z_plus. ring.
Qed.

(** X2. Tahoe timeout followed by slow start: after [on_timeout] from a
    window [c], [ssthresh = max(c/2, 2)], and each of the next [n] acks
    adds one segment as long as [1 + n] stays below that threshold, the
    object staying in slow start. *)
Theorem tahoe_timeout_then_slow_start (s : Tahoe.t) (acks : list Z) :
  1 + inject_Z (Z.of_nat (length acks)) < pymax (Tahoe.cwnd s / 2) 2 ->
  exists s',
    tahoe_run s (TahoeTimeout :: map TahoeAck acks) = Done s'
    /\ Tahoe.state s' = Tahoe.slow_start
    /\ Tahoe.ssthresh s' = pymax (Tahoe.cwnd s / 2) 2
    /\ Tahoe.cwnd s' == 1 + inject_Z (Z.of_nat (length acks)).
Proof.
  intro Hlt. cbn [tahoe_run tahoe_step bind].
  apply (tahoe_slow_start_linear acks (Tahoe.on_timeout s)).
  - reflexivity.
  - exact Hlt.
Qed.

Lemma tahoe_timeout_then_slow_start_witness :
  exists s',
    tahoe_run (Tahoe.mk 40 65535 Tahoe.congestion_avoidance 0 0)
      (TahoeTimeout :: map TahoeAck [1; 2; 3]%Z) = Done s'
    /\ Tahoe.state s' = Tahoe.slow_start
    /\ Tahoe.ssthresh s' = pymax (40 / 2) 2
    /\ Tahoe.cwnd s' == 1 + inject_Z (Z.of_nat 3).
Proof.
  apply (tahoe_timeout_then_slow_start
           (Tahoe.mk 40 65535 Tahoe.congestion_avoidance 0 0) [1; 2; 3]%Z).
  vm_compute. reflexivity.
Defined.

(** ** Reno outside fast recovery *)

Lemma reno_plain_ack (s : Reno.t) (ack_num : Z) :
  Reno.state s <> Reno.fast_recovery ->
  (Reno.duplicate_acks s < 3)%Z ->
  0 < Reno.cwnd s ->
  exists s',
    Reno.on_ack_received s ack_num = Done s'
    /\ Reno.state s' <> Reno.fast_recovery
    /\ Reno.duplicate_acks s' = Reno.duplicate_acks s
    /\ Reno.ssthresh s' = Reno.ssthresh s
    /\ Reno.cwnd s < Reno.cwnd s'.
Proof.
  intros Hst Hdup Hpos. unfold Reno.on_ack_received.
  rewrite (reno_not_fast_recovery s Hst).
  apply Z.leb_gt in Hdup. rewrite Hdup.
  destruct (Reno.state s) eqn:E; [| |congruence]; simpl.
  - break_if; eexists; (split; [reflexivity|]); simpl; rewrite ?E;
      (split; [discriminate|]); repeat (split; [reflexivity|]); lra.
  - rewrite (truediv_nonzero _ _ (Qlt_nonzero _ Hpos)).
    eexists. split; [reflexivity|]. simpl. rewrite E.
    split; [discriminate|]. repeat (split; [reflexivity|]).
    pose proof (Qinv_pos_div _ Hpos). lra.
Qed.

(** C2. Reno fast recovery is dead code.  The specification has the ack
    after three duplicate acks enter fast recovery.  The class tests
    [duplicate_acks >= 3] and resets the counter on leaving recovery,
    but never increments it and keeps no last ack number.  So five acks
    with the same number leave a fresh object in slow start with
    [cwnd = 6], [ssthresh = 65535] and [duplicate_acks = 0]; and
    whatever acks a fresh object receives, every call returns, the
    counter stays [0], [ssthresh] stays [65535] (no halving ever
    happens) and fast recovery is never entered. *)
Theorem reno_duplicate_acks_never_counted (acks : list Z) :
  Reno.run Reno.init [7; 7; 7; 7; 7]%Z
  = Done (Reno.mk 6 65535 Reno.slow_start 0 0)
  /\ exists s,
       Reno.run Reno.init acks = Done s
       /\ Reno.duplicate_acks s = 0%Z
       /\ Reno.state s <> Reno.fast_recovery
       /\ Reno.ssthresh s = 65535.
Proof.
  split; [reflexivity|].
  assert (H : forall s : Reno.t,
             Reno.state s <> Reno.fast_recovery ->
             Reno.duplicate_acks s = 0%Z ->
             0 < Reno.cwnd s ->
             exists s',
               Reno.run s acks = Done s'
               /\ Reno.duplicate_acks s' = 0%Z
               /\ Reno.state s' <> Reno.fast_recovery
               /\ Reno.ssthresh s' = Reno.ssthresh s).
  { induction acks as [|a acks IH]; intros s Hst Hdup Hpos.
    - exists s. now repeat split.
    - cbn [Reno.run].
      destruct (reno_plain_ack s a Hst) as (s1 & -> & Hst1 & Hdup1 & Hss1 & Hcw1);
        [rewrite Hdup; reflexivity | exact Hpos |].
      cbn [bind].
      destruct (IH s1 Hst1) as (s' & Hrun & Hdup' & Hst' & Hss');
        [congruence | lra |].
      exists s'. repeat split; try assumption. congruence. }
  destruct (H Reno.init) as (s & Hrun & Hdup & Hst & Hss);
    [discriminate | reflexivity | reflexivity |].
  exists s. now repeat split.
Qed.

(** X3. [RenoAlgorithm] never counts duplicate acks itself.  An object
    that is not in fast recovery, has fewer than three duplicate acks
    recorded and a positive window stays out of fast recovery under any
    sequence of acks: no call raises, [duplicate_acks] and [ssthresh]
    keep their values and [cwnd] never decreases. *)
Theorem reno_stays_out_of_recovery (acks : list Z) (s : Reno.t) :
  Reno.state s <> Reno.fast_recovery ->
  (Reno.duplicate_acks s < 3)%Z ->
  0 < Reno.cwnd s ->
  exists s',
    Reno.run s acks = Done s'
    /\ Reno.state s' <> Reno.fast_recovery
    /\ Reno.duplicate_acks s' = Reno.duplicate_acks s
    /\ Reno.ssthresh s' = Reno.ssthresh s
    /\ Reno.cwnd s <= Reno.cwnd s'.
Proof.
  revert s. induction acks as [|a acks IH]; intros s Hst Hdup Hpos.
  - exists s. repeat split; try assumption. apply Qle_refl.
  - cbn [Reno.run].
    destruct (reno_plain_ack s a Hst Hdup Hpos)
      as (s1 & Hrun & Hst1 & Hdup1 & Hss1 & Hcw1).
    rewrite Hrun. cbn [bind].
    destruct (IH s1 Hst1) as (s' & Hrun' & Hst' & Hdup' & Hss' & Hcw').
    + now rewrite Hdup1.
    + lra.
    + exists s'. split; [exact Hrun'|]. split; [exact Hst'|].
      split; [congruence|]. split; [congruence|]. lra.
Qed.

Lemma reno_stays_out_of_recovery_witness :
  exists s',
    Reno.run Reno.init [1; 1; 1; 1; 2]%Z = Done s'
    /\ Reno.state s' <> Reno.fast_recovery
    /\ Reno.duplicate_acks s' = 0%Z
    /\ Reno.ssthresh s' = 65535
    /\ 1 <= Reno.cwnd s'.
Proof.
  apply (reno_stays_out_of_recovery [1; 1; 1; 1; 2]%Z Reno.init).
  - discriminate.
  - reflexivity.
  - reflexivity.
Defined.

(** X4. The only way [RenoAlgorithm.on_ack_received] can raise: an ack
    in congestion avoidance, with fewer than three duplicate acks
    recorded, on a window that is exactly zero.  The exception is
    [ZeroDivisionError] and the object is left as it was. *)
Theorem reno_raises_iff (s : Reno.t) (ack_num : Z) :
  ((exists e s', Reno.on_ack_received s ack_num = Raised e s')
   <-> (Reno.state s = Reno.congestion_avoidance
        /\ (Reno.duplicate_acks s < 3)%Z
        /\ Reno.cwnd s == 0))
  /\ (forall e s',
        Reno.on_ack_received s ack_num = Raised e s' ->
        e = ZeroDivisionError /\ s' = s).
Proof.
  unfold Reno.on_ack_received.
  destruct (Reno.state s) eqn:Est; cbn [Reno.phase_eqb].
  - (* slow start *)
    destruct (3 <=? Reno.duplicate_acks s)%Z;
      [|cbn [Reno.cwnd Reno.ssthresh Reno.set_cwnd];
        destruct (Qle_bool _ _)];
      (split; [split|]);
      try (intros (e & s' & H); discriminate H);
      try (intros (H & _); discriminate H);
      intros e s' H; discriminate H.
  - (* congestion avoidance *)
    destruct (3 <=? Reno.duplicate_acks s)%Z eqn:Edup.
    + split; [split|].
      * intros (e & s' & H). discriminate H.
      * intros (_ & Hlt & _). apply Z.leb_le in Edup. lia.
      * intros e s' H. discriminate H.
    + apply Z.leb_gt in Edup. unfold truediv.
      destruct (Qeq_bool (Reno.cwnd s) 0) eqn:Ez.
      * apply Qeq_bool_iff in Ez. split; [split|].
        -- intros _. now repeat split.
        -- intros _. now exists ZeroDivisionError, s.
        -- intros e s' [= <- <-]. now split.
      * apply Qeq_bool_neq in Ez. split; [split|].
        -- intros (e & s' & H). discriminate H.
        -- intros (_ & _ & Hz). contradiction.
        -- intros e s' H. discriminate H.
  - (* fast recovery *)
    destruct (Reno.recover s <? ack_num)%Z;
      (split; [split|]);
      try (intros (e & s' & H); discriminate H);
      try (intros (H & _); discriminate H);
      intros e s' H; discriminate H.
Qed.

(** ** Cubic *)

(** X5. Cubic growth is capped by additive increase.  An ack in
    congestion avoidance on a positive window returns and changes
    nothing but [cwnd], which it never lowers and to which it adds at
    most [1/cwnd], whatever the cubic target and the clock reading
    are. *)
Theorem cubic_growth_bound (s : Cubic.t) (ack_num : Z) (now : Q) :
  Cubic.state s = Cubic.congestion_avoidance ->
  0 < Cubic.cwnd s ->
  exists s',
    Cubic.on_ack_received s ack_num now = Done s'
    /\ s' = Cubic.set_cwnd s (Cubic.cwnd s')
    /\ Cubic.state s' = Cubic.congestion_avoidance
    /\ Cubic.cwnd s <= Cubic.cwnd s'
    /\ Cubic.cwnd s' <= Cubic.cwnd s + 1 / Cubic.cwnd s.
Proof.
  intros Hst Hpos. unfold Cubic.on_ack_received. rewrite Hst.
  rewrite (truediv_nonzero _ _ (Qlt_nonzero _ Hpos)).
  pose proof (Qinv_pos_div _ Hpos) as Hd.
  destruct (Qltb (Cubic.cwnd s) (Cubic.cubic_function s _)) eqn:E.
  - apply Qltb_lt in E.
    eexists. split; [reflexivity|]. split; [reflexivity|].
    simpl. split; [exact Hst|].
    unfold pymin. destruct (Qltb _ _) eqn:E2.
    + split; [lra | apply Qle_refl].
    + apply Qltb_ge in E2. split; [lra | exact E2].
  - eexists. split; [reflexivity|]. split; [reflexivity|].
    simpl. split; [exact Hst|].
    split; [lra | apply Qle_refl].
Qed.

Lemma cubic_growth_bound_witness :
  exists s',
    Cubic.on_ack_received
      (Cubic.mk 10 7 Cubic.congestion_avoidance 10 0 2) 1 3 = Done s'
    /\ s' = Cubic.set_cwnd (Cubic.mk 10 7 Cubic.congestion_avoidance 10 0 2)
              (Cubic.cwnd s')
    /\ Cubic.state s' = Cubic.congestion_avoidance
    /\ 10 <= Cubic.cwnd s'
    /\ Cubic.cwnd s' <= 10 + 1 / 10.
Proof.
  apply (cubic_growth_bound
           (Cubic.mk 10 7 Cubic.congestion_avoidance 10 0 2) 1 3);
    reflexivity.
Defined.

(** X6. Losses only lower the Cubic window.  After any number of calls
    of [on_loss_detected] on a non-negative window, [cwnd] is still
    non-negative and not above the value it started from.  After at
    least one call, [ssthresh] equals [cwnd], the phase is congestion
    avoidance, and [wmax], the window before the last loss, lies
    between the new [cwnd] and the starting one. *)
Theorem cubic_losses_decay (pow_third : Q -> Q) (nows : list Q) (s : Cubic.t) :
  0 <= Cubic.cwnd s ->
  let s' := cubic_losses pow_third s nows in
  0 <= Cubic.cwnd s'
  /\ Cubic.cwnd s' <= Cubic.cwnd s
  /\ (nows <> [] ->
      Cubic.ssthresh s' = Cubic.cwnd s'
      /\ Cubic.state s' = Cubic.congestion_avoidance
      /\ Cubic.cwnd s' <= Cubic.wmax s'
      /\ Cubic.wmax s' <= Cubic.cwnd s).
Proof.
  revert s. induction nows as [|now nows IH]; intros s Hpos.
  - simpl. split; [exact Hpos|]. split; [apply Qle_refl | congruence].
  - cbn [cubic_losses].
    set (s1 := Cubic.on_loss_detected pow_third s now).
    assert (H1 : Cubic.cwnd s1 = Cubic.cwnd s * 0.7
                 /\ Cubic.ssthresh s1 = Cubic.cwnd s1
                 /\ Cubic.state s1 = Cubic.congestion_avoidance
                 /\ Cubic.wmax s1 = Cubic.cwnd s)
      by (subst s1; simpl; now repeat split).
    destruct H1 as (Hcw & Hss & Hst & Hw).
    assert (Hpos1 : 0 <= Cubic.cwnd s1) by (rewrite Hcw; lra).
    destruct (IH s1 Hpos1) as (H0 & Hle & Hrest). cbv zeta in *.
    split; [exact H0|]. split; [rewrite Hcw in Hle; lra|].
    intros _. destruct nows as [|n2 nows].
    + cbn [cubic_losses]. rewrite Hss, Hst, Hw, Hcw.
      repeat split; try reflexivity; lra.
    + destruct Hrest as (Hss' & Hst' & Hlo & Hhi); [discriminate|].
      split; [exact Hss'|]. split; [exact Hst'|]. split; [exact Hlo|].
      rewrite Hcw in Hhi. lra.
Qed.

Lemma cubic_losses_decay_witness :
  let s' := cubic_losses (fun x => x) (Cubic.mk 100 65535 Cubic.slow_start 0 0 0)
              [1; 2] in
  0 <= Cubic.cwnd s'
  /\ Cubic.cwnd s' <= 100
  /\ Cubic.ssthresh s' = Cubic.cwnd s'
  /\ Cubic.wmax s' <= 100.
Proof.
  destruct (cubic_losses_decay (fun x => x) [1; 2]
              (Cubic.mk 100 65535 Cubic.slow_start 0 0 0))
    as (H0 & Hle & Hrest); [discriminate|].
  destruct Hrest as (Hss & _ & _ & Hw); [discriminate|].
  repeat split; assumption.
Defined.

(** ** BBR: estimators, phases, pacing *)

Lemma bbr_on_ack_received_halves (s : Bbr.t) (ack_num : Z) (rtt : option Q)
    (d e : Q) (clk : Bbr.clock) :
  Bbr.on_ack_received s ack_num rtt d e clk
  = do s2 <- bbr_estimators s rtt d e clk; Done (bbr_after_estimators s2 clk).
Proof. reflexivity. Qed.

Lemma bbr_estimators_effect (s : Bbr.t) (rtt : option Q) (d e : Q)
    (clk : Bbr.clock) :
  exists s2,
    bbr_estimators s rtt d e clk = Done s2
    /\ Bbr.state s2 = Bbr.state s
    /\ Bbr.cycle_index s2 = Bbr.cycle_index s
    /\ Bbr.pacing_gain s2 = Bbr.pacing_gain s
    /\ Bbr.bw_estimate s2
       = (if Qltb 0 e
          then if Qltb (Bbr.bw_estimate s) (d / e) || Qltb 1 e
               then d / e
               else Bbr.bw_estimate s
          else Bbr.bw_estimate s)
    /\ Bbr.min_rtt s2
       = (match rtt with
          | Some r =>
              if truthy rtt
              then if Bbr.lt_min_rtt r (Bbr.min_rtt s)
                      || Qltb Bbr.bbr_rtprop_filterlen
                           (Bbr.t_min_rtt clk - Bbr.rtprop_stamp s)
                   then Bbr.Fin r
                   else Bbr.min_rtt s
              else Bbr.min_rtt s
          | None => Bbr.min_rtt s
          end).
Proof.
  unfold bbr_estimators.
  set (s1 := match rtt with
             | Some r =>
                 if truthy rtt
                 then Bbr.update_min_rtt s r (Bbr.t_min_rtt clk)
                 else s
             | None => s
             end).
  assert (H1 : Bbr.state s1 = Bbr.state s
               /\ Bbr.cycle_index s1 = Bbr.cycle_index s
               /\ Bbr.pacing_gain s1 = Bbr.pacing_gain s
               /\ Bbr.bw_estimate s1 = Bbr.bw_estimate s
               /\ Bbr.min_rtt s1
                  = (match rtt with
                     | Some r =>
                         if truthy rtt
                         then if Bbr.lt_min_rtt r (Bbr.min_rtt s)
                                 || Qltb Bbr.bbr_rtprop_filterlen
                                      (Bbr.t_min_rtt clk - Bbr.rtprop_stamp s)
                              then Bbr.Fin r
                              else Bbr.min_rtt s
                         else Bbr.min_rtt s
                     | None => Bbr.min_rtt s
                     end)).
  { subst s1. destruct rtt as [r|]; [|now repeat split].
    destruct (truthy (Some r)); [|now repeat split].
    unfold Bbr.update_min_rtt. now destruct (_ || _). }
  destruct H1 as (Hst & Hci & Hpg & Hbw & Hm). rewrite <- Hm, <- Hbw.
  rewrite <- Hst, <- Hci, <- Hpg. clearbody s1. clear Hst Hci Hpg Hbw Hm.
  destruct (Qltb 0 e) eqn:He.
  - unfold Bbr.update_bandwidth_estimate. rewrite He.
    apply Qltb_lt in He.
    rewrite (truediv_nonzero _ _ (Qlt_nonzero _ He)).
    destruct (_ || _); eexists; (split; [reflexivity|]); now repeat split.
  - exists s1. now repeat split.
Qed.

Lemma bbr_after_estimators_keeps (s : Bbr.t) (clk : Bbr.clock) :
  Bbr.bw_estimate (bbr_after_estimators s clk) = Bbr.bw_estimate s
  /\ Bbr.min_rtt (bbr_after_estimators s clk) = Bbr.min_rtt s.
Proof.
  unfold bbr_after_estimators. cbv zeta.
  cbn [Bbr.bw_estimate Bbr.min_rtt Bbr.set_packet_count].
  destruct (bbr_middle_steps s (Bbr.t_ack clk) clk) as (_ & Hm & Hb & _).
  cbv zeta in Hm, Hb.
  match goal with
  | |- context [Bbr.set_cwnd_ ?x] =>
      destruct (bbr_set_cwnd_effect x) as (_ & Hm' & Hb' & _)
  end.
  cbv zeta in Hm', Hb'. rewrite Hm', Hb'. split; assumption.
Qed.

(** C7. Sample hygiene fails for negative RTT samples.  The guard on
    [rtt] is the truthiness test [if rtt:], which keeps out [None] and
    [0] only, while the guard on [elapsed_time] is [> 0].  On a fresh
    object the call [on_ack_received(1, rtt=-1)] returns with
    [min_rtt = -1] in place of [inf] and with the timestamp of the
    minimum moved to the time of the call.  In every state, an ack with
    a negative [rtt] returns and leaves a negative [min_rtt]; the
    sample itself becomes the minimum when it is below the old one or
    the old one is more than 10 s old. *)
Theorem bbr_negative_rtt_accepted (s : Bbr.t) (ack_num : Z) (r : Q)
    (delivered_bytes elapsed_time : Q) (clk : Bbr.clock) :
  (let s0 := final (Bbr.on_ack_received Bbr.init 1 (Some (-1)) 0 0
                      (bbr_at 1700000000)) in
   Bbr.min_rtt Bbr.init = Bbr.PInf
   /\ Bbr.rtprop_stamp Bbr.init == 0
   /\ Bbr.min_rtt s0 = Bbr.Fin (-1)
   /\ Bbr.rtprop_stamp s0 == 1700000000)
  /\ (r < 0 ->
      exists s' m,
        Bbr.on_ack_received s ack_num (Some r) delivered_bytes elapsed_time
          clk = Done s'
        /\ Bbr.min_rtt s' = Bbr.Fin m
        /\ m < 0
        /\ (Bbr.lt_min_rtt r (Bbr.min_rtt s) = true
            \/ 10 < Bbr.t_min_rtt clk - Bbr.rtprop_stamp s ->
            m = r)).
Proof.
  split.
  - cbv zeta. split; [reflexivity|]. split; [reflexivity|].
    split; vm_compute; reflexivity.
  - intro Hr. rewrite bbr_on_ack_received_halves.
    destruct (bbr_estimators_effect s (Some r) delivered_bytes elapsed_time
                clk) as (s2 & Hrun & _ & _ & _ & _ & Hm).
    rewrite Hrun. cbn [bind].
    destruct (bbr_after_estimators_keeps s2 clk) as [_ Hm'].
    rewrite <- Hm' in Hm.
    assert (Ht : truthy (Some r) = true).
    { simpl. apply negb_true_iff.
      destruct (Qeq_bool r 0) eqn:E; [|reflexivity].
      apply Qeq_bool_iff in E. lra. }
    rewrite Ht in Hm.
    destruct (Bbr.lt_min_rtt r (Bbr.min_rtt s)) eqn:Elt.
    + exists (bbr_after_estimators s2 clk), r.
      split; [reflexivity|]. split; [exact Hm|]. split; [exact Hr | auto].
    + destruct (Qltb Bbr.bbr_rtprop_filterlen _) eqn:Estale; simpl in Hm.
      * exists (bbr_after_estimators s2 clk), r.
        split; [reflexivity|]. split; [exact Hm|]. split; [exact Hr | auto].
      * destruct (Bbr.min_rtt s) as [|m] eqn:Emin; [discriminate Elt|].
        exists (bbr_after_estimators s2 clk), m.
        split; [reflexivity|]. split; [exact Hm|].
        simpl in Elt. apply Qltb_ge in Elt. split; [lra|].
        intros [H|H]; [discriminate H|].
        apply Qltb_lt in H. unfold Bbr.bbr_rtprop_filterlen in Estale.
        congruence.
Qed.

(** X7. The bandwidth estimate is a running maximum over short samples:
    an ack whose [elapsed_time] is in (0, 1] leaves
    [bw_estimate = max(old, delivered_bytes/elapsed_time)], so it never
    decreases; a sample spanning more than a second replaces the
    estimate, up or down. *)
Theorem bbr_bandwidth_filter (s : Bbr.t) (ack_num : Z) (rtt : option Q)
    (delivered_bytes elapsed_time : Q) (clk : Bbr.clock) :
  0 < elapsed_time ->
  exists s',
    Bbr.on_ack_received s ack_num rtt delivered_bytes elapsed_time clk
    = Done s'
    /\ (elapsed_time <= 1 ->
        Bbr.bw_estimate s'
        = pymax (Bbr.bw_estimate s) (delivered_bytes / elapsed_time)
        /\ Bbr.bw_estimate s <= Bbr.bw_estimate s')
    /\ (1 < elapsed_time ->
        Bbr.bw_estimate s' = delivered_bytes / elapsed_time).
Proof.
  intro Hpos. rewrite bbr_on_ack_received_halves.
  destruct (bbr_estimators_effect s rtt delivered_bytes elapsed_time clk)
    as (s2 & Hrun & _ & _ & _ & Hbw & _).
  rewrite Hrun. cbn [bind]. eexists. split; [reflexivity|].
  destruct (bbr_after_estimators_keeps s2 clk) as [Hb _]. rewrite Hb, Hbw.
  apply Qltb_lt in Hpos. rewrite Hpos. split.
  - intro Hle. apply Qltb_ge in Hle. rewrite Hle, orb_false_r.
    split; [reflexivity|]. apply pymax_lower_l.
  - intro Hgt. apply Qltb_lt in Hgt. now rewrite Hgt, orb_true_r.
Qed.

Lemma bbr_bandwidth_filter_witness :
  exists s',
    Bbr.on_ack_received Bbr.init 1 (Some 0.05) 1024 0.001 (bbr_at 1700000000)
    = Done s'
    /\ Bbr.bw_estimate s' = pymax 1000000 (1024 / 0.001)
    /\ 1000000 <= Bbr.bw_estimate s'.
Proof.
  destruct (bbr_bandwidth_filter Bbr.init 1 (Some 0.05) 1024 0.001
              (bbr_at 1700000000)) as (s' & Hrun & Hshort & _);
    [reflexivity|].
  exists s'. split; [exact Hrun|]. apply Hshort. discriminate.
Defined.

(** X8. Minimum-RTT tracking: after an ack that carries a non-zero RTT
    sample [r], [min_rtt] is finite and at most [r]; it is [r] itself
    when [r] is below the old minimum or the old minimum is more than
    10 s old. *)
Theorem bbr_min_rtt_tracks (s : Bbr.t) (ack_num : Z) (r : Q)
    (delivered_bytes elapsed_time : Q) (clk : Bbr.clock) :
  ~ r == 0 ->
  exists s' m,
    Bbr.on_ack_received s ack_num (Some r) delivered_bytes elapsed_time clk
    = Done s'
    /\ Bbr.min_rtt s' = Bbr.Fin m
    /\ m <= r
    /\ (Bbr.lt_min_rtt r (Bbr.min_rtt s) = true
        \/ 10 < Bbr.t_min_rtt clk - Bbr.rtprop_stamp s ->
        m = r).
Proof.
  intro Hr. rewrite bbr_on_ack_received_halves.
  destruct (bbr_estimators_effect s (Some r) delivered_bytes elapsed_time clk)
    as (s2 & Hrun & _ & _ & _ & _ & Hm).
  rewrite Hrun. cbn [bind].
  destruct (bbr_after_estimators_keeps s2 clk) as [_ Hm']. rewrite <- Hm' in Hm.
  assert (Ht : truthy (Some r) = true).
  { simpl. apply negb_true_iff. destruct (Qeq_bool r 0) eqn:E; [|reflexivity].
    apply Qeq_bool_iff in E. contradiction. }
  rewrite Ht in Hm.
  destruct (Bbr.lt_min_rtt r (Bbr.min_rtt s)) eqn:Elt.
  - exists (bbr_after_estimators s2 clk), r.
    split; [reflexivity|]. split; [exact Hm|]. split; [apply Qle_refl | auto].
  - destruct (Qltb Bbr.bbr_rtprop_filterlen _) eqn:Estale; simpl in Hm.
    + exists (bbr_after_estimators s2 clk), r.
      split; [reflexivity|]. split; [exact Hm|].
      split; [apply Qle_refl | auto].
    + destruct (Bbr.min_rtt s) as [|m] eqn:Emin; [discriminate Elt|].
      exists (bbr_after_estimators s2 clk), m.
      split; [reflexivity|]. split; [exact Hm|].
      simpl in Elt. apply Qltb_ge in Elt. split; [exact Elt|].
      intros [H|H]; [discriminate H|].
      apply Qltb_lt in H. unfold Bbr.bbr_rtprop_filterlen in Estale.
      congruence.
Qed.

Lemma bbr_min_rtt_tracks_witness :
  exists s' m,
    Bbr.on_ack_received Bbr.init 1 (Some 0.05) 1024 0.001 (bbr_at 1700000000)
    = Done s'
    /\ Bbr.min_rtt s' = Bbr.Fin m
    /\ m <= 0.05.
Proof.
  destruct (bbr_min_rtt_tracks Bbr.init 1 0.05 1024 0.001 (bbr_at 1700000000))
    as (s' & m & Hrun & Hm & Hle & _); [discriminate|].
  exists s', m. now repeat split.
Defined.

Lemma bbr_cycle_index_in_range (n : nat) :
  ((n + 1) mod length Bbr.pacing_gain_cycle < 8)%nat.
Proof.
  change 8%nat with (length Bbr.pacing_gain_cycle).
  apply Nat.mod_upper_bound. discriminate.
Qed.

Lemma bbr_cycle_gain_known (n : nat) :
  (n < 8)%nat -> In (nth n Bbr.pacing_gain_cycle 1) bbr_gains.
Proof.
  intro H. unfold bbr_gains. do 3 right. now apply nth_In.
Qed.

Lemma bbr_state_machine_phase (s : Bbr.t) (now : Q) (clk : Bbr.clock) :
  let s' := Bbr.state_machine s now clk in
  (bbr_phase_rank (Bbr.state s) <= bbr_phase_rank (Bbr.state s'))%nat
  /\ ((Bbr.cycle_index s < 8)%nat -> (Bbr.cycle_index s' < 8)%nat)
  /\ (In (Bbr.pacing_gain s) bbr_gains -> In (Bbr.pacing_gain s') bbr_gains).
Proof.
  unfold Bbr.state_machine, Bbr.check_startup_done, Bbr.advance_cycle_phase.
  cbv zeta.
  destruct (Bbr.state s) eqn:Est; bbr_proj.
  - bbr_cases; bbr_proj; rewrite ?Est; bbr_proj;
      (split; [lia|]); (split; [auto|]);
      intros _; unfold bbr_gains; simpl; auto.
  - bbr_cases; bbr_proj; rewrite ?Est; bbr_proj;
      (split; [lia|]); (split; [intro; try lia; auto|]);
      intro H; unfold bbr_gains; simpl; auto.
  - bbr_cases; bbr_proj; rewrite ?Est; bbr_proj; (split; [lia|]).
    + split; [intros _; apply bbr_cycle_index_in_range|].
      intros _. apply bbr_cycle_gain_known, bbr_cycle_index_in_range.
    + split; auto.
  - rewrite Est. bbr_proj. split; [lia|]. split; auto.
Qed.

Lemma bbr_check_probe_rtt_phase (s : Bbr.t) (now : Q) :
  let s' := Bbr.check_probe_rtt s now in
  (bbr_phase_rank (Bbr.state s) <= bbr_phase_rank (Bbr.state s'))%nat
  /\ Bbr.cycle_index s' = Bbr.cycle_index s
  /\ (In (Bbr.pacing_gain s) bbr_gains -> In (Bbr.pacing_gain s') bbr_gains).
Proof.
  unfold Bbr.check_probe_rtt. cbv zeta.
  destruct (_ && _); bbr_proj.
  - split; [destruct (Bbr.state s); simpl; lia|]. split; [reflexivity|].
    intros _. now left.
  - split; [lia|]. split; auto.
Qed.

Lemma bbr_handle_probe_rtt_phase (s : Bbr.t) (now : Q) :
  Bbr.state s = Bbr.PROBE_RTT ->
  let s' := Bbr.handle_probe_rtt s now in
  (bbr_phase_rank (Bbr.state s) <= bbr_phase_rank (Bbr.state s'))%nat
  /\ ((Bbr.cycle_index s < 8)%nat -> (Bbr.cycle_index s' < 8)%nat)
  /\ (In (Bbr.pacing_gain s) bbr_gains -> In (Bbr.pacing_gain s') bbr_gains).
Proof.
  intro Hst. unfold Bbr.handle_probe_rtt. cbv zeta.
  destruct (Qle_bool _ _); bbr_proj.
  - rewrite Hst. bbr_proj. split; [lia|]. split; [lia|].
    intros _. apply bbr_cycle_gain_known. lia.
  - split; [lia|]. split; auto.
Qed.

Lemma bbr_after_estimators_phase (s : Bbr.t) (clk : Bbr.clock) :
  let s' := bbr_after_estimators s clk in
  (bbr_phase_rank (Bbr.state s) <= bbr_phase_rank (Bbr.state s'))%nat
  /\ ((Bbr.cycle_index s < 8)%nat -> (Bbr.cycle_index s' < 8)%nat)
  /\ (In (Bbr.pacing_gain s) bbr_gains -> In (Bbr.pacing_gain s') bbr_gains)
  /\ Bbr.pacing_rate s'
     = pymax (Bbr.bw_estimate s' * Bbr.pacing_gain s') 1000.
Proof.
  unfold bbr_after_estimators. cbv zeta.
  destruct (bbr_state_machine_phase s (Bbr.t_ack clk) clk) as (Hr3 & Hi3 & Hg3).
  cbv zeta in Hr3, Hi3, Hg3.
  set (s3 := Bbr.state_machine s (Bbr.t_ack clk) clk) in *. clearbody s3.
  destruct (bbr_check_probe_rtt_phase s3 (Bbr.t_probe clk)) as (Hr4 & Hi4 & Hg4).
  cbv zeta in Hr4, Hi4, Hg4.
  set (s4 := Bbr.check_probe_rtt s3 (Bbr.t_probe clk)) in *. clearbody s4.
  set (s5 := if Bbr.phase_eqb (Bbr.state s4) Bbr.PROBE_RTT
             then Bbr.handle_probe_rtt s4 (Bbr.t_handle clk)
             else s4).
  assert (H5 : (bbr_phase_rank (Bbr.state s4) <= bbr_phase_rank (Bbr.state s5))%nat
               /\ ((Bbr.cycle_index s4 < 8)%nat -> (Bbr.cycle_index s5 < 8)%nat)
               /\ (In (Bbr.pacing_gain s4) bbr_gains ->
                   In (Bbr.pacing_gain s5) bbr_gains)).
  { subst s5. destruct (Bbr.phase_eqb (Bbr.state s4) Bbr.PROBE_RTT) eqn:E.
    - apply bbr_handle_probe_rtt_phase. now apply bbr_phase_eqb_eq.
    - split; [lia|]. split; auto. }
  destruct H5 as (Hr5 & Hi5 & Hg5). clearbody s5.
  destruct (bbr_set_cwnd_effect (Bbr.set_pacing_rate_ s5))
    as (Hst & _ & Hbw & _).
  cbv zeta in Hst, Hbw.
  assert (Hkeep : Bbr.cycle_index (Bbr.set_cwnd_ (Bbr.set_pacing_rate_ s5))
                  = Bbr.cycle_index s5
                  /\ Bbr.pacing_gain (Bbr.set_cwnd_ (Bbr.set_pacing_rate_ s5))
                     = Bbr.pacing_gain s5
                  /\ Bbr.pacing_rate (Bbr.set_cwnd_ (Bbr.set_pacing_rate_ s5))
                     = pymax (Bbr.bw_estimate s5 * Bbr.pacing_gain s5) 1000).
  { unfold Bbr.set_cwnd_, Bbr.set_pacing_rate_. bbr_proj.
    destruct (Bbr.min_rtt s5); [now repeat split|].
    cbv zeta. bbr_proj. destruct (Bbr.phase_eqb _ _); now repeat split. }
  destruct Hkeep as (Hci & Hpg & Hpr).
  bbr_proj. rewrite Hst, Hci, Hpg, Hpr, Hbw.
  unfold Bbr.set_pacing_rate_. bbr_proj.
  split; [lia|].
  split; [intro H; apply Hi5; rewrite Hi4; now apply Hi3|].
  split; [auto|]. reflexivity.
Qed.

Lemma bbr_on_ack_received_phase (s : Bbr.t) (ack_num : Z) (rtt : option Q)
    (d e : Q) (clk : Bbr.clock) :
  exists s',
    Bbr.on_ack_received s ack_num rtt d e clk = Done s'
    /\ (bbr_phase_rank (Bbr.state s) <= bbr_phase_rank (Bbr.state s'))%nat
    /\ ((Bbr.cycle_index s < 8)%nat -> (Bbr.cycle_index s' < 8)%nat)
    /\ (In (Bbr.pacing_gain s) bbr_gains -> In (Bbr.pacing_gain s') bbr_gains)
    /\ Bbr.pacing_rate s'
       = pymax (Bbr.bw_estimate s' * Bbr.pacing_gain s') 1000.
Proof.
  rewrite bbr_on_ack_received_halves.
  destruct (bbr_estimators_effect s rtt d e clk)
    as (s2 & Hrun & Hst & Hci & Hpg & _).
  rewrite Hrun. cbn [bind]. eexists. split; [reflexivity|].
  rewrite <- Hst, <- Hci, <- Hpg. apply bbr_after_estimators_phase.
Qed.

(** X9. BBR phases only move forward: STARTUP, then DRAIN, then the
    PROBE_BW / PROBE_RTT pair.  No ack ever takes the object back to
    STARTUP, or back to DRAIN once it has left it. *)
Theorem bbr_phase_never_goes_back (s : Bbr.t) (ack_num : Z) (rtt : option Q)
    (delivered_bytes elapsed_time : Q) (clk : Bbr.clock) :
  exists s',
    Bbr.on_ack_received s ack_num rtt delivered_bytes elapsed_time clk
    = Done s'
    /\ (bbr_phase_rank (Bbr.state s) <= bbr_phase_rank (Bbr.state s'))%nat
    /\ (Bbr.state s <> Bbr.STARTUP -> Bbr.state s' <> Bbr.STARTUP)
    /\ (Bbr.state s = Bbr.PROBE_BW \/ Bbr.state s = Bbr.PROBE_RTT ->
        Bbr.state s' = Bbr.PROBE_BW \/ Bbr.state s' = Bbr.PROBE_RTT).
Proof.
  destruct (bbr_on_ack_received_phase s ack_num rtt delivered_bytes
              elapsed_time clk) as (s' & Hrun & Hrank & _).
  exists s'. split; [exact Hrun|]. split; [exact Hrank|].
  destruct (Bbr.state s), (Bbr.state s'); simpl in Hrank; split;
    try congruence; try lia; intros [H|H]; try discriminate H; auto.
Qed.

Lemma bbr_phase_never_goes_back_witness :
  let s := final (Bbr.run Bbr.init probe_rtt_scenario) in
  exists s',
    Bbr.on_ack_received s 3 (Some 0.05) 1024 0.001 (bbr_at 1700000012)
    = Done s'
    /\ Bbr.state s' <> Bbr.STARTUP
    /\ (Bbr.state s' = Bbr.PROBE_BW \/ Bbr.state s' = Bbr.PROBE_RTT).
Proof.
  intro s.
  destruct (bbr_phase_never_goes_back s 3 (Some 0.05) 1024 0.001
              (bbr_at 1700000012)) as (s' & Hrun & _ & Hstart & Hprobe).
  exists s'. split; [exact Hrun|]. split.
  - apply Hstart. vm_compute. discriminate.
  - apply Hprobe. right. vm_compute. reflexivity.
Defined.

(** X10. Pacing rate: after every ack, whatever the state before,
    [pacing_rate = max(bw_estimate * pacing_gain, 1000)] on the values
    the ack leaves behind; in particular it is never below 1000 B/s. *)
Theorem bbr_pacing_rate_floor (s : Bbr.t) (ack_num : Z) (rtt : option Q)
    (delivered_bytes elapsed_time : Q) (clk : Bbr.clock) :
  exists s',
    Bbr.on_ack_received s ack_num rtt delivered_bytes elapsed_time clk
    = Done s'
    /\ Bbr.pacing_rate s'
       = pymax (Bbr.bw_estimate s' * Bbr.pacing_gain s') 1000
    /\ 1000 <= Bbr.pacing_rate s'.
Proof.
  destruct (bbr_on_ack_received_phase s ack_num rtt delivered_bytes
              elapsed_time clk) as (s' & Hrun & _ & _ & _ & Hrate).
  exists s'. split; [exact Hrun|]. split; [exact Hrate|].
  rewrite Hrate. apply pymax_lower_r.
Qed.

Lemma bbr_run_gain_cycle (evs : list Bbr.event) :
  forall s : Bbr.t,
    (Bbr.cycle_index s < 8)%nat ->
    In (Bbr.pacing_gain s) bbr_gains ->
    exists s',
      Bbr.run s evs = Done s'
      /\ (Bbr.cycle_index s' < 8)%nat
      /\ In (Bbr.pacing_gain s') bbr_gains.
Proof.
  induction evs as [|ev evs IH]; intros s Hi Hg.
  - exists s. now repeat split.
  - cbn [Bbr.run]. unfold Bbr.deliver.
    destruct (bbr_on_ack_received_phase s (Bbr.ev_ack_num ev) (Bbr.ev_rtt ev)
                (Bbr.ev_delivered_bytes ev) (Bbr.ev_elapsed_time ev)
                (Bbr.ev_clock ev)) as (s1 & Hrun & _ & Hi1 & Hg1 & _).
    rewrite Hrun. cbn [bind]. apply IH; auto.
Qed.

(** X11. The gain cycle stays in range.  Over any sequence of acks on a
    fresh [BBRAlgorithm], [cycle_index] stays below the length of
    [pacing_gain_cycle] (the list is never indexed out of range) and
    [pacing_gain] is always one of the configured gains: 1, the startup
    gain 2.885, the drain gain 1/2.885, or an entry of the cycle. *)
Theorem bbr_gain_cycle_in_range (evs : list Bbr.event) :
  exists s,
    Bbr.run Bbr.init evs = Done s
    /\ (Bbr.cycle_index s < length Bbr.pacing_gain_cycle)%nat
    /\ In (Bbr.pacing_gain s) bbr_gains.
Proof.
  apply bbr_run_gain_cycle.
  - simpl. lia.
  - now left.
Qed.

(** * Further properties of the controller *)

Lemma adaptive_algorithm_switch_halves (pow_half : Q -> Q) (c : t) (r b : Q)
    (clk : clock) :
  adaptive_algorithm_switch pow_half c r b clk
  = adaptive_decision pow_half (record_sample c r b) clk.
Proof. reflexivity. Qed.

Lemma last_n_short {A : Type} (n : nat) (l : list A) :
  (length l <= n)%nat -> last_n n l = l.
Proof.
  intro H. unfold last_n. replace (length l - n)%nat with 0%nat by lia.
  reflexivity.
Qed.

Lemma last_n_snoc {A : Type} (n : nat) (l : list A) (x : A) :
  exists l', last_n (S n) (l ++ [x]) = l' ++ [x].
Proof.
  unfold last_n. rewrite length_app. simpl length.
  replace (length l + 1 - S n)%nat with (length l - n)%nat by lia.
  rewrite skipn_app.
  replace (length l - n - length l)%nat with 0%nat by lia.
  simpl. now eexists.
Qed.

Lemma record_sample_histories (c : t) (r b : Q) :
  let c' := record_sample c r b in
  rtt_history c' = last_n 50 (rtt_history c ++ [r])
  /\ bandwidth_history c' = last_n 50 (bandwidth_history c ++ [b])
  /\ c' = set_bandwidth_history (set_rtt_history c (rtt_history c'))
            (bandwidth_history c').
Proof.
  unfold record_sample. cbv zeta.
  cbn [rtt_history bandwidth_history set_rtt_history set_bandwidth_history].
  destruct (50 <? length (rtt_history c ++ [r]))%nat eqn:E1;
    cbn [rtt_history bandwidth_history set_rtt_history set_bandwidth_history];
    destruct (50 <? length (bandwidth_history c ++ [b]))%nat eqn:E2;
    cbn [rtt_history bandwidth_history set_rtt_history set_bandwidth_history];
    try apply Nat.ltb_ge in E1; try apply Nat.ltb_ge in E2;
    rewrite ?(last_n_short 50 _ E1), ?(last_n_short 50 _ E2);
    now repeat split.
Qed.

Lemma adaptive_decision_frame (pow_half : Q -> Q) (c : t) (clk : clock) :
  let c' := final (adaptive_decision pow_half c clk) in
  rtt_history c' = rtt_history c
  /\ bandwidth_history c' = bandwidth_history c
  /\ packets_sent c' = packets_sent c
  /\ packets_lost c' = packets_lost c.
Proof.
  unfold adaptive_decision.
  destruct (calculate_performance_score pow_half c) as [score|e];
    [|now repeat split].
  cbv zeta. set (c1 := set_algorithm_performance c _).
  destruct (detect_network_condition c1) as [cond|e]; [|now repeat split].
  destruct (should_switch_algorithm c1 _ _); [|now repeat split].
  cbn [final]. unfold switch_algorithm.
  destruct (AlgorithmType_eqb _ _); [now repeat split|].
  destruct (get_optimal_algorithm cond); now repeat split.
Qed.

(** X12. Bounded sample histories.  A call of [adaptive_algorithm_switch]
    appends the RTT and bandwidth samples and keeps the 50 latest of
    each, whether it then returns or raises: both histories end with
    the new sample and have at most 50 entries, and nothing older than
    the 50 latest survives. *)
Theorem histories_keep_latest_50 (pow_half : Q -> Q) (c : t) (r b : Q)
    (clk : clock) :
  let c' := final (adaptive_algorithm_switch pow_half c r b clk) in
  rtt_history c' = last_n 50 (rtt_history c ++ [r])
  /\ bandwidth_history c' = last_n 50 (bandwidth_history c ++ [b])
  /\ (length (rtt_history c') <= 50)%nat
  /\ (length (bandwidth_history c') <= 50)%nat
  /\ (exists older, rtt_history c' = older ++ [r])
  /\ (exists older, bandwidth_history c' = older ++ [b]).
Proof.
  rewrite adaptive_algorithm_switch_halves.
  destruct (adaptive_decision_frame pow_half (record_sample c r b) clk)
    as (Hr & Hb & _).
  destruct (record_sample_histories c r b) as (Hr' & Hb' & _).
  cbv zeta in *. rewrite Hr, Hb, Hr', Hb'.
  repeat split; try reflexivity.
  - rewrite length_last_n. lia.
  - rewrite length_last_n. lia.
  - apply (last_n_snoc 49).
  - apply (last_n_snoc 49).
Qed.

(** ** The performance score *)







Lemma pymin_upper_r (a b : Q) : pymin a b <= b.
Proof.
  unfold pymin. destruct (Qltb b a) eqn:E.
  - apply Qle_refl.
  - now apply Qltb_ge.
Qed.

Lemma pymin_lower (a b x : Q) : x <= a -> x <= b -> x <= pymin a b.
Proof.
  intros Ha Hb. unfold pymin. now destruct (Qltb b a).
Qed.



(** X14. Losses are invisible until data is sent.  While [packets_sent]
    is 0 the loss rate is 0 whatever [packets_lost] is, so the score is
    the constant 0.5, the classifier never answers Lossy and the
    preferred algorithm is never Tahoe. *)
Theorem no_data_sent_hides_loss (pow_half : Q -> Q) (c : t) :
  packets_sent c = 0%nat ->
  get_packet_loss_rate c = Ok 0
  /\ calculate_performance_score pow_half c = Ok 0.5
  /\ exists condition,
       detect_network_condition c = Ok condition
       /\ condition <> LOSSY
       /\ get_optimal_algorithm condition <> TAHOE.
Proof.
  intro Hsent.
  assert (Hloss : get_packet_loss_rate c = Ok 0).
  { unfold get_packet_loss_rate. now rewrite Hsent. }
  split; [exact Hloss|]. split.
  { unfold calculate_performance_score. now rewrite Hsent. }
  unfold detect_network_condition.
  destruct (length (rtt_history c) <? 5)%nat eqn:E.
  { exists GOOD. split; [reflexivity|]. split; discriminate. }
  apply Nat.ltb_ge in E.
  rewrite recent_mean_average;
    [| discriminate | destruct (rtt_history c); simpl in *; [lia | discriminate]].
  cbn [rbind]. rewrite Hloss. cbn [rbind].
  rewrite recent_mean_or_zero_average by discriminate. cbn [rbind].
  eexists. split; [reflexivity|].
  unfold classify. change (Qltb loss_threshold_high 0) with false.
  cbv iota. repeat break_if; split; discriminate.
Qed.

Lemma no_data_sent_hides_loss_witness :
  let c := set_packets_lost
             (set_rtt_history (init RENO 0 0) (repeat 150 10)) 7 in
  get_packet_loss_rate c = Ok 0
  /\ calculate_performance_score (fun x => x) c = Ok 0.5
  /\ exists condition,
       detect_network_condition c = Ok condition
       /\ condition <> LOSSY
       /\ get_optimal_algorithm condition <> TAHOE.
Proof.
  apply (no_data_sent_hides_loss (fun x => x)
           (set_packets_lost
              (set_rtt_history (init RENO 0 0) (repeat 150 10)) 7)).
  reflexivity.
Defined.

(** ** Loss signals *)

(** X15. What a loss signal does depends on the class of the active
    object.  [on_loss_detected] always counts the loss and touches
    nothing else of the controller; a Reno or BBR object is left exactly
    as it was (Reno has neither [on_loss_detected] nor [on_timeout], and
    BBR's is empty), a Tahoe object takes a timeout ([cwnd = 1],
    [ssthresh = max(cwnd/2, 2)]) and a Cubic object its multiplicative
    decrease ([cwnd * 0.7]). *)
Theorem loss_signal_dispatch (pow_third : Q -> Q) (c : t) (clk : clock) :
  let c' := on_loss_detected pow_third c clk in
  c' = set_algorithm (set_packets_lost c (packets_lost c + 1)) (algorithm c')
  /\ kind_of (algorithm c') = kind_of (algorithm c)
  /\ (kind_of (algorithm c) = RENO \/ kind_of (algorithm c) = BBR ->
      algorithm c' = algorithm c)
  /\ (kind_of (algorithm c) = TAHOE ->
      alg_cwnd (algorithm c') = 1
      /\ alg_ssthresh (algorithm c') = pymax (alg_cwnd (algorithm c) / 2) 2)
  /\ (kind_of (algorithm c) = CUBIC ->
      alg_cwnd (algorithm c') = alg_cwnd (algorithm c) * 0.7
      /\ alg_ssthresh (algorithm c') = alg_cwnd (algorithm c')).
Proof.
  unfold on_loss_detected, set_algorithm, set_packets_lost. cbv zeta.
  cbn [algorithm].
  destruct (algorithm c) as [x|x|x|x];
    cbn [algorithm kind_of];
    (split; [reflexivity|]); (split; [reflexivity|]);
    (split; [intros [H|H]; try discriminate H; reflexivity|]);
    split; intro H; try discriminate H; split; reflexivity.
Qed.

Lemma loss_signal_dispatch_witness :
  let c := set_algorithm (init RENO 0 0)
             (AReno (Reno.mk 40 65535 Reno.congestion_avoidance 0 0)) in
  let c' := on_loss_detected (fun x => x) c (at_time 9) in
  packets_lost c' = 1%nat /\ algorithm c' = algorithm c.
Proof.
  intros c c'.
  destruct (loss_signal_dispatch (fun x => x) c (at_time 9))
    as (Hframe & _ & Hsame & _).
  split.
  - fold c' in Hframe. rewrite Hframe. reflexivity.
  - apply Hsame. left. reflexivity.
Defined.

(** ** The switch log *)

Lemma chain_snoc (a b b' : AlgorithmType) (log : list switch_line)
    (why : reason) (now : Q) :
  chain a log b -> b' <> b ->
  chain a (log ++ [mk_line b b' why now]) b'.
Proof.
  revert a. induction log as [|l log IH]; intros a Hch Hne; simpl in *.
  - subst a. now repeat split.
  - destruct Hch as (H1 & H2 & H3). repeat split; auto.
Qed.

Lemma switch_algorithm_consistent (k : AlgorithmType) (c : t)
    (new_algorithm : AlgorithmType) (why : reason) (now : Q) :
  log_consistent k c ->
  log_consistent k (switch_algorithm c new_algorithm why now).
Proof.
  intros [Hch Hn]. unfold switch_algorithm.
  destruct (AlgorithmType_eqb new_algorithm (algorithm_type c)) eqn:E;
    [now split|].
  apply AlgorithmType_eqb_neq in E. split.
  - destruct new_algorithm; cbn; now apply chain_snoc.
  - unfold total_switches in *.
    destruct new_algorithm, (algorithm_type c); try congruence; cbn;
      rewrite length_app; simpl length; lia.
Qed.

Lemma adaptive_decision_consistent (pow_half : Q -> Q) (k : AlgorithmType)
    (c : t) (clk : clock) :
  log_consistent k c ->
  log_consistent k (final (adaptive_decision pow_half c clk)).
Proof.
  intro H. unfold adaptive_decision.
  destruct (calculate_performance_score pow_half c) as [score|e];
    [|exact H].
  cbv zeta. set (c1 := set_algorithm_performance c _).
  assert (H1 : log_consistent k c1).
  { destruct H as [Hch Hn]. split; [exact Hch|].
    unfold total_switches in *. subst c1.
    cbn [algorithm_performance set_algorithm_performance stdout].
    unfold upd. destruct (algorithm_type c); cbn; exact Hn. }
  clearbody c1.
  destruct (detect_network_condition c1) as [condition|e]; [|exact H1].
  destruct (should_switch_algorithm c1 _ _); [|exact H1].
  cbn [final]. now apply switch_algorithm_consistent.
Qed.

Lemma step_consistent (pow_half pow_third : Q -> Q) (k : AlgorithmType)
    (c : t) (o : op) :
  log_consistent k c ->
  log_consistent k (final (step pow_half pow_third c o)).
Proof.
  intro H. destruct o as [ack_num rtt bandwidth clk|clk|n|new now];
    cbn [step final].
  - unfold on_ack_received. cbv zeta.
    remember (if AlgorithmType_eqb (algorithm_type c) BBR
                 && truthy rtt && truthy bandwidth
              then alg_on_ack_bbr (algorithm c) ack_num rtt clk
              else alg_on_ack (algorithm c) ack_num clk) as called eqn:Hc.
    clear Hc. destruct called as [a|e a]; [|exact H].
    assert (Ha : log_consistent k (set_algorithm c a)) by exact H.
    destruct rtt as [r|]; [|exact Ha].
    destruct bandwidth as [b|]; [|exact Ha].
    destruct (truthy (Some r) && truthy (Some b)); [|exact Ha].
    rewrite adaptive_algorithm_switch_halves.
    apply adaptive_decision_consistent.
    destruct (record_sample_histories (set_algorithm c a) r b) as (_ & _ & ->).
    exact Ha.
  - unfold on_loss_detected. cbv zeta. cbn [algorithm set_packets_lost].
    destruct (algorithm c); exact H.
  - exact H.
  - now apply switch_algorithm_consistent.
Qed.

(** X16. The switch log and the counters agree.  Over any sequence of
    calls on a controller constructed with kind [k], the printed lines
    form a chain: the first starts at [k], each line starts at the kind
    the previous one ended on and moves to a different kind, and the
    last one ends on the active kind.  The per-kind [switches] counters
    add up to the number of lines. *)
Theorem switch_log_consistent (pow_half pow_third : Q -> Q)
    (k : AlgorithmType) (t0 t1 : Q) (ops : list op) :
  let c := run pow_half pow_third (init k t0 t1) ops in
  chain k (stdout c) (algorithm_type c)
  /\ (switches (algorithm_performance c RENO)
      + switches (algorithm_performance c CUBIC)
      + switches (algorithm_performance c TAHOE)
      + switches (algorithm_performance c BBR))%nat
     = length (stdout c).
Proof.
  assert (Hinit : log_consistent k (init k t0 t1))
    by (destruct k; split; reflexivity).
  generalize dependent (init k t0 t1).
  induction ops as [|o ops IH]; intros c Hc.
  - exact Hc.
  - cbn [run]. apply IH. now apply step_consistent.
Qed.

(** ** No call faults *)

Lemma reno_on_ack_positive (s : Reno.t) (ack_num : Z) :
  0 < Reno.cwnd s -> 0 < Reno.ssthresh s ->
  exists s',
    Reno.on_ack_received s ack_num = Done s'
    /\ 0 < Reno.cwnd s' /\ 0 < Reno.ssthresh s'.
Proof.
  intros Hc Hs. unfold Reno.on_ack_received, Reno.enter_fast_recovery.
  pose proof (Qinv_pos_div _ Hc) as Hd.
  pose proof (pymax_lower_r (Reno.cwnd s / 2) 2) as Hmax.
  rewrite (truediv_nonzero _ _ (Qlt_nonzero _ Hc)).
  destruct (Reno.state s); cbn [Reno.phase_eqb]; repeat break_if;
    eexists; (split; [reflexivity|]); simpl; split; lra.
Qed.

Lemma tahoe_on_ack_positive (s : Tahoe.t) (ack_num : Z) :
  0 < Tahoe.cwnd s -> 0 < Tahoe.ssthresh s ->
  exists s',
    Tahoe.on_ack_received s ack_num = Done s'
    /\ 0 < Tahoe.cwnd s' /\ 0 < Tahoe.ssthresh s'.
Proof.
  intros Hc Hs. unfold Tahoe.on_ack_received.
  pose proof (Qinv_pos_div _ Hc) as Hd.
  rewrite (truediv_nonzero _ _ (Qlt_nonzero _ Hc)).
  destruct (Tahoe.state s); simpl; repeat break_if;
    eexists; (split; [reflexivity|]); simpl; split; lra.
Qed.

Lemma cubic_on_ack_positive (s : Cubic.t) (ack_num : Z) (now : Q) :
  0 < Cubic.cwnd s -> 0 < Cubic.ssthresh s ->
  exists s',
    Cubic.on_ack_received s ack_num now = Done s'
    /\ 0 < Cubic.cwnd s' /\ 0 < Cubic.ssthresh s'.
Proof.
  intros Hc Hs. destruct (Cubic.state s) eqn:Est.
  - unfold Cubic.on_ack_received. rewrite Est. simpl. repeat break_if;
      eexists; (split; [reflexivity|]); simpl; split; lra.
  - unfold Cubic.on_ack_received. rewrite Est.
    rewrite (truediv_nonzero _ _ (Qlt_nonzero _ Hc)).
    pose proof (Qinv_pos_div _ Hc) as Hd.
    destruct (Qltb (Cubic.cwnd s) (Cubic.cubic_function s _)) eqn:E.
    + apply Qltb_lt in E.
      eexists. split; [reflexivity|]. simpl. split; [|exact Hs].
      unfold pymin. destruct (Qltb _ _); lra.
    + eexists. split; [reflexivity|]. simpl. split; [lra | exact Hs].
Qed.

Lemma bbr_estimators_ssthresh (s : Bbr.t) (rtt : option Q) (d e : Q)
    (clk : Bbr.clock) (s2 : Bbr.t) :
  bbr_estimators s rtt d e clk = Done s2 ->
  Bbr.ssthresh s2 = Bbr.ssthresh s /\ Bbr.cwnd s2 = Bbr.cwnd s.
Proof.
  unfold bbr_estimators, Bbr.update_bandwidth_estimate, Bbr.update_min_rtt.
  destruct rtt as [r|]; repeat break_if;
    try (destruct (truediv d e); repeat break_if);
    intro H; try discriminate H; injection H as <-; now split.
Qed.

Lemma bbr_after_estimators_ssthresh (s : Bbr.t) (clk : Bbr.clock) :
  Bbr.ssthresh (bbr_after_estimators s clk) = Bbr.ssthresh s.
Proof.
  unfold bbr_after_estimators, Bbr.set_cwnd_, Bbr.set_pacing_rate_,
    Bbr.handle_probe_rtt, Bbr.check_probe_rtt, Bbr.state_machine,
    Bbr.check_startup_done, Bbr.advance_cycle_phase.
  cbv zeta. destruct (Bbr.state s); bbr_proj; bbr_cases; bbr_proj;
    bbr_cases; bbr_proj; reflexivity.
Qed.

Lemma bbr_on_ack_positive (s : Bbr.t) (ack_num : Z) (rtt : option Q)
    (d e : Q) (clk : Bbr.clock) :
  0 < Bbr.cwnd s -> 0 < Bbr.ssthresh s ->
  exists s',
    Bbr.on_ack_received s ack_num rtt d e clk = Done s'
    /\ 0 < Bbr.cwnd s' /\ 0 < Bbr.ssthresh s'.
Proof.
  intros Hc Hs.
  destruct (bbr_on_ack_received_shape s ack_num rtt d e clk)
    as (s6 & Hrun & Hle & _).
  eexists. split; [exact Hrun|].
  split.
  - cbn [Bbr.cwnd Bbr.set_packet_count].
    destruct (bbr_set_cwnd_effect s6) as (_ & _ & _ & _ & _ & Hfin & Hinf).
    cbv zeta in Hfin, Hinf.
    destruct (Bbr.min_rtt s6) as [|m] eqn:Em.
    + rewrite (Hinf eq_refl). lra.
    + destruct (Hfin m eq_refl) as [H4 _]. lra.
  - rewrite bbr_on_ack_received_halves in Hrun.
    destruct (bbr_estimators s rtt d e clk) as [s2|x s2] eqn:E2;
      [|discriminate Hrun].
    cbn [bind] in Hrun. apply (f_equal final) in Hrun.
    cbn [final] in Hrun. rewrite <- Hrun.
    rewrite bbr_after_estimators_ssthresh.
    destruct (bbr_estimators_ssthresh _ _ _ _ _ _ E2) as [-> _]. exact Hs.
Qed.

Lemma alg_on_ack_sound (a : algorithm_obj) (ack_num : Z) (clk : clock) :
  0 < alg_cwnd a -> 0 < alg_ssthresh a ->
  exists a',
    alg_on_ack a ack_num clk = Done a'
    /\ kind_of a' = kind_of a
    /\ 0 < alg_cwnd a' /\ 0 < alg_ssthresh a'.
Proof.
  intros Hc Hs.
  destruct a as [x|x|x|x]; cbn [alg_on_ack alg_cwnd alg_ssthresh kind_of] in *.
  - destruct (reno_on_ack_positive x ack_num Hc Hs) as (x' & -> & H).
    now exists (AReno x').
  - destruct (cubic_on_ack_positive x ack_num (t_cubic clk) Hc Hs)
      as (x' & -> & H).
    now exists (ACubic x').
  - destruct (tahoe_on_ack_positive x ack_num Hc Hs) as (x' & -> & H).
    now exists (ATahoe x').
  - destruct (bbr_on_ack_positive x ack_num None 0 0 (t_bbr clk) Hc Hs)
      as (x' & -> & H).
    now exists (ABbr x').
Qed.

Lemma alg_on_ack_bbr_sound (a : algorithm_obj) (ack_num : Z) (rtt : option Q)
    (clk : clock) :
  kind_of a = BBR ->
  0 < alg_cwnd a -> 0 < alg_ssthresh a ->
  exists a',
    alg_on_ack_bbr a ack_num rtt clk = Done a'
    /\ kind_of a' = kind_of a
    /\ 0 < alg_cwnd a' /\ 0 < alg_ssthresh a'.
Proof.
  intros Hk Hc Hs. destruct a as [x|x|x|x]; try discriminate Hk.
  cbn [alg_on_ack_bbr alg_cwnd alg_ssthresh kind_of] in *.
  destruct (bbr_on_ack_positive x ack_num rtt 1024 0.001 (t_bbr clk) Hc Hs)
    as (x' & -> & H).
  now exists (ABbr x').
Qed.

Lemma switch_algorithm_sound (c : t) (new_algorithm : AlgorithmType)
    (why : reason) (now : Q) :
  sound c -> sound (switch_algorithm c new_algorithm why now).
Proof.
  intros (Hk & Hc & Hs). unfold switch_algorithm.
  destruct (AlgorithmType_eqb _ _); [now repeat split|].
  destruct new_algorithm; cbn; now repeat split.
Qed.

Lemma adaptive_decision_sound (pow_half : Q -> Q) (c : t) (clk : clock) :
  sound c -> sound (final (adaptive_decision pow_half c clk)).
Proof.
  intro Hc. unfold adaptive_decision.
  destruct (calculate_performance_score pow_half c) as [score|e];
    [|exact Hc].
  cbv zeta. set (c1 := set_algorithm_performance c _).
  assert (H1 : sound c1) by exact Hc. clearbody c1.
  destruct (detect_network_condition c1) as [condition|e]; [|exact H1].
  destruct (should_switch_algorithm c1 _ _); cbn [final];
    [now apply switch_algorithm_sound | exact H1].
Qed.

Lemma step_sound (pow_half pow_third : Q -> Q) (c : t) (o : op) :
  sound c -> sound (final (step pow_half pow_third c o)).
Proof.
  intro Hsound. pose proof Hsound as (Hk & Hc & Hs).
  destruct o as [ack_num rtt bandwidth clk|clk|n|new now]; cbn [step final].
  - unfold on_ack_received. cbv zeta.
    assert (Hcall : exists a',
               (if AlgorithmType_eqb (algorithm_type c) BBR
                   && truthy rtt && truthy bandwidth
                then alg_on_ack_bbr (algorithm c) ack_num rtt clk
                else alg_on_ack (algorithm c) ack_num clk) = Done a'
               /\ kind_of a' = kind_of (algorithm c)
               /\ 0 < alg_cwnd a' /\ 0 < alg_ssthresh a').
    { destruct (AlgorithmType_eqb (algorithm_type c) BBR) eqn:E;
        cbn [andb]; [|now apply alg_on_ack_sound].
      destruct (truthy rtt && truthy bandwidth);
        [|now apply alg_on_ack_sound].
      apply alg_on_ack_bbr_sound; try assumption.
      apply AlgorithmType_eqb_eq in E. congruence. }
    destruct Hcall as (a' & -> & Hk' & Hc' & Hs').
    assert (Ha : sound (set_algorithm c a')).
    { repeat split; try assumption. cbn. congruence. }
    destruct rtt as [r|]; [|exact Ha].
    destruct bandwidth as [b|]; [|exact Ha].
    destruct (truthy (Some r) && truthy (Some b)); [|exact Ha].
    rewrite adaptive_algorithm_switch_halves.
    apply adaptive_decision_sound.
    destruct (record_sample_histories (set_algorithm c a') r b) as (_ & _ & ->).
    exact Ha.
  - unfold on_loss_detected, sound, set_algorithm, set_packets_lost.
    cbv zeta. cbn [algorithm algorithm_type].
    destruct (algorithm c) as [x|x|x|x]; cbn in *;
      (split; [exact Hk|]); try (split; assumption).
    + change Cubic.beta with 0.7. split; lra.
    + split; [reflexivity|].
      pose proof (pymax_lower_r (Tahoe.cwnd x / 2) 2). lra.
  - now repeat split.
  - now apply switch_algorithm_sound.
Qed.

(** X17. The controller state stays well formed.  After any sequence of
    acks, loss signals, sends and manual switches on a freshly
    constructed controller, whether or not the scoring of some sample
    raised on the way, the kind tag names the class of the object held
    and that object's [cwnd] and [ssthresh] are positive.  So the
    divisions by [cwnd] in the algorithm objects never meet a zero
    window. *)
Theorem engine_state_stays_sound (pow_half pow_third : Q -> Q)
    (k : AlgorithmType) (t0 t1 : Q) (ops : list op) :
  let c := run pow_half pow_third (init k t0 t1) ops in
  algorithm_type c = kind_of (algorithm c)
  /\ 0 < alg_cwnd (algorithm c)
  /\ 0 < alg_ssthresh (algorithm c).
Proof.
  assert (Hinit : sound (init k t0 t1))
    by (destruct k; repeat split).
  generalize dependent (init k t0 t1).
  induction ops as [|o ops IH]; intros c Hc.
  - exact Hc.
  - cbn [run]. apply IH. now apply step_sound.
Qed.

(** * The client registry *)

Lemma dict_get_set_same (d : Registry.clients_dict) (k : String.string)
    (v : Registry.ClientConnection) :
  Registry.dict_get (Registry.dict_set d k v) k = Some v.
Proof.
  induction d as [|[k' v'] d IH]; simpl.
  - now rewrite String.eqb_refl.
  - destruct (String.eqb k' k) eqn:E; simpl; rewrite E; auto.
Qed.

Lemma dict_get_set_other (d : Registry.clients_dict) (k k0 : String.string)
    (v : Registry.ClientConnection) :
  k0 <> k ->
  Registry.dict_get (Registry.dict_set d k v) k0 = Registry.dict_get d k0.
Proof.
  intro Hne. induction d as [|[k' v'] d IH]; simpl.
  - destruct (String.eqb k k0) eqn:E; [|reflexivity].
    apply String.eqb_eq in E. congruence.
  - destruct (String.eqb k' k) eqn:E; simpl.
    + apply String.eqb_eq in E. subst k'.
      destruct (String.eqb k k0) eqn:E0; [|reflexivity].
      apply String.eqb_eq in E0. congruence.
    + now rewrite IH.
Qed.

Lemma dict_set_keys (d : Registry.clients_dict) (k : String.string)
    (v v0 : Registry.ClientConnection) :
  Registry.dict_get d k = Some v0 ->
  map fst (Registry.dict_set d k v) = map fst d.
Proof.
  induction d as [|[k' v'] d IH]; simpl; [discriminate|].
  destruct (String.eqb k' k); simpl; [reflexivity|].
  intro H. now rewrite IH.
Qed.

Lemma dict_get_none_keys (d : Registry.clients_dict) (k : String.string) :
  Registry.dict_get d k = None <-> ~ In k (map fst d).
Proof.
  induction d as [|[k' v'] d IH]; simpl.
  - tauto.
  - destruct (String.eqb k' k) eqn:E.
    + apply String.eqb_eq in E. split; [discriminate | tauto].
    + apply String.eqb_neq in E. rewrite IH. tauto.
Qed.

Lemma dict_del_absent (d : Registry.clients_dict) (k : String.string) :
  ~ In k (map fst d) -> Registry.dict_del d k = d.
Proof.
  induction d as [|[k' v'] d IH]; simpl; [reflexivity|].
  intro H. destruct (String.eqb k' k) eqn:E.
  - apply String.eqb_eq in E. tauto.
  - rewrite IH; tauto.
Qed.

Lemma dict_del_set_fresh (d : Registry.clients_dict) (k : String.string)
    (v : Registry.ClientConnection) :
  Registry.dict_get d k = None ->
  Registry.dict_del (Registry.dict_set d k v) k = d.
Proof.
  induction d as [|[k' v'] d IH]; simpl.
  - now rewrite String.eqb_refl.
  - destruct (String.eqb k' k) eqn:E; [discriminate|].
    intro H. simpl. now rewrite E, IH.
Qed.

Lemma dict_set_fresh_length (d : Registry.clients_dict) (k : String.string)
    (v : Registry.ClientConnection) :
  Registry.dict_get d k = None ->
  length (Registry.dict_set d k v) = S (length d).
Proof.
  induction d as [|[k' v'] d IH]; simpl; [reflexivity|].
  destruct (String.eqb k' k); [discriminate|].
  intro H. simpl. now rewrite IH.
Qed.

(** X18. Register, look up, remove.  Registering a client under an id
    that is not in use makes [get_client] find a connection with that
    id, refreshed to the time of the lookup; removing it again restores
    the dictionary exactly.  Removing an id that is not registered
    changes nothing. *)
Theorem registry_round_trip (d : Registry.clients_dict) (id : String.string)
    (t_conn t_act t0 t1 now : Q) :
  Registry.dict_get d id = None ->
  let d1 := snd (Registry.register_client d id t_conn t_act t0 t1) in
  fst (Registry.register_client d id t_conn t_act t0 t1) = id
  /\ fst (Registry.get_client d1 id now)
     = Some (Registry.update_activity
               (Registry.new_client id t_conn t_act t0 t1) now)
  /\ length d1 = S (length d)
  /\ Registry.remove_client d1 id = d
  /\ Registry.remove_client d id = d.
Proof.
  intros Hfresh d1. subst d1. unfold Registry.register_client.
  cbn [fst snd]. split; [reflexivity|]. split.
  { unfold Registry.get_client. now rewrite dict_get_set_same. }
  split; [now apply dict_set_fresh_length|].
  split.
  - unfold Registry.remove_client. rewrite dict_get_set_same.
    now apply dict_del_set_fresh.
  - unfold Registry.remove_client. now rewrite Hfresh.
Qed.

Lemma registry_round_trip_witness :
  let d := snd (Registry.register_client [] id_a 1 1 1 1) in
  let d1 := snd (Registry.register_client d id_b 2 2 2 2) in
  fst (Registry.register_client d id_b 2 2 2 2) = id_b
  /\ fst (Registry.get_client d1 id_b 5)
     = Some (Registry.update_activity
               (Registry.new_client id_b 2 2 2 2) 5)
  /\ length d1 = S (length d)
  /\ Registry.remove_client d1 id_b = d
  /\ Registry.remove_client d id_b = d.
Proof.
  intro d.
  apply (registry_round_trip d id_b 2 2 2 2 5). reflexivity.
Defined.

(** X19. Lookup refreshes in place.  [get_client] on an unknown id
    returns [None] and leaves the dictionary as it is.  On a known id it
    returns the stored connection with [last_activity] set to the time
    of the call, and the dictionary holds that same refreshed
    connection; the set and order of ids and every other connection are
    unchanged. *)
Theorem get_client_refreshes (d : Registry.clients_dict) (id : String.string)
    (now : Q) :
  (Registry.dict_get d id = None -> Registry.get_client d id now = (None, d))
  /\ (forall c,
        Registry.dict_get d id = Some c ->
        let c' := Registry.update_activity c now in
        let d' := snd (Registry.get_client d id now) in
        fst (Registry.get_client d id now) = Some c'
        /\ Registry.last_activity c' = now
        /\ Registry.dict_get d' id = Some c'
        /\ map fst d' = map fst d
        /\ (forall k, k <> id ->
                      Registry.dict_get d' k = Registry.dict_get d k)).
Proof.
  unfold Registry.get_client. split.
  - now intros ->.
  - intros c Hc. rewrite Hc. cbn [fst snd]. repeat split.
    + apply dict_get_set_same.
    + now apply (dict_set_keys d id _ c).
    + intros k Hk. now apply dict_get_set_other.
Qed.

Lemma get_client_refreshes_witness :
  let d := snd (Registry.register_client [] id_a 1 1 1 1) in
  Registry.get_client d id_zz 9 = (None, d)
  /\ fst (Registry.get_client d id_a 9)
     = Some (Registry.update_activity
               (Registry.new_client id_a 1 1 1 1) 9).
Proof.
  intro d. split.
  - apply (proj1 (get_client_refreshes d id_zz 9)). reflexivity.
  - apply (proj2 (get_client_refreshes d id_a 9)
             (Registry.new_client id_a 1 1 1 1)).
    reflexivity.
Defined.

(** The connections of [d] that [is_active] accepts at time [now]. *)
Lemma inactive_ids_steady (d : Registry.clients_dict) (now : Q) :
  forall i,
    Registry.inactive_ids d (fun _ => now) i
    = map fst (filter (fun kv => negb (Registry.is_active (snd kv)
                                         Registry.default_timeout now)) d).
Proof.
  induction d as [|[k v] d IH]; intro i; simpl; [reflexivity|].
  destruct (Registry.is_active v _ now); simpl; now rewrite IH.
Qed.

Lemma active_items_steady (d : Registry.clients_dict) (now : Q) :
  forall i,
    Registry.active_items d (fun _ => now) i
    = filter (fun kv => Registry.is_active (snd kv)
                          Registry.default_timeout now) d.
Proof.
  induction d as [|[k v] d IH]; intro i; simpl; [reflexivity|].
  destruct (Registry.is_active v _ now); simpl; now rewrite IH.
Qed.

Lemma fold_dict_del_skip (ids : list String.string) :
  forall (d : Registry.clients_dict) (k : String.string)
         (v : Registry.ClientConnection),
    ~ In k ids ->
    fold_left Registry.dict_del ids ((k, v) :: d)
    = (k, v) :: fold_left Registry.dict_del ids d.
Proof.
  induction ids as [|id ids IH]; intros d k v Hk; simpl; [reflexivity|].
  destruct (String.eqb k id) eqn:E.
  - apply String.eqb_eq in E. subst id. simpl in Hk. tauto.
  - apply IH. simpl in Hk. tauto.
Qed.

Lemma cleanup_steady_filter (d : Registry.clients_dict) (now : Q) :
  NoDup (map fst d) ->
  fold_left Registry.dict_del (Registry.inactive_ids d (fun _ => now) 0) d
  = filter (fun kv => Registry.is_active (snd kv)
                        Registry.default_timeout now) d.
Proof.
  rewrite inactive_ids_steady.
  induction d as [|[k v] d IH]; intro Hnd; simpl; [reflexivity|].
  inversion Hnd as [|? ? Hk Hd]; subst.
  destruct (Registry.is_active v _ now) eqn:E; simpl.
  - rewrite fold_dict_del_skip.
    + now rewrite IH.
    + intro Hin. apply Hk. apply in_map_iff in Hin.
      destruct Hin as (kv & Hkv & Hin). apply filter_In in Hin.
      apply in_map_iff. exists kv. tauto.
  - rewrite String.eqb_refl. now apply IH.
Qed.

Lemma filter_length_split {A : Type} (f : A -> bool) (l : list A) :
  (length (filter (fun x => negb (f x)) l) + length (filter f l))%nat
  = length l.
Proof.
  induction l as [|x l IH]; simpl; [reflexivity|].
  destruct (f x); simpl; lia.
Qed.

Lemma filter_idem {A : Type} (f : A -> bool) (l : list A) :
  filter f (filter f l) = filter f l.
Proof.
  induction l as [|x l IH]; simpl; [reflexivity|].
  destruct (f x) eqn:E; simpl; rewrite ?E, IH; reflexivity.
Qed.

Lemma filter_none {A : Type} (f : A -> bool) (l : list A) :
  filter (fun x => negb (f x)) (filter f l) = [].
Proof.
  induction l as [|x l IH]; simpl; [reflexivity|].
  destruct (f x) eqn:E; simpl; rewrite ?E; simpl; exact IH.
Qed.

Lemma NoDup_keys_filter (f : String.string * Registry.ClientConnection -> bool)
    (d : Registry.clients_dict) :
  NoDup (map fst d) -> NoDup (map fst (filter f d)).
Proof.
  induction d as [|kv d IH]; intro H; simpl; [constructor|].
  inversion H as [|? ? Hk Hd]; subst.
  destruct (f kv); simpl; [|now apply IH].
  constructor; [|now apply IH].
  intro Hin. apply Hk. apply in_map_iff in Hin.
  destruct Hin as (x & Hx & Hin). apply filter_In in Hin.
  apply in_map_iff. exists x. tauto.
Qed.

Lemma cleanup_steady (d : Registry.clients_dict) (now : Q) :
  NoDup (map fst d) ->
  snd (Registry.cleanup_inactive_clients d (fun _ => now))
  = filter (fun kv => Qltb (now - Registry.last_activity (snd kv)) 300) d
  /\ (fst (Registry.cleanup_inactive_clients d (fun _ => now))
      + length (snd (Registry.cleanup_inactive_clients d (fun _ => now))))%nat
     = length d.
Proof.
  intro Hnd. unfold Registry.cleanup_inactive_clients. cbn [fst snd].
  rewrite (cleanup_steady_filter d now Hnd). split; [reflexivity|].
  rewrite inactive_ids_steady, length_map. apply filter_length_split.
Qed.

Lemma get_client_known (d : Registry.clients_dict) (id : String.string)
    (c : Registry.ClientConnection) (now : Q) :
  Registry.dict_get d id = Some c ->
  Registry.dict_get (snd (Registry.get_client d id now)) id
  = Some (Registry.update_activity c now)
  /\ map fst (snd (Registry.get_client d id now)) = map fst d.
Proof.
  intro Hc. unfold Registry.get_client. rewrite Hc. cbn [fst snd]. split.
  - apply dict_get_set_same.
  - now apply (dict_set_keys d id _ c).
Qed.

(** X20. The sweep.  On a dictionary with unique ids, checked at one
    time [now], [cleanup_inactive_clients] leaves exactly the
    connections with [now - last_activity < 300], in their order (the
    same ones [get_active_clients] returns), and returns the number it
    removed; a second sweep at the same time removes nothing. *)
Theorem cleanup_removes_idle (d : Registry.clients_dict) (now : Q) :
  NoDup (map fst d) ->
  let clk := fun _ : nat => now in
  let n := fst (Registry.cleanup_inactive_clients d clk) in
  let d' := snd (Registry.cleanup_inactive_clients d clk) in
  d' = filter (fun kv => Qltb (now - Registry.last_activity (snd kv)) 300) d
  /\ d' = Registry.get_active_clients d clk
  /\ (n + length d')%nat = length d
  /\ Registry.cleanup_inactive_clients d' clk = (0%nat, d').
Proof.
  intros Hnd clk n d'. subst clk n d'.
  unfold Registry.cleanup_inactive_clients, Registry.get_active_clients.
  cbn [fst snd]. rewrite active_items_steady.
  rewrite (cleanup_steady_filter d now Hnd).
  split; [reflexivity|]. split; [reflexivity|]. split.
  - rewrite inactive_ids_steady, length_map. apply filter_length_split.
  - rewrite (cleanup_steady_filter _ now (NoDup_keys_filter _ d Hnd)).
    rewrite inactive_ids_steady, filter_none, filter_idem. reflexivity.
Qed.

Lemma cleanup_removes_idle_witness :
  let d := snd (Registry.register_client
                  (snd (Registry.register_client [] id_a 0 0 0 0))
                  id_b 200 200 200 200) in
  let clk := fun _ : nat => 301 in
  snd (Registry.cleanup_inactive_clients d clk)
  = [(id_b, Registry.new_client id_b 200 200 200 200)]
  /\ fst (Registry.cleanup_inactive_clients d clk) = 1%nat
  /\ Registry.cleanup_inactive_clients
       (snd (Registry.cleanup_inactive_clients d clk)) clk
     = (0%nat, snd (Registry.cleanup_inactive_clients d clk)).
Proof.
  intros d clk.
  assert (Hnd : NoDup (map fst d)).
  { repeat constructor; simpl; intuition discriminate. }
  destruct (cleanup_removes_idle d 301 Hnd) as (Hd & _ & _ & Hidem).
  fold clk in Hd, Hidem.
  split; [rewrite Hd; reflexivity|]. split; [reflexivity | exact Hidem].
Defined.

Lemma dict_get_filter (g : Registry.ClientConnection -> bool)
    (d : Registry.clients_dict) (id : String.string) :
  NoDup (map fst d) ->
  Registry.dict_get (filter (fun kv => g (snd kv)) d) id
  = match Registry.dict_get d id with
    | Some c => if g c then Some c else None
    | None => None
    end.
Proof.
  induction d as [|[k v] d IH]; intro Hnd; simpl; [reflexivity|].
  inversion Hnd as [|? ? Hk Hd]; subst.
  destruct (String.eqb k id) eqn:E.
  - apply String.eqb_eq in E. subst k.
    destruct (g v) eqn:Eg; simpl; rewrite ?Eg.
    + now rewrite String.eqb_refl.
    + rewrite (IH Hd).
      apply dict_get_none_keys in Hk. now rewrite Hk.
  - destruct (g v); simpl; rewrite ?E; now apply IH.
Qed.

(** X21. Keep-alive and eviction.  With unique ids and a sweep checked
    at one time [now]: a client that was looked up at a time [t] less
    than 300 s before the sweep survives it, refreshed; a client whose
    last activity is 300 s old or more is gone after the sweep, which
    then reports at least one removal. *)
Theorem sweep_evicts_exactly_the_idle (d : Registry.clients_dict)
    (id : String.string) (c : Registry.ClientConnection) (now : Q) :
  NoDup (map fst d) ->
  Registry.dict_get d id = Some c ->
  let clk := fun _ : nat => now in
  (forall t,
     now - t < 300 ->
     Registry.dict_get
       (snd (Registry.cleanup_inactive_clients
               (snd (Registry.get_client d id t)) clk)) id
     = Some (Registry.update_activity c t))
  /\ (300 <= now - Registry.last_activity c ->
      Registry.dict_get (snd (Registry.cleanup_inactive_clients d clk)) id
      = None
      /\ (1 <= fst (Registry.cleanup_inactive_clients d clk))%nat).
Proof.
  intros Hnd Hc clk. subst clk. split.
  - intros t Ht.
    destruct (get_client_known d id c t Hc) as (Hget & Hkeys).
    set (d' := snd (Registry.get_client d id t)) in *.
    assert (Hnd' : NoDup (map fst d')) by now rewrite Hkeys.
    destruct (cleanup_steady d' now Hnd') as (Hd' & _).
    rewrite Hd'.
    rewrite (dict_get_filter
               (fun x => Qltb (now - Registry.last_activity x) 300) d' id Hnd').
    rewrite Hget. cbn [Registry.last_activity Registry.update_activity].
    apply Qltb_lt in Ht. now rewrite Ht.
  - intro Hidle.
    destruct (cleanup_steady d now Hnd) as (Hd & Hn).
    assert (Hgone :
              Registry.dict_get
                (snd (Registry.cleanup_inactive_clients d (fun _ => now))) id
              = None).
    { rewrite Hd.
      rewrite (dict_get_filter
                 (fun x => Qltb (now - Registry.last_activity x) 300) d id Hnd).
      rewrite Hc. apply Qltb_ge in Hidle. now rewrite Hidle. }
    split; [exact Hgone|].
    assert (Hlt : (length (snd (Registry.cleanup_inactive_clients d
                                  (fun _ => now)))
                   < length d)%nat).
    { rewrite Hd. clear - Hc Hidle.
      induction d as [|[k v] d IH]; simpl in *; [discriminate|].
      destruct (String.eqb k id).
      - injection Hc as ->. apply Qltb_ge in Hidle. rewrite Hidle.
        pose proof (filter_length_le
                      (fun kv => Qltb (now - Registry.last_activity (snd kv)) 300)
                      d). lia.
      - specialize (IH Hc). destruct (Qltb _ 300); simpl; lia. }
    lia.
Qed.

Lemma sweep_evicts_exactly_the_idle_witness :
  let d := snd (Registry.register_client [] id_a 0 0 0 0) in
  let clk := fun _ : nat => 301 in
  Registry.dict_get
    (snd (Registry.cleanup_inactive_clients
            (snd (Registry.get_client d id_a 100)) clk)) id_a
  = Some (Registry.update_activity (Registry.new_client id_a 0 0 0 0) 100)
  /\ Registry.dict_get (snd (Registry.cleanup_inactive_clients d clk)) id_a
     = None
  /\ (1 <= fst (Registry.cleanup_inactive_clients d clk))%nat.
Proof.
  intros d clk.
  assert (Hnd : NoDup (map fst d)).
  { repeat constructor; simpl; intuition. }
  destruct (sweep_evicts_exactly_the_idle d id_a
              (Registry.new_client id_a 0 0 0 0) 301 Hnd eq_refl)
    as (Hkeep & Hevict).
  split.
  - apply (Hkeep 100). reflexivity.
  - apply Hevict. discriminate.
Defined.

(** * The rule-based controller *)

Lemma basic_switch_algorithm_effect (c : Basic.t) (k : AlgorithmType) :
  let c' := Basic.switch_algorithm c k in
  Basic.algorithm_type c' = k
  /\ kind_of (Basic.algorithm c') = k
  /\ alg_cwnd (Basic.algorithm c') = alg_cwnd (Basic.algorithm c)
  /\ alg_ssthresh (Basic.algorithm c') = alg_ssthresh (Basic.algorithm c)
  /\ Basic.packets_sent c' = Basic.packets_sent c
  /\ Basic.packets_lost c' = Basic.packets_lost c.
Proof.
  unfold Basic.switch_algorithm. destruct k; cbn; now repeat split.
Qed.

(** X22. Rule-based switching is stable.  [evaluate_and_switch_algorithm]
    returns [True] exactly when it changes the active kind; it never
    changes [cwnd], [ssthresh] or the packet counters, the new object is
    of the kind the rules picked, and evaluating the same measurements
    again switches nothing and returns [False]. *)
Theorem rule_based_switch_is_stable (c : Basic.t)
    (current_rtt bandwidth loss_rate : Q) :
  let r := Basic.evaluate_and_switch_algorithm c current_rtt bandwidth
             loss_rate in
  let c' := snd r in
  (fst r = true <-> Basic.algorithm_type c' <> Basic.algorithm_type c)
  /\ Basic.algorithm_type c'
     = Basic.choose (Basic.algorithm_type c) current_rtt bandwidth loss_rate
  /\ (fst r = true -> kind_of (Basic.algorithm c') = Basic.algorithm_type c')
  /\ alg_cwnd (Basic.algorithm c') = alg_cwnd (Basic.algorithm c)
  /\ alg_ssthresh (Basic.algorithm c') = alg_ssthresh (Basic.algorithm c)
  /\ Basic.packets_sent c' = Basic.packets_sent c
  /\ Basic.packets_lost c' = Basic.packets_lost c
  /\ Basic.evaluate_and_switch_algorithm c' current_rtt bandwidth loss_rate
     = (false, c').
Proof.
  unfold Basic.evaluate_and_switch_algorithm. cbv zeta.
  set (k := Basic.choose (Basic.algorithm_type c) current_rtt bandwidth
              loss_rate).
  assert (Hfix : forall k0,
             Basic.choose k0 current_rtt bandwidth loss_rate = k0
             \/ Basic.choose k0 current_rtt bandwidth loss_rate
                = Basic.choose (Basic.algorithm_type c) current_rtt
                    bandwidth loss_rate).
  { intro k0. unfold Basic.choose. cbv zeta. repeat break_if; auto. }
  destruct (AlgorithmType_eqb k (Basic.algorithm_type c)) eqn:E;
    cbn [negb fst snd].
  - apply AlgorithmType_eqb_eq in E.
    split; [split; [discriminate | congruence]|].
    split; [now rewrite E|]. split; [discriminate|].
    repeat (split; [reflexivity|]).
    fold k. rewrite E.
    now rewrite (proj2 (AlgorithmType_eqb_eq _ _) eq_refl).
  - apply AlgorithmType_eqb_neq in E.
    destruct (basic_switch_algorithm_effect c k) as (Ht & Hk & Hc & Hs & Hp & Hl).
    cbv zeta in *.
    split; [split; [intros _; congruence | reflexivity]|].
    split; [exact Ht|]. split; [intros _; congruence|].
    split; [exact Hc|]. split; [exact Hs|]. split; [exact Hp|].
    split; [exact Hl|].
    rewrite Ht.
    assert (Hk2 : Basic.choose k current_rtt bandwidth loss_rate = k).
    { destruct (Hfix k) as [H|H]; [exact H | exact H]. }
    rewrite Hk2. now rewrite (proj2 (AlgorithmType_eqb_eq _ _) eq_refl).
Qed.

(** X23. The congestion factor of the rule-based controller.
    [get_network_congestion_factor] raises exactly when [ssthresh] is
    zero (it divides [cwnd] by it); whenever it returns, the value is at
    most 1. *)
Theorem congestion_factor_bounded (c : Basic.t) :
  (Basic.get_network_congestion_factor c = Err ZeroDivisionError
   <-> alg_ssthresh (Basic.algorithm c) == 0)
  /\ (forall f, Basic.get_network_congestion_factor c = Ok f -> f <= 1)
  /\ (~ alg_ssthresh (Basic.algorithm c) == 0 ->
      exists f, Basic.get_network_congestion_factor c = Ok f).
Proof.
  unfold Basic.get_network_congestion_factor.
  assert (Hloss : exists r, Basic.get_packet_loss_rate c = Ok r).
  { unfold Basic.get_packet_loss_rate.
    destruct (Nat.eqb_spec (Basic.packets_sent c) 0) as [E|E]; [now eexists|].
    rewrite (truediv_nonzero _ _ (inject_nat_nonzero _ E)). now eexists. }
  destruct Hloss as (r & ->). cbn [rbind]. unfold truediv.
  destruct (Qeq_bool (alg_ssthresh (Basic.algorithm c)) 0) eqn:E; cbn [rbind].
  - apply Qeq_bool_iff in E. split; [tauto|]. split; [discriminate|].
    intro H. contradiction.
  - apply Qeq_bool_neq in E. split; [split; [discriminate | contradiction]|].
    split.
    + intros f [= <-]. apply pymin_upper_r.
    + intros _. now eexists.
Qed.

(** * The transfer-side controller *)

Lemma pymin_upper_l (a b : Q) : pymin a b <= a.
Proof.
  unfold pymin. destruct (Qltb b a) eqn:E.
  - apply Qlt_le_weak. now apply Qltb_lt.
  - apply Qle_refl.
Qed.

Lemma pymax_upper (a b x : Q) : a <= x -> b <= x -> pymax a b <= x.
Proof.
  intros Ha Hb. unfold pymax. now destruct (Qltb a b).
Qed.

Section TransferFacts.

Variable A : Type.
Variable R : Type.
Variable alg_on_ack_received : A -> Z -> R -> outcome A.
Variable alg_on_timeout : A -> R -> outcome A.
Variable alg_on_loss_detected : A -> R -> outcome A.
Variable alg_cwnd : A -> Q.

Lemma transfer_update_network_conditions (s : Transfer.t A) (now : Q) :
  exists s',
    Transfer._update_network_conditions s now = Done s'
    /\ Transfer.retransmit_timeout s' = Transfer.retransmit_timeout s
    /\ Transfer.duplicate_acks s' = Transfer.duplicate_acks s
    /\ Transfer.last_ack_number s' = Transfer.last_ack_number s
    /\ Transfer.algorithm s' = Transfer.algorithm s
    /\ Transfer.packet_loss (Transfer.network_conditions s')
       = (if (3 <=? Transfer.duplicate_acks s)%nat
          then pymin 0.5
                 (Transfer.packet_loss (Transfer.network_conditions s) + 0.1)
          else pymax 0
                 (Transfer.packet_loss (Transfer.network_conditions s) - 0.01)).
Proof.
  unfold Transfer._update_network_conditions. cbv zeta.
  destruct (3 <=? Transfer.duplicate_acks s)%nat;
    cbn [Transfer.bytes_in_flight Transfer.set_network_conditions
         Transfer.network_conditions];
    (destruct (Qltb 0 (now - Transfer.last_update_time s)) eqn:E;
     [apply Qltb_lt in E;
      rewrite (truediv_nonzero _ _ (Qlt_nonzero _ E))|]);
    cbn [andb]; try destruct (0 <? Transfer.bytes_in_flight s)%Z;
    cbn [bind]; eexists; (split; [reflexivity|]); now repeat split.
Qed.

Lemma transfer_update_keeps_bounds (s : Transfer.t A) (now : Q) :
  transfer_bounds s ->
  exists s',
    Transfer._update_network_conditions s now = Done s'
    /\ transfer_bounds s'
    /\ Transfer.duplicate_acks s' = Transfer.duplicate_acks s
    /\ Transfer.last_ack_number s' = Transfer.last_ack_number s.
Proof.
  intros (H1 & H2 & H3 & H4).
  destruct (transfer_update_network_conditions s now)
    as (s' & Hrun & Hrto & Hdup & Hlast & _ & Hpl).
  exists s'. split; [exact Hrun|]. split; [|now split].
  unfold transfer_bounds. rewrite Hrto, Hpl.
  split; [exact H1|]. split; [exact H2|].
  destruct (3 <=? Transfer.duplicate_acks s)%nat.
  - split; [apply pymin_lower; lra | apply pymin_upper_l].
  - split; [apply pymax_lower_l | apply pymax_upper; lra].
Qed.

Lemma transfer_rto_update_bounds (s : Transfer.t A) (sample : Q) :
  let s' := Transfer._update_retransmit_timeout s sample in
  0.1 <= Transfer.retransmit_timeout s'
  /\ Transfer.retransmit_timeout s' <= 60
  /\ Transfer.network_conditions s' = Transfer.network_conditions s
  /\ Transfer.duplicate_acks s' = Transfer.duplicate_acks s
  /\ Transfer.last_ack_number s' = Transfer.last_ack_number s.
Proof.
  unfold Transfer._update_retransmit_timeout. cbv zeta.
  cbn [Transfer.retransmit_timeout Transfer.set_retransmit_timeout].
  split; [|split; [apply pymin_upper_r|]].
  - apply pymin_lower; [apply pymax_lower_r | discriminate].
  - destruct (Transfer.estimator s) as [[srtt rttvar]|]; now repeat split.
Qed.

Lemma transfer_step_bounds (s : Transfer.t A) (c : Transfer.call R) :
  transfer_bounds s ->
  transfer_bounds
    (final (Transfer.step alg_on_ack_received alg_on_timeout
              alg_on_loss_detected alg_cwnd s c)).
Proof.
  intro Hb.
  assert (Hadj : forall s0 : Transfer.t A,
             transfer_bounds s0 ->
             transfer_bounds (Transfer._adjust_retransmit_timeout s0 2)).
  { intros s0 (H1 & H2 & H3 & H4). unfold transfer_bounds.
    cbn [Transfer._adjust_retransmit_timeout Transfer.retransmit_timeout
         Transfer.set_retransmit_timeout Transfer.network_conditions].
    split; [apply pymin_lower; lra|].
    split; [apply pymin_upper_r|]. now split. }
  assert (Htimeout : forall (s0 : Transfer.t A) env now,
             transfer_bounds s0 ->
             transfer_bounds
               (final (Transfer.on_timeout alg_on_timeout s0 env now))).
  { intros s0 env now H0. unfold Transfer.on_timeout.
    destruct (alg_on_timeout (Transfer.algorithm s0) env) as [a|e a];
      [|exact H0].
    cbv zeta.
    destruct (transfer_update_keeps_bounds
                (Transfer.set_duplicate_acks (Transfer.set_algorithm s0 a) 0)
                now H0) as (s1 & -> & H1 & _).
    cbn [bind final]. now apply Hadj. }
  destruct c as [n now|ack_number bytes_acked sample t_now env t_update
                |env now|env t_timeout t_update]; cbn [Transfer.step].
  - unfold Transfer.on_data_sent. cbv zeta.
    destruct (transfer_update_keeps_bounds
                (Transfer.set_bytes_in_flight s (Transfer.bytes_in_flight s + n))
                now Hb) as (s1 & -> & H1 & _).
    exact H1.
  - unfold Transfer.on_ack_received. cbv zeta.
    set (s1 := match sample with
               | Some r => _
               | None => s
               end).
    assert (H1 : transfer_bounds s1).
    { subst s1. destruct sample as [r|]; [|exact Hb].
      destruct Hb as (_ & _ & H3 & H4).
      match goal with
      | |- transfer_bounds (Transfer._update_retransmit_timeout ?x r) =>
          destruct (transfer_rto_update_bounds x r) as (Ha & Hb' & Hn & _)
      end.
      cbv zeta in Ha, Hb', Hn. unfold transfer_bounds. rewrite Hn.
      now repeat split. }
    clearbody s1.
    set (s2 := if (ack_number =? Transfer.last_ack_number s1)%Z
               then _ else _).
    assert (H2 : transfer_bounds s2).
    { subst s2. now destruct (ack_number =? Transfer.last_ack_number s1)%Z. }
    clearbody s2.
    destruct (alg_on_ack_received (Transfer.algorithm s2) ack_number env)
      as [a|e a]; [|exact H2].
    match goal with
    | |- transfer_bounds
           (final (Transfer._update_network_conditions ?x t_update)) =>
        destruct (transfer_update_keeps_bounds x t_update H2)
          as (s3 & -> & H3 & _)
    end.
    exact H3.
  - now apply Htimeout.
  - unfold Transfer.on_loss_detected.
    assert (Hfirst : forall o : outcome (Transfer.t A),
               transfer_bounds (final o) ->
               transfer_bounds
                 (final (do s0 <- o;
                         Transfer._update_network_conditions s0 t_update))).
    { intros [s0|e s0] H0; cbn [bind final] in *; [|exact H0].
      destruct (transfer_update_keeps_bounds s0 t_update H0)
        as (s3 & -> & H3 & _).
      exact H3. }
    apply Hfirst. destruct (Transfer.algorithm_type s).
    + now apply Htimeout.
    + now apply Htimeout.
    + destruct (alg_on_loss_detected (Transfer.algorithm s) env); exact Hb.
Qed.

(** X24. The retransmit timeout stays between 100 ms and 60 s.  From
    construction on, through any sequence of sends, acks, timeouts and
    loss signals, whatever the algorithm object does (including raising),
    [0.1 <= retransmit_timeout <= 60]. *)
Theorem retransmit_timeout_clamped (kind : Transfer.CongestionAlgorithm)
    (a : A) (t0 : Q) (calls : list (Transfer.call R)) :
  let s := Transfer.run alg_on_ack_received alg_on_timeout
             alg_on_loss_detected alg_cwnd (Transfer.init kind a t0) calls in
  0.1 <= Transfer.retransmit_timeout s
  /\ Transfer.retransmit_timeout s <= 60.
Proof.
  assert (H : transfer_bounds (Transfer.init kind a t0)).
  { unfold transfer_bounds. simpl. repeat split; discriminate. }
  generalize dependent (Transfer.init kind a t0).
  induction calls as [|c calls IH]; intros s Hs.
  - destruct Hs as (H1 & H2 & _). now split.
  - cbn [Transfer.run]. apply IH. now apply transfer_step_bounds.
Qed.

(** X25. The loss estimate stays between 0 and 0.5 under the same
    sequences of calls. *)
Theorem packet_loss_estimate_bounded (kind : Transfer.CongestionAlgorithm)
    (a : A) (t0 : Q) (calls : list (Transfer.call R)) :
  let s := Transfer.run alg_on_ack_received alg_on_timeout
             alg_on_loss_detected alg_cwnd (Transfer.init kind a t0) calls in
  0 <= Transfer.packet_loss (Transfer.network_conditions s)
  /\ Transfer.packet_loss (Transfer.network_conditions s) <= 0.5.
Proof.
  assert (H : transfer_bounds (Transfer.init kind a t0)).
  { unfold transfer_bounds. simpl. repeat split; discriminate. }
  generalize dependent (Transfer.init kind a t0).
  induction calls as [|c calls IH]; intros s Hs.
  - destruct Hs as (_ & _ & H3 & H4). now split.
  - cbn [Transfer.run]. apply IH. now apply transfer_step_bounds.
Qed.

Lemma transfer_ack_counter (s : Transfer.t A) (ack_number bytes_acked : Z)
    (sample : option Q) (t_now : Q) (env : R) (t_update : Q) :
  let s' := final (Transfer.on_ack_received alg_on_ack_received alg_cwnd s
                     ack_number bytes_acked sample t_now env t_update) in
  Transfer.last_ack_number s' = ack_number
  /\ Transfer.duplicate_acks s'
     = (if (ack_number =? Transfer.last_ack_number s)%Z
        then S (Transfer.duplicate_acks s)
        else 0%nat).
Proof.
  unfold Transfer.on_ack_received. cbv zeta.
  set (s1 := match sample with
             | Some r => _
             | None => s
             end).
  assert (H1 : Transfer.duplicate_acks s1 = Transfer.duplicate_acks s
               /\ Transfer.last_ack_number s1 = Transfer.last_ack_number s).
  { subst s1. destruct sample as [r|]; [|now split].
    match goal with
    | |- context [Transfer._update_retransmit_timeout ?x r] =>
        destruct (transfer_rto_update_bounds x r) as (_ & _ & _ & Hd & Hl)
    end.
    cbv zeta in Hd, Hl. now rewrite Hd, Hl. }
  destruct H1 as [Hd1 Hl1]. rewrite <- Hd1, <- Hl1. clearbody s1.
  set (s2 := if (ack_number =? Transfer.last_ack_number s1)%Z
             then _ else _).
  assert (H2 : Transfer.last_ack_number s2 = ack_number
               /\ Transfer.duplicate_acks s2
                  = (if (ack_number =? Transfer.last_ack_number s1)%Z
                     then S (Transfer.duplicate_acks s1)
                     else 0%nat)).
  { subst s2. destruct (Z.eqb_spec ack_number (Transfer.last_ack_number s1));
      cbn; split; auto; lia. }
  destruct H2 as [Hl2 Hd2]. clearbody s2.
  match goal with
  | |- Transfer.last_ack_number ?x = _ /\ Transfer.duplicate_acks ?x = _ =>
      assert (H3 : Transfer.last_ack_number x = Transfer.last_ack_number s2
                   /\ Transfer.duplicate_acks x = Transfer.duplicate_acks s2)
  end.
  { destruct (alg_on_ack_received (Transfer.algorithm s2) ack_number env)
      as [a|e a]; [|now split].
    match goal with
    | |- context [Transfer._update_network_conditions ?x t_update] =>
        destruct (transfer_update_network_conditions x t_update)
          as (s3 & -> & _ & Hd3 & Hl3 & _)
    end.
    cbn [final]. now rewrite Hd3, Hl3. }
  destruct H3 as [-> ->]. now split.
Qed.

Lemma transfer_repeated_acks (n : Z) (calls : list (Transfer.call R)) :
  forall s : Transfer.t A,
    Transfer.last_ack_number s = n ->
    Forall (ack_numbered n) calls ->
    let s' := Transfer.run alg_on_ack_received alg_on_timeout
                alg_on_loss_detected alg_cwnd s calls in
    Transfer.last_ack_number s' = n
    /\ Transfer.duplicate_acks s'
       = (Transfer.duplicate_acks s + length calls)%nat.
Proof.
  induction calls as [|c calls IH]; intros s Hlast Hall.
  - simpl. split; [exact Hlast | lia].
  - inversion Hall as [|? ? Hc Hrest]; subst.
    destruct c as [?|k b r t1 env t2|? ?|? ? ?]; simpl in Hc;
      try contradiction.
    subst k. cbn [Transfer.run Transfer.step].
    destruct (transfer_ack_counter s (Transfer.last_ack_number s) b r t1 env t2)
      as [Hl Hd].
    cbv zeta in Hl, Hd. rewrite Z.eqb_refl in Hd.
    destruct (IH _ Hl Hrest) as [Hl' Hd'].
    cbv zeta in *. split; [exact Hl'|].
    rewrite Hd', Hd. cbn [length]. lia.
Qed.

(** X26. The duplicate-ack counter counts consecutive repeats.  After
    an ack whose number differs from the last one seen, followed by [k]
    further acks with that same number, [duplicate_acks = k] and
    [last_ack_number] is that number.  This holds whatever the
    algorithm object does, since the counter is updated before the
    object is called. *)
Theorem duplicate_acks_count_repeats (s : Transfer.t A) (n : Z)
    (first : Transfer.call R) (repeats : list (Transfer.call R)) :
  n <> Transfer.last_ack_number s ->
  ack_numbered n first ->
  Forall (ack_numbered n) repeats ->
  let s' := Transfer.run alg_on_ack_received alg_on_timeout
              alg_on_loss_detected alg_cwnd s (first :: repeats) in
  Transfer.last_ack_number s' = n
  /\ Transfer.duplicate_acks s' = length repeats.
Proof.
  intros Hne Hfirst Hall.
  destruct first as [?|k b r t1 env t2|? ?|? ? ?]; simpl in Hfirst;
    try contradiction.
  subst k. cbn [Transfer.run Transfer.step].
  destruct (transfer_ack_counter s n b r t1 env t2) as [Hl Hd].
  cbv zeta in Hl, Hd.
  apply Z.eqb_neq in Hne. rewrite Hne in Hd.
  destruct (transfer_repeated_acks n repeats _ Hl Hall) as [Hl' Hd'].
  cbv zeta in *. split; [exact Hl'|]. rewrite Hd', Hd. reflexivity.
Qed.

End TransferFacts.

Lemma duplicate_acks_count_repeats_witness :
  let s := Transfer.init Transfer.TAHOE Tahoe.init 0 in
  let s' := Transfer.run (fun a n (_ : unit) => Tahoe.on_ack_received a n)
              (fun a _ => Done (Tahoe.on_timeout a))
              (fun a _ => Done (Tahoe.on_timeout a)) Tahoe.cwnd s
              [Transfer.Ack 7 100 None 1 tt 1; Transfer.Ack 7 0 None 2 tt 2;
               Transfer.Ack 7 0 None 3 tt 3; Transfer.Ack 7 0 None 4 tt 4] in
  Transfer.last_ack_number s' = 7%Z /\ Transfer.duplicate_acks s' = 3%nat.
Proof.
  apply (duplicate_acks_count_repeats Tahoe.t unit
           (fun a n _ => Tahoe.on_ack_received a n)
           (fun a _ => Done (Tahoe.on_timeout a))
           (fun a _ => Done (Tahoe.on_timeout a)) Tahoe.cwnd
           (Transfer.init Transfer.TAHOE Tahoe.init 0) 7
           (Transfer.Ack 7 100 None 1 tt 1)
           [Transfer.Ack 7 0 None 2 tt 2; Transfer.Ack 7 0 None 3 tt 3;
            Transfer.Ack 7 0 None 4 tt 4]).
  - discriminate.
  - reflexivity.
  - repeat constructor.
Defined.
